(** * gitforge: a shallow embedding of the object store, the reference store,
    the index, the three-way tree merge and the history operations.

    The Python sources embedded here are [objects.py], [diff_engine.py] and
    [repository.py].  Conventions of the embedding:

    - [bytes] and [str] are both Rocq [string]s (a [str] is its UTF-8
      encoding, so [encode] and [decode] are the identity);
    - the file system is a finite map from normalised absolute paths (lists
      of components) to file contents; directories are implicit (a directory
      exists when a file lies below it), path resolution is lexical, and the
      only modelled I/O failure is reading a file that is not there;
    - the two JSON documents of the store, [index] and [REBASE_STATE], are
      kept decoded, beside the map of files;
    - Python exceptions do not roll anything back: a computation returns its
      result or its exception together with the state it reached;
    - [hashlib.sha1], [zlib], the [diff3] program, the author regular
      expression, the user identity and the clock are parameters ([Env]). *)

From Stdlib Require Import Ascii ZArith NArith Lia.
From Stdlib Require String DecimalString.
From stdpp Require Import base option list gmap strings fin_maps.

Set Default Proof Using "Type".

(* ===================================================================== *)
(** * Python built-ins on strings *)
(* ===================================================================== *)

Module Py.

(** [s.split(sep)] for a one-character separator: never empty. *)
Fixpoint split (sep : ascii) (s : string) : list string :=
  match s with
  | EmptyString => [EmptyString]
  | String a s' =>
      if Ascii.eqb a sep then EmptyString :: split sep s'
      else match split sep s' with
           | [] => [String a EmptyString]
           | w :: ws => String a w :: ws
           end
  end.

(** [s.partition(sep)]: the part before the first [sep], whether [sep] was
    found, and the part after it. *)
Fixpoint partition (sep : ascii) (s : string) : string * bool * string :=
  match s with
  | EmptyString => (EmptyString, false, EmptyString)
  | String a s' =>
      if Ascii.eqb a sep then (EmptyString, true, s')
      else let '(h, found, t) := partition sep s' in (String a h, found, t)
  end.

(** [s.split(sep, n)]: at most [n] splits, hence at most [n+1] pieces. *)
Fixpoint splitn (n : nat) (sep : ascii) (s : string) : list string :=
  match n with
  | O => [s]
  | S n' =>
      match partition sep s with
      | (h, true, t) => h :: splitn n' sep t
      | (h, false, _) => [h]
      end
  end.

(** [sep.join(l)]. *)
Fixpoint join (sep : string) (l : list string) : string :=
  match l with
  | [] => EmptyString
  | [x] => x
  | x :: l' => x +:+ sep +:+ join sep l'
  end.

(** [''.join(l)]. *)
Definition concat (l : list string) : string := fold_right String.append EmptyString l.

(** ASCII white space, as [str.isspace] sees it.  (Strings are strings of
    bytes here; the white space that Python sees beyond ASCII is left to
    the hypothesis [ascii_only] of the statements.) *)
Definition isspace (a : ascii) : bool :=
  let n := nat_of_ascii a in
  ((9 <=? n) && (n <=? 13)) || ((28 <=? n) && (n <=? 32)).

Fixpoint lstrip (s : string) : string :=
  match s with
  | EmptyString => EmptyString
  | String a s' => if isspace a then lstrip s' else s
  end.

(** [rstrip]: an all-blank tail is dropped. *)
Fixpoint rstrip (s : string) : string :=
  match s with
  | EmptyString => EmptyString
  | String a s' =>
      match rstrip s' with
      | EmptyString => if isspace a then EmptyString else String a EmptyString
      | r => String a r
      end
  end.

Definition strip (s : string) : string := rstrip (lstrip s).

Definition startswith (s p : string) : bool := String.prefix p s.

(** [s[:n]] and [s[n:]]. *)
Fixpoint take (n : nat) (s : string) : string :=
  match n, s with
  | S n', String a s' => String a (take n' s')
  | _, _ => EmptyString
  end.

Fixpoint drop (n : nat) (s : string) : string :=
  match n, s with
  | S n', String _ s' => drop n' s'
  | _, _ => s
  end.

(** [str.splitlines()]: the line boundaries are LF, CR, CR LF, VT, FF, FS,
    GS, RS, and NEL, LS, PS in their UTF-8 encodings; no empty last line. *)
Definition is_break1 (a : ascii) : bool :=
  let n := nat_of_ascii a in
  (n =? 10) || (n =? 11) || (n =? 12) || (n =? 13) || (n =? 28) || (n =? 29) || (n =? 30).

(** Length in bytes of the line boundary at the head of [s], 0 when there
    is none. *)
Definition break_len (s : string) : nat :=
  match s with
  | String a s' =>
      let na := nat_of_ascii a in
      match s' with
      | String b s'' =>
          let nb := nat_of_ascii b in
          if (na =? 13) && (nb =? 10) then 2
          else if is_break1 a then 1
          else if (na =? 194) && (nb =? 133) then 2
          else match s'' with
               | String c _ =>
                   let nc := nat_of_ascii c in
                   if (na =? 226) && (nb =? 128) && ((nc =? 168) || (nc =? 169))
                   then 3 else 0
               | EmptyString => 0
               end
      | EmptyString => if is_break1 a then 1 else 0
      end
  | EmptyString => 0
  end.

(** The pieces between line boundaries; [skip] counts the bytes of the
    current boundary that are still to be passed over. *)
Fixpoint split_breaks (skip : nat) (s : string) : list string :=
  match s with
  | EmptyString => [EmptyString]
  | String a s' =>
      match skip with
      | S O => EmptyString :: split_breaks 0 s'
      | S k => split_breaks k s'
      | O =>
          match break_len s with
          | O => match split_breaks 0 s' with
                 | [] => [String a EmptyString]
                 | w :: ws => String a w :: ws
                 end
          | S O => EmptyString :: split_breaks 0 s'
          | S k => split_breaks k s'
          end
      end
  end.

Definition splitlines (s : string) : list string :=
  let pieces := split_breaks 0 s in
  match last pieces with
  | Some EmptyString => removelast pieces
  | _ => pieces
  end.

(** [c in string.hexdigits]. *)
Definition is_hexdigit (a : ascii) : bool :=
  let n := nat_of_ascii a in
  ((48 <=? n) && (n <=? 57)) || ((65 <=? n) && (n <=? 70)) || ((97 <=? n) && (n <=? 102)).

Fixpoint all_chars (p : ascii → bool) (s : string) : bool :=
  match s with
  | EmptyString => true
  | String a s' => p a && all_chars p s'
  end.

(** Truth value of a [str]. *)
Definition truthy (s : string) : bool :=
  match s with EmptyString => false | _ => true end.

(** Truth value of a [str] or [None]. *)
Definition truthy_opt (o : option string) : bool :=
  match o with Some s => truthy s | None => false end.

(** An insertion-ordered [dict]: keys are unique, an update keeps the
    position of the key, a new key goes last. *)
Definition dict (V : Type) : Type := list (string * V).

Fixpoint dict_get {V} (k : string) (d : dict V) : option V :=
  match d with
  | [] => None
  | (k', v) :: d' => if String.eqb k k' then Some v else dict_get k d'
  end.

Fixpoint dict_set {V} (k : string) (v : V) (d : dict V) : dict V :=
  match d with
  | [] => [(k, v)]
  | (k', v') :: d' =>
      if String.eqb k k' then (k', v) :: d' else (k', v') :: dict_set k v d'
  end.

Fixpoint dict_del {V} (k : string) (d : dict V) : dict V :=
  match d with
  | [] => []
  | (k', v') :: d' => if String.eqb k k' then d' else (k', v') :: dict_del k d'
  end.

Definition dict_mem {V} (k : string) (d : dict V) : bool :=
  match dict_get k d with Some _ => true | None => false end.

(** [d.update(d2)]. *)
Definition dict_update {V} (d d2 : dict V) : dict V :=
  fold_left (λ acc kv, dict_set kv.1 kv.2 acc) d2 d.

(** [sorted] on strings (code-point order is byte order in UTF-8). *)
Fixpoint insert_sorted {V} (kv : string * V) (l : list (string * V)) : list (string * V) :=
  match l with
  | [] => [kv]
  | kv' :: l' =>
      if String.leb kv.1 kv'.1 then kv :: l else kv' :: insert_sorted kv l'
  end.

Definition sorted_by_name {V} (l : list (string * V)) : list (string * V) :=
  fold_right insert_sorted [] l.

End Py.


(* ===================================================================== *)
(** * [os.path]: lexical path resolution *)
(* ===================================================================== *)

Module Path.

(** [posixpath.normpath] on the components of an absolute name: empty
    components and [.] vanish, [..] removes the component before it and
    does nothing at the root.  [stack] holds the result so far, reversed. *)
Fixpoint norm_go (stack : list string) (comps : list string) : list string :=
  match comps with
  | [] => rev stack
  | c :: cs =>
      if String.eqb c "" || String.eqb c "." then norm_go stack cs
      else if String.eqb c ".." then norm_go (tail stack) cs
      else norm_go (c :: stack) cs
  end.

(** [os.path.abspath(p)], as the list of its components, in the working
    directory [cwd] (itself absolute and normal). *)
Definition abspath (cwd : list string) (p : string) : list string :=
  if Py.startswith p "/" then norm_go [] (Py.split "/" p)
  else norm_go (rev cwd) (Py.split "/" p).

Fixpoint strip_common (a b : list string) : list string * list string :=
  match a, b with
  | x :: a', y :: b' => if String.eqb x y then strip_common a' b' else (a, b)
  | _, _ => (a, b)
  end.

(** The name of the absolute path [key] relative to [cwd]. *)
Definition rel_of (cwd key : list string) : string :=
  let '(up, down) := strip_common cwd key in
  match (((λ _, "..") <$> up) ++ down)%list with
  | [] => "."
  | rel_list => Py.join "/" rel_list
  end.

(** [os.path.relpath(p)]; [None] is the [ValueError] on an empty name. *)
Definition relpath (cwd : list string) (p : string) : option string :=
  match p with
  | EmptyString => None
  | _ => Some (rel_of cwd (abspath cwd p))
  end.

(** The absolute name of a key, as [os.walk] from an absolute top would
    print it. *)
Definition abs_name (key : list string) : string :=
  "/" +:+ Py.join "/" key.

Fixpoint is_prefix (a b : list string) : bool :=
  match a, b with
  | [], _ => true
  | x :: a', y :: b' => String.eqb x y && is_prefix a' b'
  | _ :: _, [] => false
  end.

Definition is_strict_prefix (a b : list string) : bool :=
  is_prefix a b && negb (length a =? length b).

End Path.

(* ===================================================================== *)
(** * Data model *)
(* ===================================================================== *)

(** [objects.RefValue]. *)
Record RefValue := mkRefValue { symbolic : bool; value : option string }.

(** The four conflict types of [diff_engine.merge_trees]. *)
Inductive conflict_type :=
  | add_add
  | current_delete_target_modify
  | current_modify_target_delete
  | content_conflict.

(** An index entry: [{"state": "clear", "oid": ...}] or
    [{"state": "conflict", "type": ..., "oid": ..., "base": ..., "head": ...,
    "other": ...}]. *)
Inductive entry :=
  | Clear (oid : option string)
  | Conflict (type_ : conflict_type) (oid : option string)
             (base head other : option string).

Definition entry_oid (e : entry) : option string :=
  match e with
  | Clear oid => oid
  | Conflict _ oid _ _ _ => oid
  end.

Definition Index : Type := Py.dict entry.

(** The document of [REBASE_STATE]. *)
Record RebaseState := mkRebaseState {
  orig_head : option string;
  upstream : option string;
  commits : list string;
  current_index : nat
}.

(** A flat tree [{path: oid}]; an oid is [None] only when it comes from an
    index entry that has none. *)
Definition flat_tree : Type := Py.dict (option string).

(** [repository.Author] and [repository.Commit]. *)
Record Author := mkAuthor {
  name : string; email : string; timestamp : N; timezone : string
}.

Record Commit := mkCommit {
  tree : string;
  parents : list string;
  message : string;
  author : Author;
  committer : Author
}.

(** What is on disk and what was printed. *)
Record State := mkState {
  files : gmap (list string) string;
  index_doc : option Index;
  rebase_doc : option RebaseState;
  wlog : list (list string);
  stdout : list string;
  ticks : nat
}.

(** Python exceptions; [OutOfFuel] is not one of them: it marks a [while]
    loop that did not finish within the budget of the model. *)
Inductive exn :=
  | ConflictException (msg : string) (conflicted_files : list string)
  | AssertionError (msg : string)
  | AttributeError
  | FileNotFoundError (path : string)
  | FileExistsError (path : string)
  | ValueError
  | TypeError
  | KeyError
  | IndexError
  | UnboundLocalError
  | RecursionError
  | ZlibError
  | OutOfFuel.

Inductive Res (A : Type) :=
  | Ok (a : A)
  | Raise (e : exn).
Arguments Ok {A} a.
Arguments Raise {A} e.

(** A computation: from a state to a result or an exception, and the state
    reached either way. *)
Definition M (A : Type) : Type := State → Res A * State.

#[global] Instance M_ret : MRet M := λ A a st, (Ok a, st).
#[global] Instance M_bind : MBind M := λ A B f m st,
  match m st with
  | (Ok a, st') => f a st'
  | (Raise e, st') => (Raise e, st')
  end.

Definition raise {A} (e : exn) : M A := λ st, (Raise e, st).
Definition get_state : M State := λ st, (Ok st, st).
Definition assert (b : bool) (msg : string) : M unit :=
  if b then mret tt else raise (AssertionError msg).
Definition print (line : string) : M unit := λ st,
  (Ok tt, mkState (files st) (index_doc st) (rebase_doc st) (wlog st)
                  (stdout st ++ [line]) (ticks st)).

(** [for x in l: body x]. *)
Fixpoint for_each {A} (l : list A) (body : A → M unit) : M unit :=
  match l with
  | [] => mret tt
  | x :: l' => body x ≫= λ _, for_each l' body
  end.

(** A loop that carries an accumulator. *)
Fixpoint fold_m {A B} (body : B → A → M B) (l : list A) (acc : B) : M B :=
  match l with
  | [] => mret acc
  | x :: l' => body acc x ≫= λ acc', fold_m body l' acc'
  end.

(** The environment of a run. *)
Class Env := {
  cwd : list string;
  sha1_hexdigest : string → string;
  zlib_compress : string → string;
  zlib_decompress : string → option string;
  (** [diff3 -m] on the contents of HEAD, BASE and MERGE_HEAD: its output
      and its return code. *)
  diff3_m : string → string → string → string * nat;
  (** [_parse_author_line]: [re.match] with the author pattern. *)
  parse_author_line : string → option Author;
  (** [objects.get_user_identity]: configuration and process environment. *)
  user_identity : string * string;
  (** [objects.format_timestamp] at the n-th reading of the clock. *)
  clock : nat → string;
  (** The interpreter's bound on the depth of recursive calls, and the
      model's bound on the number of rounds of a [while] loop. *)
  recursion_limit : nat;
  while_budget : nat
}.

(** [zlib.decompress] undoes [zlib.compress]. *)
Class EnvOk (E : Env) := {
  decompress_compress : ∀ s, zlib_decompress (zlib_compress s) = Some s
}.

Section FileSystem.
Context {E : Env}.

Definition set_files (f : gmap (list string) string) (log : list (list string)) (st : State) : State :=
  mkState f (index_doc st) (rebase_doc st) log (stdout st) (ticks st).

(** [os.path.isfile], on the map of files.  (The files of the index and
    of the state of a rebase are not in the map, see [doc_key].) *)
Definition isfile (path : string) : M bool := λ st,
  (Ok (bool_decide (is_Some (files st !! Path.abspath cwd path))), st).

(** [os.path.isdir]: the working directory, one of its ancestors, or a
    directory with a file somewhere below it. *)
Definition isdir (path : string) : M bool := λ st,
  let key := Path.abspath cwd path in
  (Ok (Path.is_prefix key cwd
       || existsb (λ kv, Path.is_strict_prefix key kv.1) (map_to_list (files st))), st).

(** [open(path).read()]: the bytes of the file, not decoded (see
    [text_file]). *)
Definition read_file (path : string) : M string := λ st,
  match files st !! Path.abspath cwd path with
  | Some data => (Ok data, st)
  | None => (Raise (FileNotFoundError path), st)
  end.

(** [os.makedirs(dirname, exist_ok=True)] and [open(path, 'w')]: the file
    is created or truncated, and the opening is logged.  (A clash of the
    name with a directory, or of one of its directories with a file, is not
    seen here: see [writable].) *)
Definition open_w (path : string) : M unit := λ st,
  let key := Path.abspath cwd path in
  (Ok tt, set_files (<[key := ""]> (files st)) (key :: wlog st) st).

(** [f.write(data)] on a file just opened for writing. *)
Definition f_write (path : string) (data : string) : M unit := λ st,
  let key := Path.abspath cwd path in
  (Ok tt, set_files (<[key := data]> (files st)) (wlog st) st).

Definition write_file (path : string) (data : string) : M unit :=
  open_w path;; f_write path data.

(** [os.remove]. *)
Definition remove (path : string) : M unit := λ st,
  let key := Path.abspath cwd path in
  match files st !! key with
  | Some _ => (Ok tt, set_files (delete key (files st)) (wlog st) st)
  | None => (Raise (FileNotFoundError path), st)
  end.

(** [os.walk(top)], flattened: the names [f'{root}/{filename}'] of the files
    below [top], in the order of the directory (here: of the map); they are
    given absolute, and every caller passes them through [relpath]. *)
Definition walk (top : string) : M (list string) := λ st,
  let key := Path.abspath cwd top in
  (Ok (Path.abs_name <$>
         filter (λ k, Is_true (Path.is_strict_prefix key k)) (map_to_list (files st)).*1), st).

(** [os.path.relpath] with its [ValueError]. *)
Definition relpath (path : string) : M string :=
  match Path.relpath cwd path with
  | Some p => mret p
  | None => raise ValueError
  end.

End FileSystem.

(* ===================================================================== *)
(** * objects.py *)
(* ===================================================================== *)

Module objects.
Section objects.
Context {E : Env}.

(** Set by [cli.main] through [change_git_dir ('.')]. *)
Definition GIT_DIR : string := "./.gitforge".

Definition is_conflict (e : entry) : bool :=
  match e with Conflict _ _ _ _ _ => true | Clear _ => false end.

Definition has_conflicts (index : Index) : bool :=
  existsb (λ kv, is_conflict kv.2) index.

Definition get_conflicted_files (index : Index) : list string :=
  (filter (λ kv, Is_true (is_conflict kv.2)) index).*1.

Definition init : M unit :=
  d ← isdir GIT_DIR;
  f ← isfile GIT_DIR;
  if d || f then raise (FileExistsError GIT_DIR) else mret tt.

Fixpoint _get_ref_internal_go (depth : nat) (ref : string) (deref : bool)
  : M (string * RefValue) :=
  match depth with
  | O => raise RecursionError
  | S depth' =>
      let ref_path := GIT_DIR +:+ "/" +:+ ref in
      is_f ← isfile ref_path;
      value ← (if is_f : bool
               then data ← read_file ref_path; mret (Some (Py.strip data))
               else mret None);
      let symbolic :=
        match value with
        | Some v => Py.truthy v && Py.startswith v "ref:"
        | None => false
        end in
      if symbolic then
        match Py.splitn 1 ":" (default "" value) with
        | [_; t] =>
            let value := Py.strip t in
            if deref then _get_ref_internal_go depth' value true
            else mret (ref, mkRefValue symbolic (Some value))
        | _ => raise IndexError
        end
      else mret (ref, mkRefValue symbolic value)
  end.

Definition _get_ref_internal (ref : string) (deref : bool) : M (string * RefValue) :=
  _get_ref_internal_go recursion_limit ref deref.

Definition update_ref (ref : string) (value_ : RefValue) (deref : bool) : M unit :=
  r ← _get_ref_internal ref deref;
  let ref := r.1 in
  assert (Py.truthy_opt (value value_)) "";;
  let text := if symbolic value_ then "ref: " +:+ default "" (value value_)
              else default "" (value value_) in
  let ref_path := GIT_DIR +:+ "/" +:+ ref in
  write_file ref_path text.

Definition get_ref (ref : string) (deref : bool) : M RefValue :=
  r ← _get_ref_internal ref deref; mret r.2.

Definition delete_ref (ref : string) (deref : bool) : M unit :=
  r ← _get_ref_internal ref deref;
  remove (GIT_DIR +:+ "/" +:+ r.1).

(** The context manager [get_index]: the document is loaded (an absent
    file is the empty index), the body runs on it, and the document is
    written back when the body ends without an exception. *)
Definition index_path : string := GIT_DIR +:+ "/index".

(** The index as a document: the decoded file.  (That the file can be
    written is the hypothesis [index_writable] of the statements.) *)
Definition load_index : M Index := λ st, (Ok (default [] (index_doc st)), st).

Definition dump_index (index : Index) : M unit := λ st,
  (Ok tt, mkState (files st) (Some index) (rebase_doc st)
                  (Path.abspath cwd index_path :: wlog st) (stdout st) (ticks st)).

Definition get_index {A} (body : Index → M (A * Index)) : M A :=
  index ← load_index;
  r ← body index;
  dump_index r.2;;
  mret r.1.

Definition object_path (oid : string) : string :=
  GIT_DIR +:+ "/objects/" +:+ Py.take 2 oid +:+ "/" +:+ Py.drop 2 oid.

Definition NUL : ascii := ascii_of_nat 0.

Definition hash_object (data : string) (type_ : string) : M string :=
  let obj := type_ +:+ String NUL data in
  let oid := sha1_hexdigest obj in
  write_file (object_path oid) (zlib_compress obj);;
  mret oid.

Definition get_object (oid : string) (expected : option string) : M string :=
  raw ← read_file (object_path oid);
  match zlib_decompress raw with
  | None => raise ZlibError
  | Some obj =>
      let '(type_, _, content) := Py.partition NUL obj in
      match expected with
      | Some expected =>
          assert (String.eqb type_ expected)
                 ("Expected " +:+ expected +:+ ", got " +:+ type_);;
          mret content
      | None => mret content
      end
  end.

Definition object_exists (oid : string) : M bool := isfile (object_path oid).

Definition get_user_identity : M (string * string) := mret user_identity.

Definition format_timestamp : M string := λ st,
  (Ok (clock (ticks st)),
   mkState (files st) (index_doc st) (rebase_doc st) (wlog st) (stdout st) (S (ticks st))).

Definition rebase_state_path : string := GIT_DIR +:+ "/REBASE_STATE".

Definition get_rebase_state : M (option RebaseState) := λ st, (Ok (rebase_doc st), st).



End objects.
End objects.

(* ===================================================================== *)
(** * diff_engine.py *)
(* ===================================================================== *)

Module diff_engine.
Section diff_engine.
Context {E : Env}.

(** [compare_trees] on any number of trees: one row [(path, oids)] per path, in the order
    in which the paths first appear. *)
Definition compare_trees (trees : list flat_tree) : list (string * list (option string)) :=
  let n := length trees in
  fold_left
    (λ entries it,
       fold_left
         (λ entries po,
            let row := default (replicate n None) (Py.dict_get po.1 entries) in
            Py.dict_set po.1 (<[it.1 := po.2]> row) entries)
         it.2 entries)
    (imap pair trees) [].

Definition iter_changed_files (t_from t_to : flat_tree) : list (string * string) :=
  omap (λ row,
          match row with
          | (path, [o_from; o_to]) =>
              if bool_decide (o_from ≠ o_to) then
                Some (path, if negb (Py.truthy_opt o_from) then "new file"
                            else if negb (Py.truthy_opt o_to) then "deleted"
                            else "modified")
              else None
          | _ => None
          end)
       (compare_trees [t_from; t_to]).

(** [merge_blobs]: the three blobs (an absent side is an empty file) go
    through [diff3 -m]. *)
Definition blob_or_empty (oid : option string) : M string :=
  match oid with
  | Some o => if Py.truthy o then objects.get_object o (Some "blob") else mret ""
  | None => mret ""
  end.

Definition merge_blobs (o_base o_HEAD o_other : option string) : M (string * bool) :=
  c_base ← blob_or_empty o_base;
  c_HEAD ← blob_or_empty o_HEAD;
  c_other ← blob_or_empty o_other;
  let '(output, returncode) := diff3_m c_HEAD c_base c_other in
  assert ((returncode =? 0) || (returncode =? 1)) "";;
  mret (output, returncode =? 1).

Definition is_None (o : option string) : bool :=
  match o with None => true | Some _ => false end.

(** [a or b] on two oids. *)
Definition or_else (a b : option string) : option string :=
  if Py.truthy_opt a then a else b.

(** One round of the loop of [merge_trees]. *)
Definition merge_trees_row (acc : Index * list string)
    (row : string * list (option string)) : M (Index * list string) :=
  let '(tree, conflicts) := acc in
  match row with
  | (path, [o_base; o_HEAD; o_other]) =>
      let same (a b : option string) := bool_decide (a = b) in
      (* determine the conflict type, merge, and record the outcome *)
      let unified_merge : M (Index * list string) :=
        let conflict_type :=
          if is_None o_base && Py.truthy_opt o_HEAD && Py.truthy_opt o_other
          then add_add
          else if Py.truthy_opt o_base && is_None o_HEAD && Py.truthy_opt o_other
          then current_delete_target_modify
          else if Py.truthy_opt o_base && Py.truthy_opt o_HEAD && is_None o_other
          then current_modify_target_delete
          else content_conflict in
        r ← merge_blobs o_base o_HEAD o_other;
        merged_oid ← objects.hash_object r.1 "blob";
        if r.2 : bool then
          mret (Py.dict_set path
                  (Conflict conflict_type (Some merged_oid) o_base o_HEAD o_other) tree,
                (conflicts ++ [path])%list)
        else
          mret (Py.dict_set path (Clear (Some merged_oid)) tree, conflicts) in
      let add_add_identical : M (Index * list string) :=
        if is_None o_base && Py.truthy_opt o_HEAD && Py.truthy_opt o_other
           && same o_HEAD o_other
        then mret (Py.dict_set path (Clear o_HEAD) tree, conflicts)
        else unified_merge in
      (* both deleted *)
      if is_None o_HEAD && is_None o_other then mret acc
      (* only one side added *)
      else if is_None o_base && negb (Bool.eqb (is_None o_HEAD) (is_None o_other))
      then mret (Py.dict_set path (Clear (or_else o_HEAD o_other)) tree, conflicts)
      (* delete accepted *)
      else if Py.truthy_opt o_base && is_None o_HEAD && same o_other o_base
      then mret acc
      else if Py.truthy_opt o_base && is_None o_other && same o_HEAD o_base
      then mret acc
      (* only one side modified *)
      else if Py.truthy_opt o_base && Py.truthy_opt o_HEAD && Py.truthy_opt o_other then
        if same o_HEAD o_base && negb (same o_other o_base)
        then mret (Py.dict_set path (Clear o_other) tree, conflicts)
        else if same o_other o_base && negb (same o_HEAD o_base)
        then mret (Py.dict_set path (Clear o_HEAD) tree, conflicts)
        else if same o_HEAD o_other
        then mret (Py.dict_set path (Clear o_HEAD) tree, conflicts)
        else add_add_identical
      else add_add_identical
  | _ => raise ValueError
  end.

Definition merge_trees (t_base t_HEAD t_other : flat_tree) : M (Index * list string) :=
  fold_m merge_trees_row (compare_trees [t_base; t_HEAD; t_other]) ([], []).

End diff_engine.
End diff_engine.

(* ===================================================================== *)
(** * repository.py *)
(* ===================================================================== *)

Module repository.
Section repository.
Context {E : Env}.

Definition direct (oid : option string) : RefValue := mkRefValue false oid.

(** A line feed and a double quote, for the messages. *)
Definition nl : string := String (ascii_of_nat 10) "".
Definition dq : string := String (ascii_of_nat 34) "".

Definition init : M unit :=
  objects.init;;
  objects.update_ref "HEAD" (mkRefValue true (Some "refs/heads/master")) true.

Definition is_ignored (path : string) : bool :=
  bool_decide (".gitforge" ∈ Py.split "/" path).

(** The nested dicts that [write_tree] builds from the flat index. *)
#[warnings="-register-all"]
Inductive tnode :=
  | Blob (oid : string)
  | Tree (children : list (string * tnode)).

(** [for dirname in dirpath: current = current.setdefault (dirname, {})] and
    then [current[filename] = oid]; a blob met where a directory is needed
    has no [setdefault] and takes no item. *)
Fixpoint tree_insert (dirpath : list string) (filename : string) (oid : string)
    (current : Py.dict tnode) : Res (Py.dict tnode) :=
  match dirpath with
  | [] => Ok (Py.dict_set filename (Blob oid) current)
  | dirname :: rest =>
      let sub := match Py.dict_get dirname current with
                 | None => Some []
                 | Some (Tree sub) => Some sub
                 | Some (Blob _) => None
                 end in
      match sub with
      | Some sub =>
          match tree_insert rest filename oid sub with
          | Ok sub' => Ok (Py.dict_set dirname (Tree sub') current)
          | Raise e => Raise e
          end
      | None => Raise (match rest with [] => TypeError | _ => AttributeError end)
      end
  end.

Definition lift {A} (r : Res A) : M A := λ st, (r, st).

Definition tree_line (e : string * (string * string)) : string :=
  let '(name, (oid, type_)) := e in
  type_ +:+ " " +:+ oid +:+ " " +:+ name +:+ String (ascii_of_nat 10) "".

(** [write_tree_recursive], on one value of the nested dict: its oid and
    its type. *)
Fixpoint write_tree_node (v : tnode) : M (string * string) :=
  match v with
  | Blob oid => mret (oid, "blob")
  | Tree tree_dict =>
      entries ← (fix each (l : list (string * tnode)) : M (list (string * (string * string))) :=
                   match l with
                   | [] => mret []
                   | (name, value) :: l' =>
                       r ← write_tree_node value;
                       rest ← each l';
                       mret ((name, r) :: rest)
                   end) tree_dict;
      let tree := Py.concat (tree_line <$> Py.sorted_by_name entries) in
      oid ← objects.hash_object tree "tree";
      mret (oid, "tree")
  end.

Definition write_tree_recursive (tree_dict : Py.dict tnode) : M string :=
  r ← write_tree_node (Tree tree_dict); mret r.1.

Definition write_tree : M string :=
  index_as_tree ← objects.get_index (λ index,
    t ← fold_m (λ index_as_tree pe,
                  match entry_oid pe.2 with
                  | None => mret index_as_tree
                  | Some oid =>
                      let path_parts := Py.split "/" pe.1 in
                      lift (tree_insert (removelast path_parts)
                                        (default "" (last path_parts)) oid index_as_tree)
                  end)
               index [];
    mret (t, index));
  write_tree_recursive index_as_tree.

(** [get_tree]: the entries of a tree object, flattened; each line is
    parsed when the loop reaches it. *)
Fixpoint get_tree_go (depth : nat) (oid : option string) (base_path : string) : M flat_tree :=
  match depth with
  | O => raise RecursionError
  | S depth' =>
      if negb (Py.truthy_opt oid) then mret []
      else
        tree ← objects.get_object (default "" oid) (Some "tree");
        fold_m (λ result entry,
                  match Py.splitn 2 " " entry with
                  | [type_; oid; name] =>
                      assert (negb (bool_decide ("/"%char ∈ String.list_ascii_of_string name))) "";;
                      assert (negb (String.eqb name ".." || String.eqb name ".")) "";;
                      let path := base_path +:+ name in
                      if String.eqb type_ "blob" then mret (Py.dict_set path (Some oid) result)
                      else if String.eqb type_ "tree" then
                        sub ← get_tree_go depth' (Some oid) (path +:+ "/");
                        mret (Py.dict_update result sub)
                      else raise (AssertionError ("Unknown tree entry " +:+ type_))
                  | _ => raise ValueError
                  end)
               (Py.splitlines tree) []
  end.

Definition get_tree (oid : option string) : M flat_tree :=
  get_tree_go recursion_limit oid "".

Definition get_working_tree : M flat_tree :=
  names ← walk ".";
  fold_m (λ result name,
            path ← relpath name;
            f ← isfile path;
            if is_ignored path || negb f then mret result
            else data ← read_file path;
                 oid ← objects.hash_object data "blob";
                 mret (Py.dict_set path (Some oid) result))
         names [].

Definition is_clear (e : entry) : bool :=
  match e with Clear _ => true | Conflict _ _ _ _ _ => false end.

Definition get_index_tree : M flat_tree :=
  objects.get_index (λ index,
    mret ((λ pe, (pe.1, entry_oid pe.2)) <$> filter (λ pe, Is_true (is_clear pe.2)) index,
          index)).

Definition _empty_current_directory : M unit :=
  names ← walk ".";
  for_each names (λ name,
    path ← relpath name;
    f ← isfile path;
    if is_ignored path || negb f then mret tt
    else remove path).

Definition _checkout_index (index : Index) : M unit :=
  _empty_current_directory;;
  for_each index (λ pe,
    match entry_oid pe.2 with
    | None => mret tt
    | Some oid =>
        open_w pe.1;;
        data ← objects.get_object oid (Some "blob");
        f_write pe.1 data
    end).

Definition read_tree (tree_oid : string) (update_working : bool) : M unit :=
  objects.get_index (λ _,
    tree ← get_tree (Some tree_oid);
    let index := fold_left (λ index po, Py.dict_set po.1 (Clear po.2) index) tree [] in
    (if update_working then _checkout_index index else mret tt);;
    mret (tt, index)).

Definition read_tree_merged (t_base t_HEAD t_other : option string)
    (update_working : bool) : M (list string) :=
  b ← get_tree t_base;
  h ← get_tree t_HEAD;
  o ← get_tree t_other;
  r ← diff_engine.merge_trees b h o;
  objects.get_index (λ _,
    let index := Py.dict_update [] r.1 in
    (if update_working then _checkout_index index else mret tt);;
    mret (tt, index));;
  mret r.2.

(** [get_commit]: header lines up to the first empty line, then the
    message. *)
Record commit_acc := mkAcc {
  acc_tree : option string;
  acc_parents : list string;
  acc_author : option Author;
  acc_committer : option Author
}.

Fixpoint takewhile_truth (lines : list string) : list string * list string :=
  match lines with
  | [] => ([], [])
  | l :: rest =>
      if Py.truthy l then let '(h, t) := takewhile_truth rest in (l :: h, t)
      else ([], rest)
  end.

Definition unknown_author : Author := mkAuthor "Unknown" "unknown" 0 "+0000".

Definition get_commit (oid : option string) : M Commit :=
  match oid with
  | None => raise TypeError
  | Some oid =>
      commit ← objects.get_object oid (Some "commit");
      let '(header, rest) := takewhile_truth (Py.splitlines commit) in
      acc ← fold_m (λ acc line,
                      match Py.splitn 1 " " line with
                      | [key; value] =>
                          if String.eqb key "tree"
                          then mret (mkAcc (Some value) (acc_parents acc) (acc_author acc) (acc_committer acc))
                          else if String.eqb key "parent"
                          then mret (mkAcc (acc_tree acc) (acc_parents acc ++ [value]) (acc_author acc) (acc_committer acc))
                          else if String.eqb key "author"
                          then mret (mkAcc (acc_tree acc) (acc_parents acc) (parse_author_line value) (acc_committer acc))
                          else if String.eqb key "committer"
                          then mret (mkAcc (acc_tree acc) (acc_parents acc) (acc_author acc) (parse_author_line value))
                          else raise (AssertionError ("Unknown field " +:+ key))
                      | _ => raise ValueError
                      end)
                   header (mkAcc None [] None None);
      let message := Py.join (String (ascii_of_nat 10) "") rest in
      let author := default unknown_author (acc_author acc) in
      let committer := default author (acc_committer acc) in
      match acc_tree acc with
      | None => raise UnboundLocalError
      | Some tree => mret (mkCommit tree (acc_parents acc) message author committer)
      end
  end.

Definition str_of_N (n : N) : string :=
  DecimalString.NilEmpty.string_of_uint (N.to_uint n).

(** [a or b] on a possibly absent, possibly empty string. *)
Definition or_default (a : option string) (b : string) : string :=
  match a with
  | Some s => if Py.truthy s then s else b
  | None => b
  end.

Definition commit (message : string) (author_name author_email author_date : option string)
    (allow_merge_parent : bool) : M string :=
  objects.get_index (λ index,
    if objects.has_conflicts index then
      let conflicted_files := objects.get_conflicted_files index in
      raise (ConflictException
               ("Cannot commit: merge conflicts exist in the following files: "
                +:+ Py.join ", " conflicted_files
                +:+ ". Resolve conflicts and run 'gitforge add' or abort the merge.")
               conflicted_files)
    else mret (tt, index));;
  identity ← objects.get_user_identity;
  let '(default_name, default_email) := identity in
  let author_name := or_default author_name default_name in
  let author_email := or_default author_email default_email in
  author_date ← (match author_date with
                 | Some d => if Py.truthy d then mret d else objects.format_timestamp
                 | None => objects.format_timestamp
                 end);
  let committer_name := default_name in
  let committer_email := default_email in
  committer_date ← objects.format_timestamp;
  let nl := String (ascii_of_nat 10) "" in
  t ← write_tree;
  let commit_data := "tree " +:+ t +:+ nl in
  HEAD ← objects.get_ref "HEAD" true;
  let commit_data :=
    if Py.truthy_opt (value HEAD)
    then commit_data +:+ "parent " +:+ default "" (value HEAD) +:+ nl
    else commit_data in
  commit_data ←
    (if allow_merge_parent then
       MERGE_HEAD ← objects.get_ref "MERGE_HEAD" true;
       commit_data ←
         (if Py.truthy_opt (value MERGE_HEAD) then
            objects.delete_ref "MERGE_HEAD" false;;
            mret (commit_data +:+ "parent " +:+ default "" (value MERGE_HEAD) +:+ nl)
          else mret commit_data);
       ORIG_HEAD ← objects.get_ref "ORIG_HEAD" true;
       (if Py.truthy_opt (value ORIG_HEAD)
        then objects.delete_ref "ORIG_HEAD" false
        else mret tt);;
       mret commit_data
     else mret commit_data);
  let commit_data :=
    commit_data +:+ "author " +:+ author_name +:+ " <" +:+ author_email +:+ "> "
                +:+ author_date +:+ nl in
  let commit_data :=
    commit_data +:+ "committer " +:+ committer_name +:+ " <" +:+ committer_email +:+ "> "
                +:+ committer_date +:+ nl in
  let commit_data := commit_data +:+ nl in
  let commit_data := commit_data +:+ message +:+ nl in
  oid ← objects.hash_object commit_data "commit";
  objects.update_ref "HEAD" (direct (Some oid)) true;;
  mret oid.

(** [get_oid]: a ref under one of four names, or a 40-digit hexadecimal
    name. *)
Definition get_oid (name : string) : M (option string) :=
  let name := if String.eqb name "@" then "HEAD" else name in
  let refs_to_try := [name; "refs/" +:+ name; "refs/tags/" +:+ name; "refs/heads/" +:+ name] in
  (fix try (refs : list string) : M (option string) :=
     match refs with
     | ref :: refs' =>
         r ← objects.get_ref ref false;
         if Py.truthy_opt (value r)
         then r' ← objects.get_ref ref true; mret (value r')
         else try refs'
     | [] =>
         let is_hex := Py.all_chars Py.is_hexdigit name in
         if (String.length name =? 40) && is_hex then mret (Some name)
         else raise (AssertionError ("Unknown name " +:+ name))
     end) refs_to_try.

Definition create_tag (name : string) (oid : option string) : M unit :=
  objects.update_ref ("refs/tags/" +:+ name) (direct oid) true.

Definition create_branch (name : string) (oid : option string) : M unit :=
  objects.update_ref ("refs/heads/" +:+ name) (direct oid) true.

Definition is_branch (branch : string) : M bool :=
  r ← objects.get_ref ("refs/heads/" +:+ branch) true;
  mret (bool_decide (value r ≠ None)).

Definition checkout (name : string) : M unit :=
  objects.get_index (λ index,
    if objects.has_conflicts index then
      let conflicted_files := objects.get_conflicted_files index in
      raise (ConflictException
               ("Cannot checkout: merge conflicts exist in the following files: "
                +:+ Py.join ", " conflicted_files
                +:+ ". Resolve conflicts or abort the merge.")
               conflicted_files)
    else mret (tt, index));;
  oid ← get_oid name;
  commit_obj ← get_commit oid;
  read_tree (tree commit_obj) true;;
  b ← is_branch name;
  let HEAD := if b : bool then mkRefValue true (Some ("refs/heads/" +:+ name))
              else mkRefValue false oid in
  objects.update_ref "HEAD" HEAD false.

Definition reset (oid : option string) (soft mixed hard : bool) : M unit :=
  let soft := if negb (soft || mixed || hard) then true else soft in
  objects.update_ref "HEAD" (direct oid) true;;
  if mixed || hard then
    commit ← get_commit oid;
    read_tree (tree commit) hard
  else mret tt.

(** [for parent in parents: if parent not in visited: ...]. *)
Definition expand (visited : gset (option string)) (frontier : list (option string))
    (parents : list string) : gset (option string) * list (option string) :=
  fold_left (λ vf parent,
               if bool_decide (Some parent ∈ vf.1) then vf
               else ({[Some parent]} ∪ vf.1, (vf.2 ++ [Some parent])%list))
            parents (visited, frontier).

(** The [while frontier1 or frontier2] loop of [get_merge_base]. *)
Fixpoint get_merge_base_loop (fuel : nat) (visited1 visited2 : gset (option string))
    (frontier1 frontier2 : list (option string)) : M (option string) :=
  match fuel with
  | O => raise OutOfFuel
  | S fuel' =>
      let branch2 (visited1 : gset (option string)) (frontier1 : list (option string))
          : M (option string) :=
        match frontier2 with
        | current :: frontier2' =>
            if bool_decide (current ∈ visited1) then mret current
            else
              c ← get_commit current;
              let vf := expand visited2 frontier2' (parents c) in
              get_merge_base_loop fuel' visited1 vf.1 frontier1 vf.2
        | [] => get_merge_base_loop fuel' visited1 visited2 frontier1 []
        end in
      match frontier1, frontier2 with
      | [], [] => mret None
      | current :: frontier1', _ =>
          if bool_decide (current ∈ visited2) then mret current
          else
            c ← get_commit current;
            let vf := expand visited1 frontier1' (parents c) in
            branch2 vf.1 vf.2
      | [], _ => branch2 visited1 []
      end
  end.

Definition get_merge_base (oid1 oid2 : option string) : M (option string) :=
  if bool_decide (oid1 = oid2) then mret oid1
  else get_merge_base_loop while_budget {[oid1]} {[oid2]} [oid1] [oid2].

(** The generator [iter_commits_and_parents]: the queue, the visited set,
    and the oid that was yielded last, whose commit is read when the
    generator is resumed. *)
Record iter_state := mkIter {
  it_oids : list (option string);
  it_visited : gset string;
  it_pending : option string
}.

Fixpoint pop_next (oids : list (option string)) (visited : gset string)
    : option (string * list (option string)) :=
  match oids with
  | [] => None
  | oid :: oids' =>
      match oid with
      | Some o =>
          if negb (Py.truthy o) || bool_decide (o ∈ visited) then pop_next oids' visited
          else Some (o, oids')
      | None => pop_next oids' visited
      end
  end.

Definition iter_next (s : iter_state) : M (option (string * iter_state)) :=
  oids ← (match it_pending s with
          | Some oid =>
              commit ← get_commit (Some oid);
              mret ((Some <$> take 1 (parents commit)) ++ it_oids s
                    ++ (Some <$> drop 1 (parents commit)))%list
          | None => mret (it_oids s)
          end);
  match pop_next oids (it_visited s) with
  | None => mret None
  | Some (oid, oids') => mret (Some (oid, mkIter oids' ({[oid]} ∪ it_visited s) (Some oid)))
  end.

Definition iter_commits_and_parents (oids : list (option string)) : iter_state :=
  mkIter oids ∅ None.

(** [x in generator]. *)
Fixpoint generator_contains (fuel : nat) (x : option string) (s : iter_state) : M bool :=
  match fuel with
  | O => raise OutOfFuel
  | S fuel' =>
      r ← iter_next s;
      match r with
      | None => mret false
      | Some (oid, s') =>
          if bool_decide (x = Some oid) then mret true
          else generator_contains fuel' x s'
      end
  end.

Definition is_ancestor_of (commit : string) (maybe_ancestor : option string) : M bool :=
  generator_contains while_budget maybe_ancestor (iter_commits_and_parents [Some commit]).

Definition merge (other : string) : M unit :=
  existing_merge ← objects.get_ref "MERGE_HEAD" true;
  if Py.truthy_opt (value existing_merge) then
    print "error: You have not concluded your merge (MERGE_HEAD exists).";;
    print ("Please commit your changes before you merge, or use " +:+ dq
           +:+ "gitforge merge --abort" +:+ dq +:+ " to abort.")
  else
    HEAD ← objects.get_ref "HEAD" true;
    let HEAD := value HEAD in
    assert (Py.truthy_opt HEAD) "";;
    merge_base ← get_merge_base (Some other) HEAD;
    c_other ← get_commit (Some other);
    if bool_decide (merge_base = HEAD) then
      read_tree (tree c_other) true;;
      objects.update_ref "HEAD" (direct (Some other)) true;;
      print "Fast-forward merge, no need to commit"
    else
      objects.update_ref "MERGE_HEAD" (direct (Some other)) true;;
      objects.update_ref "ORIG_HEAD" (direct HEAD) true;;
      c_base ← get_commit merge_base;
      c_HEAD ← get_commit HEAD;
      conflicts ← read_tree_merged (Some (tree c_base)) (Some (tree c_HEAD))
                                   (Some (tree c_other)) true;
      match conflicts with
      | _ :: _ =>
          print "Merge stopped due to conflicts:";;
          for_each conflicts (λ p, print ("  - " +:+ p));;
          print "Resolve the conflict / abort the merge"
      | [] => print ("Merged in working tree" +:+ nl +:+ "Please commit")
      end.

Definition merge_abort : M unit :=
  MERGE_HEAD ← objects.get_ref "MERGE_HEAD" true;
  if negb (Py.truthy_opt (value MERGE_HEAD)) then
    print "error: There is no merge in progress (MERGE_HEAD missing)."
  else
    ORIG_HEAD ← objects.get_ref "ORIG_HEAD" true;
    if negb (Py.truthy_opt (value ORIG_HEAD)) then
      print "error: Cannot abort merge (ORIG_HEAD missing)."
    else
      reset (value ORIG_HEAD) false false true;;
      objects.delete_ref "MERGE_HEAD" false;;
      objects.delete_ref "ORIG_HEAD" false;;
      print ("Merge aborted. Restored to " +:+ Py.take 10 (default "" (value ORIG_HEAD))).

Definition add_file (filename : string) (index : Index) : M Index :=
  filename ← relpath filename;
  data ← read_file filename;
  oid ← objects.hash_object data "blob";
  mret (Py.dict_set filename (Clear (Some oid)) index).

Definition add_directory (dirname : string) (index : Index) : M Index :=
  names ← walk dirname;
  fold_m (λ index name,
            path ← relpath name;
            f ← isfile path;
            if is_ignored path || negb f then mret index
            else add_file path index)
         names index.

Definition add (filenames : list string) : M unit :=
  objects.get_index (λ index,
    index ← fold_m (λ index name,
                      f ← isfile name;
                      if f : bool then add_file name index
                      else
                        d ← isdir name;
                        if d : bool then add_directory name index
                        else
                          name ← relpath name;
                          if Py.dict_mem name index then mret (Py.dict_del name index)
                          else mret index)
                   filenames index;
    mret (tt, index)).

Definition _check_clean_state : M (bool * option string) :=
  HEAD ← objects.get_ref "HEAD" true;
  if negb (Py.truthy_opt (value HEAD)) then mret (true, None)
  else
    c ← get_commit (value HEAD);
    head_tree ← get_tree (Some (tree c));
    index_tree ← get_index_tree;
    working_tree ← get_working_tree;
    let differs (row : string * list (option string)) : bool :=
      match row with
      | (_, [a; b]) => bool_decide (a ≠ b)
      | _ => false
      end in
    if existsb differs (diff_engine.compare_trees [head_tree; index_tree])
    then mret (false, Some "staged changes exist")
    else if existsb differs (diff_engine.compare_trees [index_tree; working_tree])
    then mret (false, Some "unstaged changes exist")
    else mret (true, None).

Definition _cherry_pick_cleanup : M unit :=
  r ← objects.get_ref "CHERRY_PICK_HEAD" true;
  (if Py.truthy_opt (value r) then objects.delete_ref "CHERRY_PICK_HEAD" false else mret tt);;
  r ← objects.get_ref "ORIG_HEAD" true;
  (if Py.truthy_opt (value r) then objects.delete_ref "ORIG_HEAD" false else mret tt).



Definition _finish_apply (commit_oid : string) : M (option string) :=
  c ← get_commit (Some commit_oid);
  new_tree_oid ← write_tree;
  HEAD ← objects.get_ref "HEAD" true;
  head_commit ← get_commit (value HEAD);
  if String.eqb new_tree_oid (tree head_commit) then
    HEAD ← objects.get_ref "HEAD" true;
    hc ← get_commit (value HEAD);
    read_tree (tree hc) true;;
    mret None
  else
    new_oid ← commit (message c) (Some (name (author c))) (Some (email (author c)))
                     (Some (str_of_N (timestamp (author c)) +:+ " " +:+ timezone (author c)))
                     false;
    mret (Some new_oid).

Definition _apply_commit (commit_oid : string)
    : M (bool * option string * option (list string)) :=
  c ← get_commit (Some commit_oid);
  base_tree ← (match parents c with
               | p :: _ => pc ← get_commit (Some p); mret (Some (tree pc))
               | [] => mret None
               end);
  HEAD ← objects.get_ref "HEAD" true;
  hc ← get_commit (value HEAD);
  let head_tree := tree hc in
  let other_tree := tree c in
  conflicts ← read_tree_merged base_tree (Some head_tree) (Some other_tree) true;
  match conflicts with
  | _ :: _ => mret (false, None, Some conflicts)
  | [] =>
      new_oid ← _finish_apply commit_oid;
      mret (true, new_oid, None)
  end.

Definition conflicts_nonempty (conflicts : option (list string)) : bool :=
  match conflicts with
  | Some (_ :: _) => true
  | _ => false
  end.

Definition cherry_pick (commit_oid : string) : M unit :=
  r ← objects.get_ref "MERGE_HEAD" true;
  if Py.truthy_opt (value r) then
    print "error: A merge is in progress (MERGE_HEAD exists).";;
    print ("Complete the merge with " +:+ dq +:+ "gitforge commit" +:+ dq
           +:+ " or abort with " +:+ dq +:+ "gitforge merge --abort" +:+ dq +:+ ".")
  else
  rs ← objects.get_rebase_state;
  if bool_decide (rs ≠ None) then
    print "error: A rebase is in progress.";;
    print "Complete the rebase or abort it before cherry-picking."
  else
  r ← objects.get_ref "CHERRY_PICK_HEAD" true;
  if Py.truthy_opt (value r) then
    print "error: Cherry-pick already in progress.";;
    print ("Use " +:+ dq +:+ "gitforge cherry-pick --continue" +:+ dq +:+ " or " +:+ dq
           +:+ "gitforge cherry-pick --abort" +:+ dq +:+ ".")
  else
  objects.get_index (λ index,
    if objects.has_conflicts index then
      let conflicted := objects.get_conflicted_files index in
      raise (ConflictException
               ("Cannot cherry-pick: conflicts exist in: " +:+ Py.join ", " conflicted)
               conflicted)
    else mret (tt, index));;
  clean ← _check_clean_state;
  if negb clean.1 then
    print ("error: Cannot cherry-pick: " +:+ default "None" clean.2 +:+ ".");;
    print "Please commit or stash them."
  else
  c ← get_commit (Some commit_oid);
  match parents c with
  | [] => print "error: Cannot cherry-pick root commit (no parent for base)."
  | _ :: _ :: _ =>
      print ("error: " +:+ Py.take 10 commit_oid +:+ " is a merge commit.");;
      print "Cherry-picking merge commits is not supported."
  | [_] =>
      HEAD ← objects.get_ref "HEAD" true;
      objects.update_ref "ORIG_HEAD" (direct (value HEAD)) true;;
      r ← _apply_commit commit_oid;
      let '(success, new_oid, conflicts) := r in
      if conflicts_nonempty conflicts then
        objects.update_ref "CHERRY_PICK_HEAD" (direct (Some commit_oid)) true;;
        print ("CONFLICT during cherry-pick " +:+ Py.take 10 commit_oid);;
        for_each (default [] conflicts) (λ p, print ("  - " +:+ p));;
        print (nl +:+ "Resolve conflicts, then run:");;
        print "  gitforge add <files>";;
        print "  gitforge cherry-pick --continue";;
        print (nl +:+ "Or abort with:");;
        print "  gitforge cherry-pick --abort"
      else
        match new_oid with
        | None =>
            print ("Skipping: " +:+ Py.take 10 commit_oid +:+ " (empty cherry-pick)");;
            _cherry_pick_cleanup
        | Some new_oid =>
            _cherry_pick_cleanup;;
            print ("Cherry-picked " +:+ Py.take 10 commit_oid +:+ " -> " +:+ Py.take 10 new_oid)
        end
  end.


Definition cherry_pick_abort : M unit :=
  cherry_pick_head ← objects.get_ref "CHERRY_PICK_HEAD" true;
  if negb (Py.truthy_opt (value cherry_pick_head)) then
    print "error: No cherry-pick in progress."
  else
    orig_head ← objects.get_ref "ORIG_HEAD" true;
    if negb (Py.truthy_opt (value orig_head)) then
      print "error: Cannot abort (ORIG_HEAD missing)."
    else
      reset (value orig_head) false false true;;
      _cherry_pick_cleanup;;
      print ("Cherry-pick aborted. Restored to " +:+ Py.take 10 (default "" (value orig_head))).








End repository.
End repository.

(* ===================================================================== *)
(** * Predicates used in the statements *)
(* ===================================================================== *)

(** [c] occurs in [s]. *)
Fixpoint has_char (c : ascii) (s : string) : bool :=
  match s with
  | EmptyString => false
  | String a s' => Ascii.eqb a c || has_char c s'
  end.

(** The exception is the conflict-in-index error. *)
Definition is_ConflictException (e : exn) : bool :=
  match e with ConflictException _ _ => true | _ => false end.

(** Every exception that [m] can raise satisfies [P]. *)
Definition raises_only {A} (P : exn → Prop) (m : M A) : Prop :=
  ∀ st e st', m st = (Raise e, st') → P e.

Definition no_conflict_exn {A} (m : M A) : Prop :=
  raises_only (λ e, is_ConflictException e = false) m.

(** [m] reads the state and leaves it as it is. *)
Definition readonly {A} (m : M A) : Prop := ∀ st, (m st).2 = st.

(** A Python [dict] has each key once. *)
Definition dict_ok {V} (d : Py.dict V) : Prop := NoDup d.*1.

(** One tree of [compare_trees] put into the table of rows. *)
Definition place (n i : nat) (t : flat_tree) (entries : Py.dict (list (option string)))
    : Py.dict (list (option string)) :=
  fold_left
    (λ entries po,
       let row := default (replicate n None) (Py.dict_get po.1 entries) in
       Py.dict_set po.1 (<[i := po.2]> row) entries)
    t entries.

(** The parents of the commit [oid], when it can be read. *)
Definition parents_at `{Env} (st : State) (oid : string) : option (list string) :=
  match (repository.get_commit (Some oid) st).1 with
  | Ok c => Some (parents c)
  | Raise _ => None
  end.

(** [chain] is a history without merge commits: every commit has the next
    one as its only parent, and the last one is a root commit. *)
Fixpoint linear_history `{Env} (st : State) (chain : list string) : bool :=
  match chain with
  | [] => true
  | x :: rest =>
      Py.truthy x
      && bool_decide (parents_at st x = Some (match rest with [] => [] | y :: _ => [y] end))
      && linear_history st rest
  end.

(** The three type tags of the object store. *)
Definition type_tag (t : string) : Prop :=
  t = "blob" ∨ t = "tree" ∨ t = "commit".

(** ** Refs, paths and trees in the statements *)

Section Statements.
Context {E : Env}.



(** The key of [f'{GIT_DIR}/{ref}'] in the map of files, and what
    [_get_ref_internal] reads there. *)
Definition ref_key (ref : string) : list string :=
  Path.abspath cwd (objects.GIT_DIR +:+ "/" +:+ ref).

Definition ref_text (st : State) (ref : string) : option string :=
  Py.strip <$> files st !! ref_key ref.

(** The oid of [path] in a flat tree, [None] when the tree does not have
    the path. *)
Definition oid_at (t : flat_tree) (path : string) : option string :=
  default None (Py.dict_get path t).

(** The index that [read_tree] makes of a flat tree. *)
Definition index_of_tree (t : flat_tree) : Index :=
  fold_left (λ index po, Py.dict_set po.1 (Clear po.2) index) t [].


(** A path component that [normpath] keeps as it is. *)
Definition normal_comp (c : string) : bool :=
  negb (String.eqb c "") && negb (String.eqb c ".") && negb (String.eqb c "..")
  && negb (has_char "/" c).

(** A path of normal components, none of which is the store directory. *)
Definition plain_path (p : string) : bool :=
  forallb (λ c, normal_comp c && negb (String.eqb c ".gitforge")) (Py.split "/" p).

(** An object id: 40 hexadecimal digits. *)
Definition oid_ok (oid : string) : bool :=
  (String.length oid =? 40) && Py.all_chars Py.is_hexdigit oid.

(** The names of the files are normal, as [abspath] makes them. *)
Definition wf_fs (st : State) : bool :=
  forallb (λ kv, forallb normal_comp kv.1) (map_to_list (files st)).

(** The key is a file of the working tree: below the working directory
    and not below [.gitforge], at any depth. *)
Definition in_worktree (key : list string) : Prop :=
  ∃ rest, key = (cwd ++ rest)%list ∧ rest ≠ [] ∧ ".gitforge" ∉ rest.

(** The file [key] can be opened for writing as the code does it, after
    [makedirs] of its directory: no file lies below it, and none of its
    ancestors is a file.  (The map of files has no directories of its own, so
    that a file could be written in the place of a directory; the statements
    keep to the runs in which no such clash of names occurs.) *)
Definition writable (st : State) (key : list string) : bool :=
  forallb (λ kv, negb (Path.is_strict_prefix key kv.1)
                 && negb (Path.is_strict_prefix kv.1 key))
          (map_to_list (files st)).

(** [in_worktree], decided. *)
Definition worktree_key (key : list string) : bool :=
  match Path.strip_common cwd key with
  | ([], rest) => negb (bool_decide (rest = [])) && negb (bool_decide (".gitforge" ∈ rest))
  | _ => false
  end.

(** The paths can be checked out without a clash of names: none of them is
    a directory of another, and no file that stays when the working tree
    is emptied lies below one of them or is an ancestor of it. *)
Definition checkout_ok (st : State) (paths : list string) : bool :=
  forallb (λ p,
     let key := Path.abspath cwd p in
     forallb (λ q, negb (Path.is_strict_prefix key (Path.abspath cwd q))) paths
     && forallb (λ kv, worktree_key kv.1
                       || (negb (Path.is_strict_prefix key kv.1)
                           && negb (Path.is_strict_prefix kv.1 key)))
                (map_to_list (files st)))
    paths.

(** An oid that is there is not the empty string. *)
Definition no_empty_oid (o : option string) : bool :=
  match o with Some x => Py.truthy x | None => true end.

(** ** The limits of the model of the file system, as hypotheses

    Text files are read and written as their bytes, and [Py.strip] removes
    the white space of ASCII only.  Python decodes a text file, turns a
    carriage return into a line feed when it reads in text mode, and
    [str.strip] also removes the white space beyond ASCII (U+0085, U+00A0,
    ...); on ASCII text without carriage returns the two agree, and the
    statements about the text of a ref are made for such text. *)
Definition ascii_only (s : string) : bool :=
  Py.all_chars (λ a, nat_of_ascii a <? 128) s.


(** The index and the state of a rebase are kept decoded, beside the map
    of files: [isfile], [read_file] and [remove] do not see their two
    files.  The statements about a name that is looked up as a file are
    made for the other names. *)
Definition doc_key (key : list string) : bool :=
  bool_decide (key = Path.abspath cwd objects.index_path)
  || bool_decide (key = Path.abspath cwd objects.rebase_state_path).

(** The index file can be written, as [get_index] does it on the way out
    (an [open] without [makedirs]): the store directory is there, with a
    file somewhere below it, and nothing stands in the way of the file. *)
Definition index_writable (st : State) : bool :=
  existsb (λ kv, Path.is_strict_prefix (Path.abspath cwd objects.GIT_DIR) kv.1)
          (map_to_list (files st))
  && writable st (Path.abspath cwd objects.index_path).

(** The oid of the blob of [data]. *)
Definition blob_oid (data : string) : string :=
  sha1_hexdigest ("blob" +:+ String objects.NUL data).

(** The blob of every file of the working tree can be stored: its oid has
    40 hexadecimal digits, and its file in the store can be written. *)
Definition blobs_storable (st : State) : bool :=
  forallb (λ kv, negb (worktree_key kv.1)
                 || (oid_ok (blob_oid kv.2)
                     && writable st (Path.abspath cwd (objects.object_path (blob_oid kv.2)))))
          (map_to_list (files st)).


(** The commits of [chain] are stored as ASCII text (Python decodes a
    commit before it parses it). *)
Definition ascii_history (st : State) (chain : list string) : bool :=
  forallb (λ x, match (objects.get_object x (Some "commit") st).1 with
                | Ok data => ascii_only data
                | Raise _ => false
                end) chain.


End Statements.

(* ===================================================================== *)
(** * A concrete environment, to run the model *)
(* ===================================================================== *)

(** [hashlib.sha1]: FIPS 180-4, on 32-bit words kept in [N]. *)
Module SHA1.

Definition w32 (x : N) : N := N.land x 4294967295.
Definition rotl (n : N) (x : N) : N :=
  w32 (N.lor (N.shiftl x n) (N.shiftr x (32 - n))).
Definition add32 (x y : N) : N := w32 (x + y).

Fixpoint bytes_of (s : string) : list N :=
  match s with
  | EmptyString => []
  | String a s' => N_of_ascii a :: bytes_of s'
  end.

(** The message, the byte 0x80, zeros up to 56 modulo 64, and the length
    in bits on 8 bytes, most significant first. *)
Definition be_bytes (n : nat) (x : N) : list N :=
  (λ i, N.land (N.shiftr x (8 * N.of_nat (n - 1 - i))) 255) <$> seq 0 n.

Definition pad (msg : list N) : list N :=
  let l := length msg in
  msg ++ [128%N] ++ replicate ((119 - l mod 64) mod 64) 0%N
      ++ be_bytes 8 (8 * N.of_nat l).

Fixpoint words (fuel : nat) (bs : list N) : list N :=
  match fuel, bs with
  | S fuel', b0 :: b1 :: b2 :: b3 :: rest =>
      (N.shiftl b0 24 + N.shiftl b1 16 + N.shiftl b2 8 + b3)%N :: words fuel' rest
  | _, _ => []
  end.

(** The message schedule, most recent word first. *)
Fixpoint schedule (n : nat) (rw : list N) : list N :=
  match n with
  | O => rw
  | S n' =>
      let w := rotl 1 (N.lxor (N.lxor (nth 2 rw 0%N) (nth 7 rw 0%N))
                              (N.lxor (nth 13 rw 0%N) (nth 15 rw 0%N))) in
      schedule n' (w :: rw)
  end.

Definition round (t : nat) (st : N * N * N * N * N) (w : N) : N * N * N * N * N :=
  let '(a, b, c, d, e) := st in
  let '(f, k) :=
    if t <? 20 then (N.lor (N.land b c) (N.land (N.lxor b 4294967295) d), 1518500249%N)
    else if t <? 40 then (N.lxor (N.lxor b c) d, 1859775393%N)
    else if t <? 60 then (N.lor (N.lor (N.land b c) (N.land b d)) (N.land c d), 2400959708%N)
    else (N.lxor (N.lxor b c) d, 3395469782%N) in
  let temp := add32 (add32 (add32 (add32 (rotl 5 a) f) e) k) w in
  (temp, a, rotl 30 b, c, d).

Fixpoint rounds (t : nat) (ws : list N) (st : N * N * N * N * N) : N * N * N * N * N :=
  match ws with
  | [] => st
  | w :: ws' => rounds (S t) ws' (round t st w)
  end.

Definition block (h : N * N * N * N * N) (ws16 : list N) : N * N * N * N * N :=
  let ws := rev (schedule 64 (rev ws16)) in
  let '(h0, h1, h2, h3, h4) := h in
  let '(a, b, c, d, e) := rounds 0 ws h in
  (add32 h0 a, add32 h1 b, add32 h2 c, add32 h3 d, add32 h4 e).

Fixpoint blocks (fuel : nat) (ws : list N) (h : N * N * N * N * N) : N * N * N * N * N :=
  match fuel, ws with
  | S fuel', _ :: _ => blocks fuel' (drop 16 ws) (block h (take 16 ws))
  | _, _ => h
  end.

Definition hex_digit (x : N) : ascii :=
  ascii_of_N (if (x <? 10)%N then 48 + x else 87 + x).

Definition hex32 (x : N) : string :=
  fold_right (λ i s, String (hex_digit (N.land (N.shiftr x (4 * N.of_nat (7 - i))) 15)) s)
             EmptyString (seq 0 8).

Definition hexdigest (s : string) : string :=
  let bs := pad (bytes_of s) in
  let ws := words (length bs) bs in
  let '(h0, h1, h2, h3, h4) :=
    blocks (length ws) ws
           (1732584193%N, 4023233417%N, 2562383102%N, 271733878%N, 3285377520%N) in
  hex32 h0 +:+ hex32 h1 +:+ hex32 h2 +:+ hex32 h3 +:+ hex32 h4.

End SHA1.

Module Demo.

(** A stand-in for [diff3 -m]: identical sides and one-sided changes merge
    cleanly; files with the same number of lines merge line by line when no
    line was changed differently by both sides and no two neighbouring lines
    were changed by different sides; anything else is one conflict hunk. *)
Definition lines_of (s : string) : list string := Py.split (ascii_of_nat 10) s.

Fixpoint merge_lines (h b o : list string) : option (list string) :=
  match h, b, o with
  | [], [], [] => Some []
  | hl :: h', bl :: b', ol :: o' =>
      let pick := if String.eqb hl bl then Some ol
                  else if String.eqb ol bl then Some hl
                  else if String.eqb hl ol then Some hl
                  else None in
      let clash_next :=
        match h', b', o' with
        | hn :: _, bn :: _, on :: _ =>
            (negb (String.eqb hl bl) && negb (String.eqb on bn))
            || (negb (String.eqb ol bl) && negb (String.eqb hn bn))
        | _, _, _ => false
        end in
      match pick, merge_lines h' b' o' with
      | Some l, Some rest => if clash_next then None else Some (l :: rest)
      | _, _ => None
      end
  | _, _, _ => None
  end.

Definition diff3 (c_HEAD c_base c_other : string) : string * nat :=
  if String.eqb c_HEAD c_other then (c_HEAD, 0)
  else if String.eqb c_HEAD c_base then (c_other, 0)
  else if String.eqb c_other c_base then (c_HEAD, 0)
  else match merge_lines (lines_of c_HEAD) (lines_of c_base) (lines_of c_other) with
       | Some ls => (Py.join repository.nl ls, 0)
       | None =>
           ("<<<<<<< HEAD" +:+ repository.nl +:+ c_HEAD
            +:+ "||||||| BASE" +:+ repository.nl +:+ c_base
            +:+ "=======" +:+ repository.nl +:+ c_other
            +:+ ">>>>>>> MERGE_HEAD" +:+ repository.nl, 1)
       end.

(** A stand-in for the author pattern, for lines of the form
    [name <email> seconds zone]. *)
Fixpoint digits_to_N (s : string) (acc : N) : option N :=
  match s with
  | EmptyString => Some acc
  | String a s' =>
      let n := N_of_ascii a in
      if ((48 <=? n) && (n <=? 57))%N then digits_to_N s' (10 * acc + (n - 48))%N
      else None
  end.

Definition parse_author (line : string) : option Author :=
  let '(name_sp, found1, rest) := Py.partition "<" line in
  let '(email, found2, rest') := Py.partition ">" rest in
  match Py.splitn 2 " " rest' with
  | [_; ts; tz] =>
      match digits_to_N ts 0 with
      | Some t =>
          if found1 && found2 && Py.truthy ts
          then Some (mkAuthor (Py.rstrip name_sp) email t tz)
          else None
      | None => None
      end
  | _ => None
  end.

Definition env : Env := {|
  cwd := ["home"; "dev"; "project"];
  sha1_hexdigest := SHA1.hexdigest;
  zlib_compress := λ s, s;
  zlib_decompress := λ s, Some s;
  diff3_m := diff3;
  parse_author_line := parse_author;
  user_identity := ("Dev", "dev@example.com");
  clock := λ n, repository.str_of_N (1700000000 + N.of_nat n) +:+ " +0000";
  recursion_limit := 1000;
  while_budget := 1000
|}.

(** The user's editor: a file of the working directory is written. *)
Definition edit (path data : string) : M unit := @write_file env path data.

(** The state reached by a script from the empty disk. *)
Definition empty_disk : State := mkState ∅ None None [] [] 0.

Definition run {A} (script : M A) : Res A * State := script empty_disk.

Definition commit_all (message : string) : M string :=
  @repository.add env ["."];;
  @repository.commit env message None None None true.

(** One blob in the store. *)
Definition hello_stored : State :=
  (run (@objects.hash_object env "Hello, World!" "blob")).2.

(** A fresh repository. *)
Definition fresh : State := (run (@repository.init env)).2.

(** [master] and [feature] both changed the one line of [file.txt]; on
    [master], the cherry-pick of the commit of [feature] stopped on the
    conflict.  The script returns that commit. *)
Definition cherry_pick_stopped : Res string * State :=
  run (@repository.init env;;
       edit "file.txt" ("base" +:+ repository.nl);;
       c0 ← commit_all "base";
       @repository.create_branch env "feature" (Some c0);;
       edit "file.txt" ("master" +:+ repository.nl);;
       commit_all "master";;
       @repository.checkout env "feature";;
       edit "file.txt" ("feature" +:+ repository.nl);;
       f ← commit_all "feature";
       @repository.checkout env "master";;
       @repository.cherry_pick env f;;
       mret f).


(** The blobs of [file.txt] in the three trees of [two_sided], and the
    blob of their merge. *)
Definition blob_base : string := "23bb22ef84d826c37316e02ffae5d0c4c9654448".
Definition blob_HEAD : string := "b99ce80eb302edd77b56d928a7c7f7054bd0dc21".
Definition blob_other : string := "eb50a7c1aea294de416da1ba02afd926cf2f13df".

(** A history with a merge commit: [feature] has the commits [a] and then
    [f] on top of the root [r], [master] has [m] on top of [r], and [c]
    merges [f] into [master].  The script returns [c], [a] and [r]. *)
Definition merged_history : Res (string * string * string) * State :=
  run (@repository.init env;;
       edit "base.txt" "base";;
       r ← commit_all "r";
       @repository.create_branch env "feature" (Some r);;
       edit "master.txt" "master";;
       commit_all "m";;
       @repository.checkout env "feature";;
       edit "feature1.txt" "one";;
       a ← commit_all "a";
       edit "feature2.txt" "two";;
       f ← commit_all "f";
       @repository.checkout env "master";;
       @repository.merge env f;;
       c ← @repository.commit env "merge" None None None true;
       mret (c, a, r)).

(** A history without merge commits: three commits on [master].  The
    script returns them, the last one first. *)
Definition linear_three : Res (list string) * State :=
  run (@repository.init env;;
       edit "file.txt" "one";;
       c1 ← commit_all "first";
       edit "file.txt" "two";;
       c2 ← commit_all "second";
       edit "file.txt" "three";;
       c3 ← commit_all "third";
       mret [c3; c2; c1]).

(** The commits of [merged_history] and of [linear_three]. *)
Definition commit_c : string := "07a66978ed46a75561ceb4ff382c827253324dd7".
Definition commit_a : string := "560a8193ba372f5da8a4d8bcdafc8bd28100e7cf".
Definition commit_r : string := "b360b881be1d71d0763e210e6e78af5add341a50".
Definition third : string := "b6a51751cd6aa030de44c158a589068d9ffe38ca".
Definition second : string := "9c76c75ac42132ba2260c20951f48cfc8910d377".
Definition first : string := "86d5cd2949131938e39b0d3d34cd2c2a779b1d8c".

(** The history of [merged_history], with the branch [old] made at the
    commit [a] and checked out: [HEAD] is [a], an ancestor of [c]. *)
Definition behind : State :=
  ((@repository.create_branch env "old" (Some commit_a);;
    @repository.checkout env "old") merged_history.2).2.

(** A commit whose tree has a file of the store: on [master], on top of
    the base commit, [.gitforge/HEAD] was added and committed; then
    [feature], which is at the base commit, was checked out.  The script
    returns the base commit and the commit of [master]. *)
Definition store_file_committed : Res (string * string) * State :=
  run (@repository.init env;;
       edit "file.txt" "one";;
       c0 ← commit_all "base";
       @repository.create_branch env "feature" (Some c0);;
       @repository.add env [".gitforge/HEAD"];;
       c1 ← @repository.commit env "store file" None None None true;
       @repository.checkout env "feature";;
       mret (c0, c1)).

Definition base_commit : string := "a223cf86bc3784e8d40b37117d59ebfbc70492ad".
Definition store_commit : string := "8e113e9d68d0273569cff5c76b19899a478499ff".

(** The commit that was being picked. *)
Definition picked : string :=
  match cherry_pick_stopped.1 with Ok f => f | Raise _ => "" end.

(** [feature] is one commit ahead of [master], which is checked out; the
    commit of [feature] has a file in a directory.  The script returns that
    commit. *)
Definition fast_forward : Res string * State :=
  run (@repository.init env;;
       edit "file.txt" "one";;
       edit "old.txt" "old";;
       c0 ← commit_all "base";
       @repository.create_branch env "feature" (Some c0);;
       @repository.checkout env "feature";;
       edit "file.txt" "two";;
       edit "dir/new.txt" "new";;
       f ← commit_all "feature";
       @repository.checkout env "master";;
       mret f).

(** The tree of the commit of [feature] in [fast_forward]. *)
Definition ahead_tree : string :=
  match fast_forward.1 with
  | Ok f =>
      match (@repository.get_commit env (Some f) fast_forward.2).1 with
      | Ok c => tree c
      | Raise _ => ""
      end
  | Raise _ => ""
  end.


(** The cherry-pick of [cherry_pick_stopped] has stopped, and a merge of
    the same commit was started on top of it and has stopped as well: both
    operations are in progress. *)
Definition overlapping : State :=
  (@repository.merge env picked cherry_pick_stopped.2).2.


End Demo.

(* ===================================================================== *)
(** * Properties *)
(* ===================================================================== *)

(** The operations are unfolded by name only. *)
Arguments objects._get_ref_internal : simpl never.
Arguments objects.get_ref : simpl never.
Arguments objects.update_ref : simpl never.
Arguments objects.delete_ref : simpl never.
Arguments objects.get_index : simpl never.
Arguments objects.hash_object : simpl never.
Arguments objects.get_object : simpl never.
Arguments repository.get_commit : simpl never.
Arguments repository.get_tree : simpl never.
Arguments repository.read_tree : simpl never.
Arguments repository.reset : simpl never.
Arguments repository._checkout_index : simpl never.
Arguments repository._empty_current_directory : simpl never.
Arguments repository.get_merge_base : simpl never.
Arguments Path.abspath : simpl never.

Lemma bind_unfold {A B} (m : M A) (f : A → M B) (st : State) :
  (m ≫= f) st = match m st with
                | (Ok a, st') => f a st'
                | (Raise e, st') => (Raise e, st')
                end.
Proof. reflexivity. Qed.

(** ** Which exceptions a computation can raise *)

Section Raises.
Context {E : Env}.
Context (P : exn → Prop).

Lemma raises_ret {A} (a : A) : raises_only P (mret a).
Proof. by intros st e st' [=]. Qed.

Lemma raises_raise {A} (e : exn) : P e → raises_only P (@raise A e).
Proof. by intros He st e' st' [= <- _]. Qed.

Lemma raises_bind {A B} (m : M A) (f : A → M B) :
  raises_only P m → (∀ a, raises_only P (f a)) → raises_only P (m ≫= f).
Proof.
  intros Hm Hf st e st'. rewrite bind_unfold.
  destruct (m st) as [[a|e0] st0] eqn:Hst.
  - apply Hf.
  - intros [= <- <-]. by eapply Hm.
Qed.

Lemma raises_fold_m {A B} (body : B → A → M B) (l : list A) (acc : B) :
  (∀ b a, raises_only P (body b a)) → raises_only P (fold_m body l acc).
Proof.
  intros Hb. revert acc. induction l as [|x l IH]; intros acc; simpl.
  - apply raises_ret.
  - apply raises_bind; [apply Hb | intros b; apply IH].
Qed.

Lemma raises_for_each {A} (l : list A) (body : A → M unit) :
  (∀ a, raises_only P (body a)) → raises_only P (for_each l body).
Proof.
  intros Hb. induction l as [|x l IH]; simpl.
  - apply raises_ret.
  - apply raises_bind; [apply Hb | intros _; apply IH].
Qed.

Lemma raises_total {A} (m : M A) :
  (∀ st, ∃ a st', m st = (Ok a, st')) → raises_only P m.
Proof. intros Hm st e st' Hr. destruct (Hm st) as (a & st1 & Heq). congruence. Qed.

End Raises.

(** One step of the analysis of a computation. *)
Ltac raises_step tac :=
  lazymatch goal with
  | |- raises_only _ (mbind _ _) => apply raises_bind; [| intros ?]
  | |- raises_only _ (mret _) => apply raises_ret
  | |- raises_only _ (raise _) => apply raises_raise; reflexivity
  | |- raises_only _ (fold_m _ _ _) => apply raises_fold_m; intros ? ?
  | |- raises_only _ (for_each _ _) => apply raises_for_each; intros ?
  | |- raises_only _ (if ?b then _ else _) => destruct b
  | |- raises_only _ (let _ := _ in _) => cbv zeta
  | |- raises_only _ (match ?x with _ => _ end) => destruct x
  | |- raises_only _ _ => tac
  end.

(** ** Computations that only read *)

Section ReadOnly.
Context {E : Env}.

Lemma readonly_run {A} (m : M A) (st : State) : readonly m → m st = ((m st).1, st).
Proof. intros Hm. specialize (Hm st). destruct (m st) as [r st1]. simpl in *. by subst. Qed.

Lemma readonly_eq {A} (m : M A) (st : State) (r : Res A) :
  readonly m → (m st).1 = r → m st = (r, st).
Proof. intros Hm <-. by apply readonly_run. Qed.


Lemma readonly_ret {A} (a : A) : readonly (mret a : M A).
Proof. done. Qed.

Lemma readonly_raise {A} (e : exn) : readonly (@raise A e).
Proof. done. Qed.

Lemma readonly_bind {A B} (m : M A) (f : A → M B) :
  readonly m → (∀ a, readonly (f a)) → readonly (m ≫= f).
Proof.
  intros Hm Hf st. rewrite bind_unfold, (readonly_run m st Hm).
  destruct (m st).1; [apply Hf | done].
Qed.

Lemma readonly_fold_m {A B} (body : B → A → M B) (l : list A) (acc : B) :
  (∀ b a, readonly (body b a)) → readonly (fold_m body l acc).
Proof.
  intros Hb. revert acc. induction l as [|x l IH]; intros acc; simpl; [done|].
  apply readonly_bind; [apply Hb | intros b; apply IH].
Qed.

Lemma isfile_ro p : readonly (isfile p).
Proof. done. Qed.
Lemma isdir_ro p : readonly (isdir p).
Proof. done. Qed.
Lemma walk_ro p : readonly (walk p).
Proof. done. Qed.
Lemma read_file_ro p : readonly (read_file p).
Proof. intros st. unfold read_file. by case_match. Qed.
Lemma relpath_ro p : readonly (relpath p).
Proof. intros st. unfold relpath. by case_match. Qed.
Lemma assert_ro b msg : readonly (assert b msg).
Proof. by destruct b. Qed.

End ReadOnly.

Ltac ro_step tac :=
  lazymatch goal with
  | |- readonly (mbind _ _) => apply readonly_bind; [| intros ?]
  | |- readonly (mret _) => apply readonly_ret
  | |- readonly (raise _) => apply readonly_raise
  | |- readonly (fold_m _ _ _) => apply readonly_fold_m; intros ? ?
  | |- readonly (if ?b then _ else _) => destruct b
  | |- readonly (let _ := _ in _) => cbv zeta
  | |- readonly (match ?x with _ => _ end) => destruct x
  | |- readonly _ => tac
  end.

Section ReadOnlyStore.
Context {E : Env}.

Lemma _get_ref_internal_go_ro depth ref deref :
  readonly (objects._get_ref_internal_go depth ref deref).
Proof.
  revert ref deref. induction depth as [|d IH]; intros ref deref; simpl; [done|].
  repeat ro_step ltac:(first [apply isfile_ro | apply read_file_ro | apply IH]).
Qed.


Lemma get_object_ro oid expected : readonly (objects.get_object oid expected).
Proof.
  unfold objects.get_object.
  repeat ro_step ltac:(first [apply read_file_ro | apply assert_ro]).
Qed.

Lemma get_commit_ro oid : readonly (repository.get_commit oid).
Proof.
  unfold repository.get_commit.
  repeat ro_step ltac:(apply get_object_ro).
Qed.

Lemma get_tree_go_ro depth oid base_path : readonly (repository.get_tree_go depth oid base_path).
Proof.
  revert oid base_path. induction depth as [|d IH]; intros oid base_path; simpl; [done|].
  repeat ro_step ltac:(first [apply get_object_ro | apply assert_ro | apply IH]).
Qed.

Lemma get_tree_ro oid : readonly (repository.get_tree oid).
Proof. apply get_tree_go_ro. Qed.

Lemma iter_next_ro s : readonly (repository.iter_next s).
Proof.
  unfold repository.iter_next.
  repeat ro_step ltac:(apply get_commit_ro).
Qed.

Lemma generator_contains_ro fuel x s : readonly (repository.generator_contains fuel x s).
Proof.
  revert s. induction fuel as [|fuel IH]; intros s; simpl; [done|].
  repeat ro_step ltac:(first [apply iter_next_ro | apply IH]).
Qed.

Lemma is_ancestor_of_ro c a : readonly (repository.is_ancestor_of c a).
Proof. apply generator_contains_ro. Qed.

Lemma get_rebase_state_ro : readonly objects.get_rebase_state.
Proof. done. Qed.

End ReadOnlyStore.

Lemma bind_raise_cases {A B} (m : M A) (f : A → M B) (st st' : State) (e : exn) :
  (m ≫= f) st = (Raise e, st') →
  m st = (Raise e, st') ∨ ∃ a st1, m st = (Ok a, st1) ∧ f a st1 = (Raise e, st').
Proof.
  rewrite bind_unfold. destruct (m st) as [[a|e0] st0]; simpl; intros H.
  - right. by exists a, st0.
  - left. by simplify_eq.
Qed.

Lemma bind_ok_cases {A B} (m : M A) (f : A → M B) (st st' : State) (b : B) :
  (m ≫= f) st = (Ok b, st') →
  ∃ a st1, m st = (Ok a, st1) ∧ f a st1 = (Ok b, st').
Proof.
  rewrite bind_unfold. destruct (m st) as [[a|e0] st0]; simpl; intros H; [|done].
  by exists a, st0.
Qed.

(** The context manager, run: the document is written back only when the
    body ends without an exception. *)
Lemma get_index_run {E : Env} {A} (body : Index → M (A * Index)) (st : State) :
  objects.get_index body st =
    match body (default [] (index_doc st)) st with
    | (Ok r, st1) =>
        (Ok r.1, mkState (files st1) (Some r.2) (rebase_doc st1)
                         (Path.abspath cwd objects.index_path :: wlog st1)
                         (stdout st1) (ticks st1))
    | (Raise e, st1) => (Raise e, st1)
    end.
Proof.
  unfold objects.get_index. rewrite bind_unfold. unfold objects.load_index.
  rewrite bind_unfold. destruct (body _ st) as [[r|e] st1]; reflexivity.
Qed.

(** A run is its result and the state it reaches. *)
Lemma run_eq {A} (m : M A) (st : State) (a : A) :
  (m st).1 = Ok a → m st = (Ok a, (m st).2).
Proof. destruct (m st) as [r st1]. simpl. by intros ->. Qed.

Lemma demo_env_ok : EnvOk Demo.env.
Proof. split. reflexivity. Qed.

(** ** The object store *)

Section ObjectStore.
Context {E : Env}.

Lemma partition_app (c : ascii) (h t : string) :
  has_char c h = false →
  Py.partition c (h +:+ String c t) = (h, true, t).
Proof.
  induction h as [|a h IH]; simpl; intros Hc.
  - by rewrite Ascii.eqb_refl.
  - apply orb_false_iff in Hc as [Ha Hh].
    rewrite Ha. by rewrite (IH Hh).
Qed.

Lemma type_tag_no_NUL (t : string) : type_tag t → has_char objects.NUL t = false.
Proof. by intros [-> | [-> | ->]]. Qed.

(** What [hash_object] does, whatever is in the store. *)
Lemma hash_object_run (data type_ : string) (st : State) :
  let obj := type_ +:+ String objects.NUL data in
  let key := Path.abspath cwd (objects.object_path (sha1_hexdigest obj)) in
  objects.hash_object data type_ st =
    (Ok (sha1_hexdigest obj),
     set_files (<[key := zlib_compress obj]> (<[key := ""]> (files st))) (key :: wlog st) st).
Proof. reflexivity. Qed.

(** Reading an object whose file holds the compressed [type_ NUL data]. *)
Lemma get_object_stored `{!EnvOk E} (oid type_ data : string) (expected : option string) (st : State) :
  has_char objects.NUL type_ = false →
  files st !! Path.abspath cwd (objects.object_path oid)
    = Some (zlib_compress (type_ +:+ String objects.NUL data)) →
  (∀ e, expected = Some e → e = type_) →
  objects.get_object oid expected st = (Ok data, st).
Proof.
  intros Hn Hf He. unfold objects.get_object. rewrite bind_unfold.
  unfold read_file. rewrite Hf. rewrite decompress_compress.
  rewrite (partition_app _ _ _ Hn).
  destruct expected as [e|]; [|done].
  rewrite (He e eq_refl). rewrite bind_unfold. unfold assert.
  by rewrite String.eqb_refl.
Qed.

(** C1. For every byte string and every type tag among blob, tree and
    commit, [get_object (hash_object bytes type) type] returns exactly the
    bytes, and the type recorded in the stored object (the part of the
    decompressed file before the first NUL) is that type.  The file of the
    object can be written: its name is not the name of a directory with
    files, and none of its directories is a file. *)
Theorem C1_hash_object_get_object_roundtrip `{!EnvOk E}
    (data type_ : string) (st : State) :
  type_tag type_ →
  writable st (Path.abspath cwd
                 (objects.object_path
                    (sha1_hexdigest (type_ +:+ String objects.NUL data)))) = true →
  ∃ oid st1,
    objects.hash_object data type_ st = (Ok oid, st1) ∧
    objects.get_object oid (Some type_) st1 = (Ok data, st1) ∧
    objects.get_object oid None st1 = (Ok data, st1) ∧
    ∃ raw obj,
      read_file (objects.object_path oid) st1 = (Ok raw, st1) ∧
      zlib_decompress raw = Some obj ∧
      (Py.partition objects.NUL obj).1.1 = type_.
Proof.
  intros Ht _. pose proof (type_tag_no_NUL _ Ht) as Hn.
  eexists _, _. split; [apply hash_object_run|].
  set (obj := type_ +:+ String objects.NUL data).
  set (key := Path.abspath cwd (objects.object_path (sha1_hexdigest obj))).
  assert (Hf : files (set_files (<[key:=zlib_compress obj]> (<[key:=""]> (files st)))
                        (key :: wlog st) st) !! key = Some (zlib_compress obj)).
  { simpl. apply lookup_insert_eq. }
  split; [|split].
  - apply (get_object_stored _ type_); [done|done|]. by intros e [= ->].
  - apply (get_object_stored _ type_); [done|done|done].
  - exists (zlib_compress obj), obj. split; [|split].
    + unfold read_file. fold key. by rewrite Hf.
    + apply decompress_compress.
    + unfold obj. by rewrite (partition_app _ _ _ Hn).
Qed.

(** C7, as the code has it. Hashing an object whose file already holds its
    compressed bytes returns the same OID and leaves the contents of every
    file as they were, but the object file is opened for writing and
    written once more. *)
Theorem C7_rehash_rewrites_same_bytes (data type_ : string) (st : State) :
  let obj := type_ +:+ String objects.NUL data in
  let oid := sha1_hexdigest obj in
  let key := Path.abspath cwd (objects.object_path oid) in
  files st !! key = Some (zlib_compress obj) →
  ∃ st1,
    objects.hash_object data type_ st = (Ok oid, st1) ∧
    files st1 = files st ∧
    index_doc st1 = index_doc st ∧
    rebase_doc st1 = rebase_doc st ∧
    wlog st1 = key :: wlog st.
Proof.
  intros obj oid key Hf. eexists. split; [apply hash_object_run|].
  simpl. split; [|done].
  fold obj. fold oid. fold key.
  rewrite insert_insert_eq. by apply insert_id.
Qed.

End ObjectStore.

Section ObjectStoreRuns.
#[local] Existing Instance Demo.env.

Lemma C1_witness :
  ∃ oid st1,
    objects.hash_object "Hello, World!" "blob" Demo.empty_disk = (Ok oid, st1) ∧
    objects.get_object oid (Some "blob") st1 = (Ok "Hello, World!", st1) ∧
    objects.get_object oid None st1 = (Ok "Hello, World!", st1) ∧
    ∃ raw obj,
      read_file (objects.object_path oid) st1 = (Ok raw, st1) ∧
      zlib_decompress raw = Some obj ∧
      (Py.partition objects.NUL obj).1.1 = "blob".
Proof.
  apply (C1_hash_object_get_object_roundtrip (EnvOk0:=demo_env_ok)).
  - left. reflexivity.
  - vm_compute. reflexivity.
Defined.

Lemma C7_witness :
  let obj := "blob" +:+ String objects.NUL "Hello, World!" in
  let oid := sha1_hexdigest obj in
  let key := Path.abspath cwd (objects.object_path oid) in
  ∃ st1,
    objects.hash_object "Hello, World!" "blob" Demo.hello_stored = (Ok oid, st1) ∧
    files st1 = files Demo.hello_stored ∧
    index_doc st1 = index_doc Demo.hello_stored ∧
    rebase_doc st1 = rebase_doc Demo.hello_stored ∧
    wlog st1 = key :: wlog Demo.hello_stored.
Proof.
  apply (C7_rehash_rewrites_same_bytes "Hello, World!" "blob" Demo.hello_stored).
  vm_compute. reflexivity.
Defined.

(** C7, as it is stated, fails: the blob is in the store, and hashing it
    again opens its file for writing once more. *)
Lemma C7_counterexample :
  let st := Demo.hello_stored in
  let oid := sha1_hexdigest ("blob" +:+ String objects.NUL "Hello, World!") in
  is_Some (files st !! Path.abspath cwd (objects.object_path oid)) ∧
  ∃ st1,
    objects.hash_object "Hello, World!" "blob" st = (Ok oid, st1) ∧
    wlog st1 ≠ wlog st.
Proof.
  split.
  - vm_compute. eexists. reflexivity.
  - eexists. split; [reflexivity|].
    intros Heq. apply (f_equal length) in Heq. vm_compute in Heq. discriminate.
Qed.

End ObjectStoreRuns.

(** ** The conflict-in-index error *)

Section NoConflictException.
Context {E : Env}.

Ltac prim := first
  [ by (apply raises_total; intros ?; eexists _, _)
  | by (intros ? ? ? ?; repeat case_match; simplify_eq) ].

Lemma isfile_nc p : no_conflict_exn (isfile p).
Proof. prim. Qed.
Lemma isdir_nc p : no_conflict_exn (isdir p).
Proof. prim. Qed.
Lemma read_file_nc p : no_conflict_exn (read_file p).
Proof. intros st e st'. unfold read_file. case_match; by intros [= <- _]. Qed.
Lemma open_w_nc p : no_conflict_exn (open_w p).
Proof. prim. Qed.
Lemma f_write_nc p d : no_conflict_exn (f_write p d).
Proof. prim. Qed.
Lemma write_file_nc p d : no_conflict_exn (write_file p d).
Proof. apply raises_bind; [apply open_w_nc | intros _; apply f_write_nc]. Qed.
Lemma remove_nc p : no_conflict_exn (remove p).
Proof. intros st e st'. unfold remove. case_match; by intros [= <- _]. Qed.
Lemma assert_nc b msg : no_conflict_exn (assert b msg).
Proof. destruct b; [apply raises_ret | by apply raises_raise]. Qed.
Lemma lift_nc {A} (r : Res A) :
  (∀ e, r = Raise e → is_ConflictException e = false) → no_conflict_exn (repository.lift r).
Proof. intros Hr st e st' [= -> _]. by apply Hr. Qed.

Lemma _get_ref_internal_go_nc depth ref deref :
  no_conflict_exn (objects._get_ref_internal_go depth ref deref).
Proof.
  revert ref deref. induction depth as [|d IH]; intros ref deref; simpl.
  - by apply raises_raise.
  - unfold no_conflict_exn.
    repeat raises_step ltac:(first [apply isfile_nc | apply read_file_nc | apply IH]).
Qed.

Lemma get_ref_nc ref deref : no_conflict_exn (objects.get_ref ref deref).
Proof.
  unfold objects.get_ref, objects._get_ref_internal, no_conflict_exn.
  repeat raises_step ltac:(apply _get_ref_internal_go_nc).
Qed.

Lemma update_ref_nc ref v deref : no_conflict_exn (objects.update_ref ref v deref).
Proof.
  unfold objects.update_ref, objects._get_ref_internal, no_conflict_exn.
  repeat raises_step ltac:(first [apply _get_ref_internal_go_nc | apply assert_nc
                                 | apply write_file_nc]).
Qed.

Lemma delete_ref_nc ref deref : no_conflict_exn (objects.delete_ref ref deref).
Proof.
  unfold objects.delete_ref, objects._get_ref_internal, no_conflict_exn.
  repeat raises_step ltac:(first [apply _get_ref_internal_go_nc | apply remove_nc]).
Qed.

Lemma hash_object_nc data type_ : no_conflict_exn (objects.hash_object data type_).
Proof.
  unfold objects.hash_object, no_conflict_exn.
  repeat raises_step ltac:(apply write_file_nc).
Qed.

Lemma format_timestamp_nc : no_conflict_exn objects.format_timestamp.
Proof. prim. Qed.

Lemma get_index_nc {A} (body : Index → M (A * Index)) :
  (∀ index, no_conflict_exn (body index)) → no_conflict_exn (objects.get_index body).
Proof.
  intros Hb. unfold objects.get_index, no_conflict_exn.
  repeat raises_step ltac:(first [apply Hb | prim]).
Qed.

Lemma tree_insert_nc dirpath filename oid current e :
  repository.tree_insert dirpath filename oid current = Raise e →
  is_ConflictException e = false.
Proof.
  revert current. induction dirpath as [|d rest IH]; intros current; simpl; [done|].
  repeat case_match; intros [= <-]; eauto.
Qed.

Lemma tnode_ind2 (Q : repository.tnode → Prop) :
  (∀ oid, Q (repository.Blob oid)) →
  (∀ children, Forall (λ nv, Q nv.2) children → Q (repository.Tree children)) →
  ∀ v, Q v.
Proof.
  intros HB HT. fix IH 1. intros [oid|children].
  - apply HB.
  - apply HT. induction children as [|[n v] l IHl]; constructor; [apply IH | apply IHl].
Qed.

Lemma write_tree_node_nc v : no_conflict_exn (repository.write_tree_node v).
Proof.
  induction v as [oid|children IH] using tnode_ind2; simpl.
  - apply raises_ret.
  - apply raises_bind.
    + induction IH as [|[n v] l Hv _ IHl]; [apply raises_ret|].
      apply raises_bind; [apply Hv|intros r].
      apply raises_bind; [apply IHl|intros rest]. apply raises_ret.
    + intros entries. unfold no_conflict_exn.
      repeat raises_step ltac:(apply hash_object_nc).
Qed.

Lemma write_tree_nc : no_conflict_exn repository.write_tree.
Proof.
  unfold repository.write_tree, repository.write_tree_recursive.
  apply raises_bind.
  - apply get_index_nc. intros index. unfold no_conflict_exn.
    repeat raises_step ltac:(first [apply lift_nc; apply tree_insert_nc]).
  - intros t. unfold no_conflict_exn.
    repeat raises_step ltac:(apply write_tree_node_nc).
Qed.

(** What is left of [commit] once the index has passed the check. *)
Lemma commit_guard (message : string) (author_name author_email author_date : option string)
    (allow_merge_parent : bool) (st : State) :
  let index := default [] (index_doc st) in
  (objects.has_conflicts index = true →
   ∃ msg,
     repository.commit message author_name author_email author_date allow_merge_parent st
     = (Raise (ConflictException msg (objects.get_conflicted_files index)), st)) ∧
  (objects.has_conflicts index = false →
   ∀ e st',
     repository.commit message author_name author_email author_date allow_merge_parent st
     = (Raise e, st') → is_ConflictException e = false).
Proof.
  intros index. split; intros Hc.
  - eexists. unfold repository.commit. rewrite bind_unfold, get_index_run.
    fold index. rewrite Hc. reflexivity.
  - intros e st'. unfold repository.commit. intros Hr.
    apply bind_raise_cases in Hr as [Hg | (a & st1 & _ & Hrest)].
    + rewrite get_index_run in Hg. fold index in Hg. rewrite Hc in Hg. discriminate.
    + cbv beta in Hrest.
      match type of Hrest with
      | ?m ?s = _ => assert (no_conflict_exn m) as Hn
      end.
      { unfold no_conflict_exn.
        repeat raises_step ltac:(first
          [ apply get_ref_nc | apply update_ref_nc | apply delete_ref_nc
          | apply hash_object_nc | apply format_timestamp_nc | apply write_tree_nc
          | apply raises_ret ]). }
      by apply (Hn _ _ _ Hrest).
Qed.

(** C5. [commit] fails with the conflict-in-index error if and only if the
    index has an entry in state conflict; and when it fails so, nothing was
    written: the state (files, index, rebase state, log of writes, output)
    is the one before the call. *)
Theorem C5_commit_refused_iff_conflict (message : string)
    (author_name author_email author_date : option string)
    (allow_merge_parent : bool) (st : State) :
  let index := default [] (index_doc st) in
  ((∃ msg fs st',
      repository.commit message author_name author_email author_date allow_merge_parent st
      = (Raise (ConflictException msg fs), st'))
   ↔ ∃ path e, (path, e) ∈ index ∧ objects.is_conflict e = true) ∧
  (∀ msg fs st',
      repository.commit message author_name author_email author_date allow_merge_parent st
      = (Raise (ConflictException msg fs), st') →
      st' = st ∧ fs = objects.get_conflicted_files index).
Proof.
  intros index.
  destruct (commit_guard message author_name author_email author_date
              allow_merge_parent st) as [Hyes Hno]. fold index in Hyes, Hno.
  assert (Hex : objects.has_conflicts index = true
                ↔ ∃ path e, (path, e) ∈ index ∧ objects.is_conflict e = true).
  { unfold objects.has_conflicts. rewrite existsb_exists. split.
    - intros ([p e] & Hin & He). exists p, e. by rewrite list_elem_of_In.
    - intros (p & e & Hin & He). exists (p, e). by rewrite <- list_elem_of_In. }
  destruct (objects.has_conflicts index) eqn:Hc.
  - destruct (Hyes eq_refl) as [msg Hrun]. split.
    + split; [intros _; by apply Hex | intros _; eauto].
    + intros msg' fs st' Hr. rewrite Hrun in Hr. by simplify_eq.
  - split.
    + split.
      * intros (msg & fs & st' & Hr). by apply (Hno eq_refl) in Hr.
      * intros Hx. apply Hex in Hx. discriminate.
    + intros msg fs st' Hr. by apply (Hno eq_refl) in Hr.
Qed.

End NoConflictException.

(** ** Insertion-ordered dictionaries *)

Section Dict.
Context {V : Type}.
Implicit Types (d : Py.dict V) (k : string) (v : V).

Lemma dict_get_set_eq k v d : Py.dict_get k (Py.dict_set k v d) = Some v.
Proof.
  induction d as [|[k' v'] d IH]; simpl.
  - by rewrite String.eqb_refl.
  - destruct (String.eqb k k') eqn:Hk; simpl; rewrite Hk; [done | apply IH].
Qed.

Lemma dict_get_set_ne k k' v d :
  k ≠ k' → Py.dict_get k' (Py.dict_set k v d) = Py.dict_get k' d.
Proof.
  intros Hne. induction d as [|[k0 v0] d IH]; simpl.
  - destruct (String.eqb k' k) eqn:H; [|done].
    apply String.eqb_eq in H. congruence.
  - destruct (String.eqb k k0) eqn:Hk; simpl.
    + apply String.eqb_eq in Hk as ->.
      destruct (String.eqb k' k0) eqn:H; [|done].
      apply String.eqb_eq in H. congruence.
    + destruct (String.eqb k' k0); [done | apply IH].
Qed.

Lemma dict_get_None k d : k ∉ d.*1 → Py.dict_get k d = None.
Proof.
  induction d as [|[k0 v0] d IH]; simpl; [done|]. intros Hk.
  apply not_elem_of_cons in Hk as [Hne Hk].
  destruct (String.eqb k k0) eqn:H; [|by apply IH].
  apply String.eqb_eq in H. congruence.
Qed.

Lemma dict_get_Some_keys k v d : Py.dict_get k d = Some v → k ∈ d.*1.
Proof.
  induction d as [|[k0 v0] d IH]; simpl; [done|].
  destruct (String.eqb k k0) eqn:H.
  - apply String.eqb_eq in H as ->. intros _. apply list_elem_of_here.
  - intros Hg. apply list_elem_of_further. by apply IH.
Qed.

Lemma dict_set_keys_subset x k v d :
  x ∈ (Py.dict_set k v d).*1 → x = k ∨ x ∈ d.*1.
Proof.
  induction d as [|[k0 v0] d IH]; simpl.
  - intros ->%list_elem_of_singleton. by left.
  - destruct (String.eqb k k0); simpl; [by right|].
    intros [->|Hx]%elem_of_cons.
    + right. apply list_elem_of_here.
    + destruct (IH Hx) as [->|Hd]; [by left|]. right. by apply list_elem_of_further.
Qed.

Lemma dict_set_ok k v d : dict_ok d → dict_ok (Py.dict_set k v d).
Proof.
  unfold dict_ok. induction d as [|[k0 v0] d IH]; simpl.
  - intros _. apply NoDup_singleton.
  - intros [Hk0 Hd]%NoDup_cons. destruct (String.eqb k k0) eqn:Hk; simpl.
    + by apply NoDup_cons.
    + apply NoDup_cons. split; [|by apply IH].
      intros [->|Hx]%dict_set_keys_subset; [|done].
      by rewrite String.eqb_refl in Hk.
Qed.

(** The entry of a key splits the dictionary in two parts without it. *)
Lemma dict_get_split k v d :
  dict_ok d → Py.dict_get k d = Some v →
  ∃ pre post, d = (pre ++ ((k, v) :: post))%list ∧ (k ∉ pre.*1) ∧ (k ∉ post.*1).
Proof.
  unfold dict_ok. induction d as [|[k0 v0] d IH]; simpl; [done|].
  intros [Hk0 Hd]%NoDup_cons. destruct (String.eqb k k0) eqn:Hk.
  - apply String.eqb_eq in Hk as ->. intros [= ->].
    exists [], d. split; [done|]. split; [apply not_elem_of_nil | done].
  - intros Hg. destruct (IH Hd Hg) as (pre & post & -> & Hpre & Hpost).
    exists ((k0, v0) :: pre), post. split; [done|]. split; [|done].
    simpl. apply not_elem_of_cons. split; [|done].
    intros ->. by rewrite String.eqb_refl in Hk.
Qed.

End Dict.

(** ** The three-way merge of trees *)

Section MergeTrees.
Context {E : Env}.

Lemma place_get n i t entries path :
  dict_ok t →
  Py.dict_get path (place n i t entries) =
    match Py.dict_get path t with
    | Some v => Some (<[i := v]> (default (replicate n None) (Py.dict_get path entries)))
    | None => Py.dict_get path entries
    end.
Proof.
  unfold dict_ok, place. revert entries.
  induction t as [|[p v] t IH]; intros entries; simpl; [done|].
  intros [Hp Ht]%NoDup_cons. rewrite (IH _ Ht).
  destruct (String.eqb path p) eqn:Hpp.
  - apply String.eqb_eq in Hpp as ->.
    rewrite (dict_get_None _ _ Hp). apply dict_get_set_eq.
  - assert (p ≠ path) by (intros ->; by rewrite String.eqb_refl in Hpp).
    by rewrite dict_get_set_ne.
Qed.

Lemma place_ok n i t entries : dict_ok entries → dict_ok (place n i t entries).
Proof.
  unfold place. revert entries. induction t as [|[p v] t IH]; intros entries; simpl; [done|].
  intros Hok. apply IH. by apply dict_set_ok.
Qed.

Lemma compare_trees_3 (t_base t_HEAD t_other : flat_tree) :
  diff_engine.compare_trees [t_base; t_HEAD; t_other]
  = place 3 2 t_other (place 3 1 t_HEAD (place 3 0 t_base [])).
Proof. reflexivity. Qed.

Lemma compare_trees_3_ok (t_base t_HEAD t_other : flat_tree) :
  dict_ok (diff_engine.compare_trees [t_base; t_HEAD; t_other]).
Proof. rewrite compare_trees_3. do 3 apply place_ok. apply NoDup_nil_2. Qed.

Lemma fold_m_app {A B} (body : B → A → M B) (l1 l2 : list A) (acc : B) (st : State) :
  fold_m body (l1 ++ l2) acc st
  = (fold_m body l1 acc ≫= λ acc', fold_m body l2 acc') st.
Proof.
  revert acc st. induction l1 as [|x l1 IH]; intros acc st; simpl.
  - reflexivity.
  - rewrite !bind_unfold. destruct (body acc x st) as [[b|e] st1]; [|done].
    rewrite IH. by rewrite bind_unfold.
Qed.

(** A round of [merge_trees] leaves the accumulator as it is, or sets the
    entry of its own path and may append that path to the conflicts. *)
Lemma merge_trees_row_effect acc p row st acc' st' :
  diff_engine.merge_trees_row acc (p, row) st = (Ok acc', st') →
  acc' = acc ∨
  ∃ e, acc'.1 = Py.dict_set p e acc.1 ∧ (acc'.2 = acc.2 ∨ acc'.2 = (acc.2 ++ [p])%list).
Proof.
  destruct acc as [t c]. unfold diff_engine.merge_trees_row.
  destruct row as [|ob [|oh [|oo [|? ?]]]]; try done.
  cbv zeta.
  repeat case_match;
    try (intros [= <- _]; first [by left | right; eexists; split; [done|by left]]);
    intros (r & st1 & _ & Hrest)%bind_ok_cases;
    apply bind_ok_cases in Hrest as (m & st2 & _ & Hrest);
    destruct r.2; injection Hrest as <- _; right; eexists; (split; [done|]); auto.
Qed.

(** Rounds for other paths keep the entry of [path] and its membership in
    the conflicts. *)
Lemma merge_trees_rows_other (rows : list (string * list (option string))) path :
  path ∉ (rows.*1) →
  ∀ acc st acc' st',
    fold_m diff_engine.merge_trees_row rows acc st = (Ok acc', st') →
    Py.dict_get path acc'.1 = Py.dict_get path acc.1 ∧ (path ∈ acc'.2 ↔ path ∈ acc.2).
Proof.
  induction rows as [|[p row] rows IH]; simpl; intros Hp acc st acc' st'.
  - by intros [= <- _].
  - apply not_elem_of_cons in Hp as [Hne Hp].
    intros (acc1 & st1 & Hrow & Hrest)%bind_ok_cases.
    destruct (IH Hp _ _ _ _ Hrest) as [Hget Hin]. rewrite Hget, Hin.
    apply merge_trees_row_effect in Hrow as [-> | (e & -> & [-> | ->])]; [done| |].
    + by rewrite dict_get_set_ne.
    + rewrite dict_get_set_ne by done. split; [done|].
      rewrite elem_of_app, list_elem_of_singleton.
      split; [intros [?|?]; [done|by subst] | by left].
Qed.

(** The row of a path in the table of three trees. *)
Lemma compare_trees_3_get (a b c : flat_tree) (path : string) :
  dict_ok a → dict_ok b → dict_ok c →
  Py.dict_get path (diff_engine.compare_trees [a; b; c]) =
    match Py.dict_get path a, Py.dict_get path b, Py.dict_get path c with
    | None, None, None => None
    | _, _, _ => Some [oid_at a path; oid_at b path; oid_at c path]
    end.
Proof.
  intros Ha Hb Hc. rewrite compare_trees_3, !place_get by done. unfold oid_at.
  by destruct (Py.dict_get path a), (Py.dict_get path b), (Py.dict_get path c).
Qed.





End MergeTrees.

(** ** The merge base *)

Section MergeBase.
Context {E : Env}.

Lemma get_commit_run (oid : option string) (st : State) (c : Commit) :
  (repository.get_commit oid st).1 = Ok c → repository.get_commit oid st = (Ok c, st).
Proof. intros Hc. by rewrite (readonly_run _ st (get_commit_ro oid)), Hc. Qed.

(** What a linear history says about the commit at position [i]. *)
Lemma linear_history_at (st : State) (chain : list string) (i : nat) (x : string) :
  linear_history st chain = true → chain !! i = Some x →
  Py.truthy x = true ∧
  ∃ c, repository.get_commit (Some x) st = (Ok c, st) ∧
       parents c = match chain !! S i with Some y => [y] | None => [] end.
Proof.
  revert i x. induction chain as [|x0 rest IH]; intros i x; [done|].
  simpl. intros [[Ht Hp]%andb_true_iff Hrest]%andb_true_iff.
  destruct i as [|i]; simpl.
  - intros [= <-]. split; [done|].
    apply bool_decide_eq_true_1 in Hp. unfold parents_at in Hp.
    destruct ((repository.get_commit (Some x0) st).1) as [c|] eqn:Hc; [|done].
    exists c. split; [by apply get_commit_run|].
    injection Hp as ->. by destruct rest.
  - by apply IH.
Qed.

Lemma NoDup_lookup_inj (chain : list string) (i j : nat) (x : string) :
  NoDup chain → chain !! i = Some x → chain !! j = Some x → i = j.
Proof. intros Hn Hi Hj. by eapply NoDup_lookup. Qed.

(** The generator of [is_ancestor_of], once it has yielded the commit at
    position [i]: if it finds [a], then [a] is further down the chain, and
    the fuel covered the distance. *)
Lemma generator_contains_chain (st : State) (chain : list string) (a : string) :
  linear_history st chain = true → NoDup chain →
  ∀ fuel i x (V : gset string) st',
    chain !! i = Some x →
    (∀ z, z ∈ V → ∃ j, j ≤ i ∧ chain !! j = Some z) →
    repository.generator_contains fuel (Some a) (repository.mkIter [] V (Some x)) st
      = (Ok true, st') →
    ∃ k, i < k ∧ chain !! k = Some a ∧ k - i ≤ fuel.
Proof.
  intros Hlin Hnd. induction fuel as [|fuel IH]; intros i x V st' Hi HV; [done|].
  simpl. intros (r & st1 & Hnext & Hrest)%bind_ok_cases.
  unfold repository.iter_next in Hnext. simpl in Hnext.
  destruct (linear_history_at _ _ _ _ Hlin Hi) as (Hx & c & Hc & Hp).
  rewrite bind_unfold, bind_unfold, Hc in Hnext. simpl in Hnext.
  rewrite Hp in Hnext.
  destruct (chain !! S i) as [y|] eqn:Hy; simpl in Hnext.
  - destruct (linear_history_at _ _ _ _ Hlin Hy) as (Ty & _).
    rewrite Ty in Hnext. simpl in Hnext.
    rewrite bool_decide_eq_false_2 in Hnext.
    2:{ intros (j & Hj & Hz)%HV. pose proof (NoDup_lookup_inj _ _ _ _ Hnd Hy Hz). lia. }
    injection Hnext as <- <-.
    destruct (bool_decide (Some a = Some y)) eqn:Hay.
    + apply bool_decide_eq_true_1 in Hay. injection Hay as ->.
      exists (S i). split; [lia|]. split; [done|]. lia.
    + destruct (IH (S i) y ({[y]} ∪ V) st' Hy) as (k & Hk & Hka & Hf); [|done|].
      * intros z [->%elem_of_singleton|Hz]%elem_of_union.
        -- exists (S i). split; [lia|done].
        -- destruct (HV z Hz) as (j & Hj & Hjz). exists j. split; [lia|done].
      * exists k. split; [lia|]. split; [done|]. lia.
  - by injection Hnext as <- <-.
Qed.

(** The walk of [get_merge_base] down a linear history, at the start of
    round [i]: the first frontier is at position [i], the second one is [i]
    positions below [a], which is at position [k]. *)
Lemma get_merge_base_loop_chain (st : State) (chain : list string) (a : string) (k : nat) :
  linear_history st chain = true → NoDup chain → chain !! k = Some a →
  ∀ d i fuel x (V1 V2 : gset (option string)) f2,
    i + d = k → d < fuel → chain !! i = Some x →
    (∀ z, z ∈ V1 → ∃ j y, j ≤ i ∧ chain !! j = Some y ∧ z = Some y) →
    Some a ∈ V2 →
    (∀ z, z ∈ V2 → ∃ j y, k ≤ j ∧ j ≤ k + i ∧ chain !! j = Some y ∧ z = Some y) →
    f2 = match chain !! (k + i) with Some y => [Some y] | None => [] end →
    repository.get_merge_base_loop fuel V1 V2 [Some x] f2 st = (Ok (Some a), st).
Proof.
  intros Hlin Hnd Hk. induction d as [|d IH];
    intros i fuel x V1 V2 f2 Hid Hfuel Hi HV1 Ha HV2 Hf2;
    (destruct fuel as [|fuel]; [lia|]).
  - assert (i = k) as -> by lia. rewrite Hk in Hi. injection Hi as <-.
    simpl. by rewrite bool_decide_eq_true_2.
  - simpl. rewrite bool_decide_eq_false_2.
    2:{ intros (j & y & Hj1 & Hj2 & Hy & [= ->])%HV2.
        pose proof (NoDup_lookup_inj _ _ _ _ Hnd Hi Hy). lia. }
    destruct (linear_history_at _ _ _ _ Hlin Hi) as (Tx & c & Hc & Hp).
    rewrite bind_unfold, Hc.
    assert (is_Some (chain !! S i)) as [x' Hx'].
    { apply lookup_lt_is_Some. apply lookup_lt_Some in Hk. lia. }
    rewrite Hx' in Hp. rewrite Hp. unfold repository.expand. simpl.
    rewrite bool_decide_eq_false_2.
    2:{ intros (j & y & Hj & Hy & [= ->])%HV1.
        pose proof (NoDup_lookup_inj _ _ _ _ Hnd Hx' Hy). lia. }
    simpl.
    assert (HV1' : ∀ z, z ∈ ({[Some x']} ∪ V1 : gset (option string)) →
                        ∃ j y, j ≤ S i ∧ chain !! j = Some y ∧ z = Some y).
    { intros z [->%elem_of_singleton|Hz]%elem_of_union.
      - by exists (S i), x'.
      - destruct (HV1 z Hz) as (j & y & Hj & Hy & ->). exists j, y. split; [lia|done]. }
    destruct (chain !! (k + i)) as [y|] eqn:Hy; subst f2.
    + destruct (bool_decide (Some y ∈ ({[Some x']} ∪ V1 : gset (option string)))) eqn:Hin.
      * apply bool_decide_eq_true_1, HV1' in Hin as (j & y' & Hj & Hy' & [= <-]).
        pose proof (NoDup_lookup_inj _ _ _ _ Hnd Hy Hy') as Hji.
        assert (k + i = k) as Hki by lia. rewrite Hki, Hk in Hy. by injection Hy as ->.
      * destruct (linear_history_at _ _ _ _ Hlin Hy) as (Ty & cy & Hcy & Hpy).
        rewrite bind_unfold, Hcy. rewrite Hpy.
        destruct (chain !! S (k + i)) as [y'|] eqn:Hy'; simpl.
        -- rewrite bool_decide_eq_false_2.
           2:{ intros (j & y0 & Hj1 & Hj2 & Hy0 & [= ->])%HV2.
               pose proof (NoDup_lookup_inj _ _ _ _ Hnd Hy' Hy0). lia. }
           simpl. apply (IH (S i)); try done; try lia.
           ++ set_solver.
           ++ intros z [->%elem_of_singleton|Hz]%elem_of_union.
              ** exists (S (k + i)), y'. repeat split; try done; lia.
              ** destruct (HV2 z Hz) as (j & y0 & Hj1 & Hj2 & Hy0 & ->).
                 exists j, y0. repeat split; try done; lia.
           ++ replace (k + S i) with (S (k + i)) by lia. by rewrite Hy'.
        -- apply (IH (S i)); try done; try lia.
           ++ intros z Hz. destruct (HV2 z Hz) as (j & y0 & Hj1 & Hj2 & Hy0 & ->).
              exists j, y0. repeat split; try done; lia.
           ++ replace (k + S i) with (S (k + i)) by lia. by rewrite Hy'.
    + apply (IH (S i)); try done; try lia.
      * intros z Hz. destruct (HV2 z Hz) as (j & y0 & Hj1 & Hj2 & Hy0 & ->).
        exists j, y0. repeat split; try done; lia.
      * replace (k + S i) with (S (k + i)) by lia.
        apply lookup_ge_None in Hy. rewrite (proj2 (lookup_ge_None _ _)); [done|lia].
Qed.

(** X31. The merge base of a commit and one of its ancestors, where the
    history has no merge commit.  [get_merge_base a a] is [a].  And in a
    history without merge commits (the commits from [c] down to a root
    commit are a chain in which every commit has the next one as its only
    parent, no commit occurring twice, each stored as ASCII text), if
    [is_ancestor_of c a] holds then [get_merge_base c a] is [a]. *)
Theorem X31_merge_base_in_a_linear_history (st : State) :
  (∀ a, repository.get_merge_base a a st = (Ok a, st)) ∧
  (∀ (chain : list string) (c a : string),
      linear_history st chain = true → ascii_history st chain = true →
      NoDup chain → head chain = Some c →
      repository.is_ancestor_of c (Some a) st = (Ok true, st) →
      repository.get_merge_base (Some c) (Some a) st = (Ok (Some a), st)).
Proof.
  split.
  - intros a. unfold repository.get_merge_base. by rewrite bool_decide_eq_true_2.
  - intros chain c a Hlin _ Hnd Hc Hanc.
    assert (Hc0 : chain !! 0 = Some c) by (by destruct chain).
    unfold repository.get_merge_base.
    destruct (bool_decide (Some c = Some a)) eqn:Hca.
    { apply bool_decide_eq_true_1 in Hca. by injection Hca as ->. }
    apply bool_decide_eq_false_1 in Hca.
    unfold repository.is_ancestor_of, repository.iter_commits_and_parents in Hanc.
    destruct while_budget as [|fuel]; [done|]. simpl in Hanc.
    apply bind_ok_cases in Hanc as (r & st1 & Hnext & Hrest).
    unfold repository.iter_next in Hnext. simpl in Hnext.
    destruct (linear_history_at _ _ _ _ Hlin Hc0) as (Tc & _).
    rewrite bind_unfold in Hnext. simpl in Hnext. rewrite Tc in Hnext. simpl in Hnext.
    rewrite bool_decide_eq_false_2 in Hnext by set_solver.
    injection Hnext as <- <-.
    rewrite bool_decide_eq_false_2 in Hrest by (intros [= ->]; done).
    destruct (generator_contains_chain st chain a Hlin Hnd fuel 0 c ({[c]} ∪ ∅) st Hc0)
      as (k & Hk0 & Hk & Hf); [|done|].
    { intros z [->%elem_of_singleton|Hz]%elem_of_union; [|set_solver].
      exists 0. split; [lia|done]. }
    apply (get_merge_base_loop_chain st chain a k Hlin Hnd Hk k 0); try done; try lia.
    + intros z ->%elem_of_singleton. exists 0, c. split; [lia|done].
    + set_solver.
    + intros z ->%elem_of_singleton. exists k, a. repeat split; try done; lia.
    + replace (k + 0) with k by lia. by rewrite Hk.
Qed.

End MergeBase.

(** ** Runs of the model at the inputs where the code leaves the claims *)

(** Splits a conjunction, and nothing else. *)
Ltac conj_split := lazymatch goal with |- _ ∧ _ => split end.

(** An equation between closed terms, by evaluation. *)
Ltac by_vm := vm_compute; exact eq_refl.

Section Runs.
#[local] Existing Instance Demo.env.

(** C8, at a failing input. A cherry-pick has stopped on a conflict
    ([CHERRY_PICK_HEAD] is there, [MERGE_HEAD] is not).  Starting another
    cherry-pick is refused and writes nothing, but [merge] is not refused:
    it only looks at [MERGE_HEAD], so it starts a merge and writes
    [MERGE_HEAD]. *)
Theorem C8_merge_starts_during_cherry_pick :
  let st := Demo.cherry_pick_stopped.2 in
  let f := Demo.picked in
  let MERGE_HEAD := Path.abspath cwd "./.gitforge/MERGE_HEAD" in
  Demo.cherry_pick_stopped.1 = Ok f ∧
  (objects.get_ref "CHERRY_PICK_HEAD" true st).1 = Ok (mkRefValue false (Some f)) ∧
  (objects.get_ref "MERGE_HEAD" true st).1 = Ok (mkRefValue false None) ∧
  (* another cherry-pick is refused *)
  (repository.cherry_pick f st).1 = Ok tt ∧
  index_doc (repository.cherry_pick f st).2 = index_doc st ∧
  wlog (repository.cherry_pick f st).2 = wlog st ∧
  stdout (repository.cherry_pick f st).2
    = (stdout st ++ ["error: Cherry-pick already in progress.";
                     "Use " +:+ repository.dq +:+ "gitforge cherry-pick --continue"
                     +:+ repository.dq +:+ " or " +:+ repository.dq
                     +:+ "gitforge cherry-pick --abort" +:+ repository.dq +:+ "."])%list ∧
  (* a merge is not *)
  (repository.merge f st).1 = Ok tt ∧
  files st !! MERGE_HEAD = None ∧
  files (repository.merge f st).2 !! MERGE_HEAD = Some f ∧
  length (wlog (repository.merge f st).2) ≠ length (wlog st).
Proof.
  cbv zeta. repeat conj_split; try by_vm.
  vm_compute. discriminate.
Qed.

(** C9, at a failing input. In a fresh repository the file [.gitforge/HEAD]
    exists; [add] of that file puts the path into the index, although a
    component of it is the name of the store directory.  ([add] of the
    directory [.gitforge] skips the file: only [add_directory] asks
    [is_ignored].) *)
Theorem C9_add_of_a_store_file :
  let st := Demo.fresh in
  repository.is_ignored ".gitforge/HEAD" = true ∧
  (repository.add [".gitforge/HEAD"] st).1 = Ok tt ∧
  index_doc (repository.add [".gitforge/HEAD"] st).2
    = Some [(".gitforge/HEAD",
             Clear (Some (sha1_hexdigest ("blob" +:+ String objects.NUL "ref: refs/heads/master"))))] ∧
  (repository.add [".gitforge"] st).1 = Ok tt ∧
  index_doc (repository.add [".gitforge"] st).2 = Some [].
Proof.
  cbv zeta. repeat conj_split; by_vm.
Qed.



(** C3, at a failing input. The history has a merge commit: [feature] has
    the commits [a] and then [f] on top of the root [r], [master] has [m] on
    top of [r], and [c] merges [f] into [master].  The commit [a] is an
    ancestor of [c], and [r] is an ancestor of [a] and not the other way
    round, so that [a] is the nearest common ancestor of [c] and [a]; but
    [get_merge_base] returns [r], in either order of its arguments: the walk
    from [c] reaches [r] through the first parent of [c] before it reaches
    [a].  So, with [a] checked out, the merge of [c] is not taken for a
    fast-forward: it writes [MERGE_HEAD], leaves [HEAD] at [a] and asks for
    a commit. *)
Theorem C3_merge_base_misses_the_nearest_ancestor :
  let st := Demo.merged_history.2 in
  let c := Demo.commit_c in
  let a := Demo.commit_a in
  let r := Demo.commit_r in
  let MERGE_HEAD := Path.abspath cwd "./.gitforge/MERGE_HEAD" in
  Demo.merged_history.1 = Ok (c, a, r) ∧
  (repository.is_ancestor_of c (Some a) st).1 = Ok true ∧
  (repository.is_ancestor_of a (Some r) st).1 = Ok true ∧
  (repository.is_ancestor_of r (Some a) st).1 = Ok false ∧
  (repository.get_merge_base (Some c) (Some a) st).1 = Ok (Some r) ∧
  (repository.get_merge_base (Some a) (Some c) st).1 = Ok (Some r) ∧
  r ≠ a ∧
  (* the merge of [c] where [HEAD] is [a] *)
  (objects.get_ref "HEAD" true Demo.behind).1 = Ok (mkRefValue false (Some a)) ∧
  files Demo.behind !! MERGE_HEAD = None ∧
  (repository.merge c Demo.behind).1 = Ok tt ∧
  files (repository.merge c Demo.behind).2 !! MERGE_HEAD = Some c ∧
  (objects.get_ref "HEAD" true (repository.merge c Demo.behind).2).1
    = Ok (mkRefValue false (Some a)) ∧
  stdout (repository.merge c Demo.behind).2
    = (stdout Demo.behind
       ++ ["Merged in working tree" +:+ repository.nl +:+ "Please commit"])%list.
Proof.
  cbv zeta. repeat conj_split; try by_vm. discriminate.
Qed.

(** C4, at a failing input. The commit [c1] of [master] is a child of the
    base commit [c0] and has the file [.gitforge/HEAD] in its tree (the file
    was added as in C9); [feature] is at [c0] and is checked out.  The
    merge base of [c1] and [HEAD] is [HEAD], so that [merge c1] is a
    fast-forward.  It reads the tree of [c1] into the working directory,
    which writes the blob of [.gitforge/HEAD] over the file of [HEAD], and
    then moves [HEAD]: afterwards [HEAD] is symbolic to [master], not to
    [feature], and [feature] is still at [c0]. *)
Theorem C4_fast_forward_leaves_the_branch :
  let st := Demo.store_file_committed.2 in
  let c0 := Demo.base_commit in
  let c1 := Demo.store_commit in
  let st' := (repository.merge c1 st).2 in
  Demo.store_file_committed.1 = Ok (c0, c1) ∧
  (repository.get_commit (Some c1) st).1
    = Ok (mkCommit "d6d731563f45b4c2d005c6f4cc96365627bf0e9e" [c0] "store file"
            (mkAuthor "Dev" "dev@example.com" 1700000002 "+0000")
            (mkAuthor "Dev" "dev@example.com" 1700000003 "+0000")) ∧
  (repository.get_tree (Some "d6d731563f45b4c2d005c6f4cc96365627bf0e9e") st).1
    = Ok [(".gitforge/HEAD", Some "3593ea467f19984420047f525b44d453e4f9e298");
          ("file.txt", Some "55247711285d67b554109f3540ce635f6d2bd2fc")] ∧
  (* before: [HEAD] is on [feature], at [c0], the merge base *)
  (objects.get_ref "HEAD" false st).1 = Ok (mkRefValue true (Some "refs/heads/feature")) ∧
  (objects.get_ref "HEAD" true st).1 = Ok (mkRefValue false (Some c0)) ∧
  (repository.get_merge_base (Some c1) (Some c0) st).1 = Ok (Some c0) ∧
  (* the fast-forward *)
  (repository.merge c1 st).1 = Ok tt ∧
  stdout st' = (stdout st ++ ["Fast-forward merge, no need to commit"])%list ∧
  (objects.get_ref "MERGE_HEAD" false st').1 = Ok (mkRefValue false None) ∧
  (* after: [HEAD] is on [master], and [feature] has not moved *)
  (objects.get_ref "HEAD" false st').1 = Ok (mkRefValue true (Some "refs/heads/master")) ∧
  (objects.get_ref "refs/heads/feature" false st').1 = Ok (mkRefValue false (Some c0)) ∧
  c0 ≠ c1.
Proof.
  cbv zeta. repeat conj_split; try by_vm. discriminate.
Qed.

(** C6, at a failing input. A cherry-pick has stopped on a conflict and a
    merge was started on top of it (see C8): [MERGE_HEAD], [ORIG_HEAD] and
    [CHERRY_PICK_HEAD] are all there.  [merge_abort] restores [HEAD] and
    removes [MERGE_HEAD] and [ORIG_HEAD], but [CHERRY_PICK_HEAD] stays; and
    the cherry-pick can then not be aborted any more, as [ORIG_HEAD] is
    gone.  In the same way [cherry_pick_abort] leaves [MERGE_HEAD]. *)
Theorem C6_abort_leaves_a_token :
  let st := Demo.overlapping in
  let f := Demo.picked in
  let m := "19cadb42dcc0a7664bc6dda77b79b89e8ae88483" in
  let st1 := (repository.merge_abort st).2 in
  let st2 := (repository.cherry_pick_abort st).2 in
  (* both operations are in progress *)
  (objects.get_ref "MERGE_HEAD" true st).1 = Ok (mkRefValue false (Some f)) ∧
  (objects.get_ref "CHERRY_PICK_HEAD" true st).1 = Ok (mkRefValue false (Some f)) ∧
  (objects.get_ref "ORIG_HEAD" true st).1 = Ok (mkRefValue false (Some m)) ∧
  (* the merge is aborted *)
  (repository.merge_abort st).1 = Ok tt ∧
  stdout st1 = (stdout st ++ ["Merge aborted. Restored to 19cadb42dc"])%list ∧
  (objects.get_ref "HEAD" true st1).1 = Ok (mkRefValue false (Some m)) ∧
  (objects.get_ref "MERGE_HEAD" true st1).1 = Ok (mkRefValue false None) ∧
  (objects.get_ref "ORIG_HEAD" true st1).1 = Ok (mkRefValue false None) ∧
  (objects.get_ref "CHERRY_PICK_HEAD" true st1).1 = Ok (mkRefValue false (Some f)) ∧
  (* and the cherry-pick cannot be aborted after it *)
  (repository.cherry_pick_abort st1).1 = Ok tt ∧
  stdout (repository.cherry_pick_abort st1).2
    = (stdout st1 ++ ["error: Cannot abort (ORIG_HEAD missing)."])%list ∧
  (objects.get_ref "CHERRY_PICK_HEAD" true (repository.cherry_pick_abort st1).2).1
    = Ok (mkRefValue false (Some f)) ∧
  (* the cherry-pick is aborted instead *)
  (repository.cherry_pick_abort st).1 = Ok tt ∧
  (objects.get_ref "CHERRY_PICK_HEAD" true st2).1 = Ok (mkRefValue false None) ∧
  (objects.get_ref "ORIG_HEAD" true st2).1 = Ok (mkRefValue false None) ∧
  (objects.get_ref "MERGE_HEAD" true st2).1 = Ok (mkRefValue false (Some f)).
Proof.
  cbv zeta. repeat conj_split; by_vm.
Qed.

(** C10, at a failing input. The repository is the one of C4: [HEAD] is
    symbolic to [feature], and the tree of the commit [c1] has the file
    [.gitforge/HEAD], whose blob is the text of a [HEAD] on [master].  A
    soft and a mixed [reset] to [c1] move [feature] and leave the file of
    [HEAD] as it is; a hard [reset] moves [feature] and then checks the
    tree out, over the file of [HEAD]: afterwards [HEAD] is symbolic to
    [master]. *)
Theorem C10_reset_hard_rewrites_HEAD :
  let st := Demo.store_file_committed.2 in
  let c0 := Demo.base_commit in
  let c1 := Demo.store_commit in
  let HEAD := Path.abspath cwd "./.gitforge/HEAD" in
  let soft := (repository.reset (Some c1) true false false st).2 in
  let mixed := (repository.reset (Some c1) false true false st).2 in
  let hard := (repository.reset (Some c1) false false true st).2 in
  Demo.store_file_committed.1 = Ok (c0, c1) ∧
  repository.is_ignored ".gitforge/HEAD" = true ∧
  (objects.get_ref "HEAD" false st).1 = Ok (mkRefValue true (Some "refs/heads/feature")) ∧
  (objects.get_ref "refs/heads/feature" false st).1 = Ok (mkRefValue false (Some c0)) ∧
  files st !! HEAD = Some "ref: refs/heads/feature" ∧
  (* soft *)
  (repository.reset (Some c1) true false false st).1 = Ok tt ∧
  files soft !! HEAD = Some "ref: refs/heads/feature" ∧
  (objects.get_ref "refs/heads/feature" false soft).1 = Ok (mkRefValue false (Some c1)) ∧
  (* mixed *)
  (repository.reset (Some c1) false true false st).1 = Ok tt ∧
  files mixed !! HEAD = Some "ref: refs/heads/feature" ∧
  (objects.get_ref "refs/heads/feature" false mixed).1 = Ok (mkRefValue false (Some c1)) ∧
  (* hard *)
  (repository.reset (Some c1) false false true st).1 = Ok tt ∧
  (objects.get_ref "refs/heads/feature" false hard).1 = Ok (mkRefValue false (Some c1)) ∧
  files hard !! HEAD = Some "ref: refs/heads/master" ∧
  (objects.get_ref "HEAD" false hard).1 = Ok (mkRefValue true (Some "refs/heads/master")).
Proof.
  cbv zeta. repeat conj_split; by_vm.
Qed.

Lemma X31_witness :
  repository.get_merge_base (Some Demo.third) (Some Demo.first) Demo.linear_three.2
    = (Ok (Some Demo.first), Demo.linear_three.2).
Proof.
  apply (proj2 (X31_merge_base_in_a_linear_history Demo.linear_three.2)
               [Demo.third; Demo.second; Demo.first]).
  - by_vm.
  - by_vm.
  - apply (bool_decide_unpack (NoDup _)). vm_compute. exact I.
  - reflexivity.
  - apply readonly_eq; [apply is_ancestor_of_ro | by_vm].
Defined.

End Runs.

(* ===================================================================== *)
(** * Further properties of the code *)
(* ===================================================================== *)

(** ** Strings *)

Section Strings.

Lemma startswith_ref (v : string) :
  Py.startswith v "ref:" = true → Py.splitn 1 ":" v = ["ref"; Py.drop 4 v].
Proof.
  unfold Py.startswith.
  destruct v as [|a1 [|a2 [|a3 [|a4 rest]]]]; simpl; try done;
    repeat (case_match; try done); by subst.
Qed.






End Strings.

(** ** The reference store *)

Section Refs.
Context {E : Env}.

(** One level of [_get_ref_internal]. *)
Lemma go_step (d : nat) (ref : string) (deref : bool) (st : State) :
  objects._get_ref_internal_go (S d) ref deref st =
    match ref_text st ref with
    | Some v =>
        if Py.truthy v && Py.startswith v "ref:" then
          if deref then objects._get_ref_internal_go d (Py.strip (Py.drop 4 v)) true st
          else (Ok (ref, mkRefValue true (Some (Py.strip (Py.drop 4 v)))), st)
        else (Ok (ref, mkRefValue false (Some v)), st)
    | None => (Ok (ref, mkRefValue false None), st)
    end.
Proof.
  unfold ref_text, ref_key. cbn [objects._get_ref_internal_go].
  rewrite !bind_unfold. unfold isfile, read_file.
  destruct (files st !! _) as [data|] eqn:Hf; cbn [fmap option_fmap option_map].
  - rewrite bool_decide_eq_true_2 by eauto.
    rewrite !bind_unfold, Hf. unfold mret, M_ret. cbv beta iota.
    destruct (Py.truthy (Py.strip data) && Py.startswith (Py.strip data) "ref:") eqn:Hs; [|done].
    apply andb_true_iff in Hs as [_ Hs]. cbn [default id]. rewrite (startswith_ref _ Hs).
    by destruct deref.
  - rewrite bool_decide_eq_false_2 by (by intros [? ?]).
    rewrite !bind_unfold. done.
Qed.

Lemma get_ref_go (ref : string) (deref : bool) (st : State) :
  objects.get_ref ref deref st =
    match objects._get_ref_internal_go recursion_limit ref deref st with
    | (Ok r, st') => (Ok r.2, st')
    | (Raise e, st') => (Raise e, st')
    end.
Proof. reflexivity. Qed.

(** The only exception of the lookup is the one of the recursion limit. *)
Lemma go_raises (d : nat) (ref : string) (deref : bool) (st st' : State) (e : exn) :
  objects._get_ref_internal_go d ref deref st = (Raise e, st') → e = RecursionError.
Proof.
  revert ref deref. induction d as [|d IH]; intros ref deref.
  - by intros [= <- _].
  - rewrite go_step. repeat case_match; try done. apply IH.
Qed.


Lemma write_file_run (path data : string) (st : State) :
  let key := Path.abspath cwd path in
  write_file path data st =
    (Ok tt, set_files (<[key := data]> (<[key := ""]> (files st))) (key :: wlog st) st).
Proof. reflexivity. Qed.




Lemma isfile_ref_text (st : State) (ref : string) (b : bool) :
  isfile (objects.GIT_DIR +:+ "/" +:+ ref) st = (Ok b, st) →
  if b then is_Some (ref_text st ref) else ref_text st ref = None.
Proof.
  unfold isfile, ref_text. fold (ref_key ref). intros [= <-].
  destruct (files st !! ref_key ref) as [data|]; cbn [fmap option_fmap option_map].
  - rewrite bool_decide_eq_true_2 by eauto. eauto.
  - by rewrite bool_decide_eq_false_2 by (by intros [? ?]).
Qed.

(** X1. [get_ref] of a ref that has no file is not an error: it returns
    the value [None], not symbolic, with or without dereferencing, and
    changes nothing.  The name of the ref is not the name of the index file
    or of the file of the rebase state. *)
Theorem X1_get_ref_of_a_missing_ref (ref : string) (deref : bool) (st : State) :
  0 < recursion_limit →
  doc_key (ref_key ref) = false →
  isfile (objects.GIT_DIR +:+ "/" +:+ ref) st = (Ok false, st) →
  objects.get_ref ref deref st = (Ok (mkRefValue false None), st).
Proof.
  intros Hd _ Hf%isfile_ref_text. rewrite get_ref_go.
  destruct recursion_limit as [|d]; [lia|]. by rewrite go_step, Hf.
Qed.

(** X2. [update_ref] with no value, or with the empty value, writes
    nothing: it ends in the [AssertionError] of [assert value.value] (or in
    the [RecursionError] of the lookup before it), in the state in which it
    started. *)
Theorem X2_update_ref_rejects_an_empty_value (ref : string) (v : RefValue) (deref : bool)
    (st : State) :
  Py.truthy_opt (value v) = false →
  ∃ e, objects.update_ref ref v deref st = (Raise e, st)
       ∧ (e = AssertionError "" ∨ e = RecursionError).
Proof.
  intros Hv. unfold objects.update_ref, objects._get_ref_internal.
  rewrite bind_unfold.
  pose proof (_get_ref_internal_go_ro recursion_limit ref deref st) as Hro.
  destruct (objects._get_ref_internal_go recursion_limit ref deref st) as [[r|e] st1] eqn:Hgo;
    simpl in Hro; subst st1.
  - rewrite bind_unfold, Hv. simpl. eauto.
  - apply go_raises in Hgo as ->. eauto.
Qed.









End Refs.

(** ** The object store, again *)

Section Objects.
Context {E : Env}.

(** X9. An object read with another type than the one it was stored with
    is refused: [get_object] ends in the [AssertionError] that names both
    types, and changes nothing.  The file of the object can be written
    when it is stored. *)
Theorem X9_get_object_rejects_another_type `{!EnvOk E}
    (data type_ expected : string) (st : State) :
  has_char objects.NUL type_ = false →
  expected ≠ type_ →
  writable st (Path.abspath cwd
                 (objects.object_path
                    (sha1_hexdigest (type_ +:+ String objects.NUL data)))) = true →
  ∃ oid st1,
    objects.hash_object data type_ st = (Ok oid, st1) ∧
    objects.get_object oid (Some expected) st1
    = (Raise (AssertionError ("Expected " +:+ expected +:+ ", got " +:+ type_)), st1).
Proof.
  intros Hn Hne _. eexists _, _. split; [apply hash_object_run|].
  unfold objects.get_object. rewrite bind_unfold. unfold read_file.
  cbn [files set_files]. rewrite lookup_insert_eq, decompress_compress.
  rewrite (partition_app _ _ _ Hn), bind_unfold.
  destruct (String.eqb type_ expected) eqn:Heq; [|done].
  apply String.eqb_eq in Heq. congruence.
Qed.


End Objects.

(** ** Paths *)

Section Paths.
Context {E : Env}.

Lemma split_nonempty (c : ascii) (s : string) : ∃ w ws, Py.split c s = w :: ws.
Proof.
  destruct s as [|a s]; simpl; [eauto|].
  destruct (Ascii.eqb a c); [eauto|]. destruct (Py.split c s); eauto.
Qed.

Lemma split_app_sep (c : ascii) (a b : string) :
  Py.split c (a +:+ String c b) = (Py.split c a ++ Py.split c b)%list.
Proof.
  induction a as [|x a IH]; simpl.
  - by rewrite Ascii.eqb_refl.
  - destruct (Ascii.eqb x c); [by rewrite IH|].
    rewrite IH. by destruct (split_nonempty c a) as (w & ws & ->).
Qed.

Lemma split_no_sep (c : ascii) (s : string) :
  has_char c s = false → Py.split c s = [s].
Proof.
  induction s as [|a s IH]; simpl; [done|].
  intros [Ha Hs]%orb_false_iff. by rewrite Ha, (IH Hs).
Qed.

(** Where the components of a normalised name come from: from the name,
    or from the directory it is resolved in. *)
Lemma norm_go_lookup (comps stack : list string) (n : nat) (g : string) :
  Path.norm_go stack comps !! n = Some g →
  g ∈ comps ∨ (n < length stack ∧ rev stack !! n = Some g).
Proof.
  revert stack. induction comps as [|c cs IH]; intros stack; simpl.
  - intros Hn. right. split; [|done].
    apply lookup_lt_Some in Hn. by rewrite length_rev in Hn.
  - destruct (String.eqb c "" || String.eqb c ".").
    { intros [?|?]%IH; [left; by apply list_elem_of_further | by right]. }
    destruct (String.eqb c "..").
    + intros [?|[Hlt Hn]]%IH; [left; by apply list_elem_of_further|].
      right. destruct stack as [|x stack]; simpl in *; [lia|].
      split; [lia|]. rewrite lookup_app_l by (by rewrite length_rev). done.
    + intros [?|[Hlt Hn]]%IH; [left; by apply list_elem_of_further|].
      simpl in *. destruct (decide (n = length stack)) as [->|Hne].
      * rewrite lookup_app_r in Hn by (by rewrite length_rev).
        rewrite length_rev, Nat.sub_diag in Hn. injection Hn as ->.
        left. apply list_elem_of_here.
      * right. split; [lia|].
        by rewrite lookup_app_l in Hn by (rewrite length_rev; lia).
Qed.

(** A name without a [.gitforge] component never resolves to a file of the
    store of the working directory. *)
Lemma abspath_not_ignored (p : string) (rest : list string) :
  repository.is_ignored p = false →
  Path.abspath cwd p ≠ (cwd ++ ".gitforge" :: rest)%list.
Proof.
  unfold repository.is_ignored. intros Hp%bool_decide_eq_false Heq.
  assert (Hn : Path.abspath cwd p !! length cwd = Some ".gitforge").
  { rewrite Heq, lookup_app_r by done. by rewrite Nat.sub_diag. }
  unfold Path.abspath in Hn.
  destruct (Py.startswith p "/");
    apply norm_go_lookup in Hn as [?|[Hlt _]]; try done; simpl in Hlt; [lia|].
  rewrite length_rev in Hlt. lia.
Qed.




End Paths.

(** ** A new repository *)

Section Init.
Context {E : Env}.


End Init.

(** ** Comparing and merging trees *)

Section Trees.
Context {E : Env}.

Lemma dict_get_elem {V} (k : string) (v : V) (d : Py.dict V) :
  dict_ok d → (k, v) ∈ d ↔ Py.dict_get k d = Some v.
Proof.
  unfold dict_ok. induction d as [|[k0 v0] d IH]; simpl.
  - intros _. split; [by intros ?%elem_of_nil | done].
  - intros [Hk0 Hd]%NoDup_cons. rewrite elem_of_cons, (IH Hd).
    destruct (String.eqb k k0) eqn:Hk.
    + apply String.eqb_eq in Hk as ->. split.
      * intros [[= ->]|Hg]; [done|]. by apply dict_get_Some_keys in Hg.
      * intros [= ->]. by left.
    + split; [|by right]. intros [[= -> _]|?]; [|done].
      by rewrite String.eqb_refl in Hk.
Qed.

Lemma dict_get_not_keys {V} (k : string) (d : Py.dict V) :
  Py.dict_get k d = None → k ∉ d.*1.
Proof.
  induction d as [|[k0 v0] d IH]; simpl; [intros _; apply not_elem_of_nil|].
  destruct (String.eqb k k0) eqn:Hk; [done|]. intros Hg.
  apply not_elem_of_cons. split; [|by apply IH].
  intros ->. by rewrite String.eqb_refl in Hk.
Qed.

(** The row of a path in the table of two trees. *)
Lemma compare_trees_2_get (a b : flat_tree) (path : string) :
  dict_ok a → dict_ok b →
  Py.dict_get path (diff_engine.compare_trees [a; b]) =
    match Py.dict_get path a, Py.dict_get path b with
    | None, None => None
    | _, _ => Some [oid_at a path; oid_at b path]
    end.
Proof.
  intros Ha Hb.
  change (diff_engine.compare_trees [a; b]) with (place 2 1 b (place 2 0 a [])).
  rewrite !place_get by done. unfold oid_at.
  by destruct (Py.dict_get path a), (Py.dict_get path b).
Qed.

Lemma compare_trees_2_ok (a b : flat_tree) : dict_ok (diff_engine.compare_trees [a; b]).
Proof.
  change (diff_engine.compare_trees [a; b]) with (place 2 1 b (place 2 0 a [])).
  do 2 apply place_ok. apply NoDup_nil_2.
Qed.

(** X12. [iter_changed_files] reports a path exactly when its oids in the
    two trees differ, as a new file when the first tree has no oid for it,
    as deleted when the second has none, and as modified otherwise; a tree
    compared with itself has no changed file. *)
Theorem X12_iter_changed_files (t_from t_to : flat_tree) :
  dict_ok t_from → dict_ok t_to →
  (∀ path action,
     (path, action) ∈ diff_engine.iter_changed_files t_from t_to ↔
     oid_at t_from path ≠ oid_at t_to path
     ∧ action = if negb (Py.truthy_opt (oid_at t_from path)) then "new file"
                else if negb (Py.truthy_opt (oid_at t_to path)) then "deleted"
                else "modified")
  ∧ diff_engine.iter_changed_files t_from t_from = [].
Proof.
  intros Ha Hb.
  assert (Hiff : ∀ a b, dict_ok a → dict_ok b → ∀ path action,
     (path, action) ∈ diff_engine.iter_changed_files a b ↔
     oid_at a path ≠ oid_at b path
     ∧ action = if negb (Py.truthy_opt (oid_at a path)) then "new file"
                else if negb (Py.truthy_opt (oid_at b path)) then "deleted"
                else "modified").
  { clear. intros a b Ha Hb path action. unfold diff_engine.iter_changed_files.
    rewrite list_elem_of_omap. split.
    - intros ([p row] & Hin & Hf).
      apply (dict_get_elem _ _ _ (compare_trees_2_ok a b)) in Hin.
      rewrite compare_trees_2_get in Hin by done.
      assert (row = [oid_at a p; oid_at b p]) as ->.
      { destruct (Py.dict_get p a), (Py.dict_get p b); congruence. }
      case_bool_decide; [|done]. by injection Hf as <- <-.
    - intros [Hne ->]. exists (path, [oid_at a path; oid_at b path]). split.
      + apply (dict_get_elem _ _ _ (compare_trees_2_ok a b)).
        rewrite compare_trees_2_get by done. unfold oid_at in *.
        by destruct (Py.dict_get path a), (Py.dict_get path b).
      + by rewrite bool_decide_eq_true_2. }
  split; [by apply Hiff|].
  destruct (diff_engine.iter_changed_files t_from t_from) as [|[p act] l] eqn:Hl; [done|].
  assert (Hin : (p, act) ∈ diff_engine.iter_changed_files t_from t_from).
  { rewrite Hl. apply list_elem_of_here. }
  by apply Hiff in Hin as [? _].
Qed.

(** The round of a path that one side left as it was in the base, or that
    both sides changed in the same way. *)
Lemma merge_trees_row_one_side (tree : Index) (conflicts : list string) (path : string)
    (ob oh oo : option string) (st : State) :
  no_empty_oid ob = true → no_empty_oid oh = true → no_empty_oid oo = true →
  oh = ob ∨ oo = ob ∨ oh = oo →
  diff_engine.merge_trees_row (tree, conflicts) (path, [ob; oh; oo]) st
  = (Ok (match (if bool_decide (oh = ob) then oo else oh) with
         | Some x => Py.dict_set path (Clear (Some x)) tree
         | None => tree
         end, conflicts), st).
Proof.
  intros Hb Hh Ho Hcase. unfold diff_engine.merge_trees_row.
  destruct ob as [b|], oh as [h|], oo as [o|]; simpl in Hb, Hh, Ho;
    cbn [diff_engine.is_None Py.truthy_opt diff_engine.or_else andb orb negb Bool.eqb];
    rewrite ?Hb, ?Hh, ?Ho; cbn [andb orb negb];
    repeat (case_bool_decide; simplify_eq; cbn [andb orb negb]);
    try reflexivity; try (by destruct Hcase as [?|[?|?]]; simplify_eq).
  unfold diff_engine.or_else. cbn [Py.truthy_opt]. by rewrite Hh.
Qed.

(** X13. A path that one side left as it was in the base takes the oid of
    the other side, and a path that both sides changed in the same way takes
    that oid; when that side has no oid for the path, the merged tree has no
    entry for it.  The entry is clear, and the path is no conflict. *)
Theorem X13_merge_trees_one_side (t_base t_HEAD t_other : flat_tree) (st st' : State)
    (tree : Index) (conflicts : list string) (path : string) :
  dict_ok t_base → dict_ok t_HEAD → dict_ok t_other →
  no_empty_oid (oid_at t_base path) = true →
  no_empty_oid (oid_at t_HEAD path) = true →
  no_empty_oid (oid_at t_other path) = true →
  oid_at t_HEAD path = oid_at t_base path
  ∨ oid_at t_other path = oid_at t_base path
  ∨ oid_at t_HEAD path = oid_at t_other path →
  diff_engine.merge_trees t_base t_HEAD t_other st = (Ok (tree, conflicts), st') →
  Py.dict_get path tree
  = (λ x, Clear (Some x)) <$> (if bool_decide (oid_at t_HEAD path = oid_at t_base path)
                               then oid_at t_other path else oid_at t_HEAD path)
  ∧ path ∉ conflicts.
Proof.
  intros Hb Hh Ho Eb Eh Eo Hcase. unfold diff_engine.merge_trees.
  destruct (Py.dict_get path (diff_engine.compare_trees [t_base; t_HEAD; t_other]))
    as [row|] eqn:Hrow.
  - assert (row = [oid_at t_base path; oid_at t_HEAD path; oid_at t_other path]) as ->.
    { rewrite compare_trees_3_get in Hrow by done.
      destruct (Py.dict_get path t_base), (Py.dict_get path t_HEAD),
        (Py.dict_get path t_other); congruence. }
    destruct (dict_get_split _ _ _ (compare_trees_3_ok _ _ _) Hrow)
      as (pre & post & -> & Hpre & Hpost).
    rewrite fold_m_app. intros (acc1 & st1 & Hrun1 & Hrun)%bind_ok_cases.
    simpl in Hrun. apply bind_ok_cases in Hrun as (acc2 & st2 & Hrun2 & Hrun3).
    destruct (merge_trees_rows_other _ _ Hpre _ _ _ _ Hrun1) as [Hg1 Hc1].
    destruct (merge_trees_rows_other _ _ Hpost _ _ _ _ Hrun3) as [Hg3 Hc3].
    destruct acc1 as [tree1 conflicts1].
    rewrite (merge_trees_row_one_side _ _ _ _ _ _ _ Eb Eh Eo Hcase) in Hrun2.
    injection Hrun2 as <- <-. simpl in *. rewrite Hg3, Hc3, Hc1. split.
    + destruct (if bool_decide _ then _ else _) as [x|]; simpl.
      * apply dict_get_set_eq.
      * done.
    + apply not_elem_of_nil.
  - intros Hrun. pose proof (dict_get_not_keys _ _ Hrow) as Hkeys.
    destruct (merge_trees_rows_other _ _ Hkeys _ _ _ _ Hrun) as [Hg Hc].
    simpl in *. rewrite Hg, Hc. split; [|apply not_elem_of_nil].
    rewrite compare_trees_3_get in Hrow by done. unfold oid_at.
    destruct (Py.dict_get path t_base), (Py.dict_get path t_HEAD),
      (Py.dict_get path t_other); try done.
Qed.

End Trees.

(** ** Loops *)

Section Loops.

(** An invariant of the rounds of a loop holds when the loop ends, with or
    without an exception. *)
Lemma for_each_inv {A} (I : State → Prop) (l : list A) (body : A → M unit)
    (st st' : State) (r : Res unit) :
  (∀ x s r' s', x ∈ l → I s → body x s = (r', s') → I s') →
  I st → for_each l body st = (r, st') → I st'.
Proof.
  revert st. induction l as [|x l IH]; intros st Hbody Hst; simpl.
  - by intros [= _ <-].
  - rewrite bind_unfold. destruct (body x st) as [[[]|e] s1] eqn:Hx.
    + apply IH.
      * intros y s r' s' Hy. apply Hbody. by apply list_elem_of_further.
      * eapply Hbody; [apply list_elem_of_here | done | done].
    + intros [= _ <-]. eapply Hbody; [apply list_elem_of_here | done | done].
Qed.

Lemma fold_m_inv {A B} (P : B → State → Prop) (body : B → A → M B) (l : list A)
    (acc r : B) (st st' : State) :
  (∀ b a s b' s', a ∈ l → P b s → body b a s = (Ok b', s') → P b' s') →
  P acc st → fold_m body l acc st = (Ok r, st') → P r st'.
Proof.
  revert acc st. induction l as [|x l IH]; intros acc st Hbody Hacc; simpl.
  - by intros [= <- <-].
  - intros (b & s1 & Hx & Hrest)%bind_ok_cases. eapply IH; [|  |done].
    + intros b0 a s b' s' Ha. apply Hbody. by apply list_elem_of_further.
    + eapply Hbody; [apply list_elem_of_here | done | done].
Qed.

End Loops.

(** ** The index and the working tree *)

Section IndexAndWorkingTree.
Context {E : Env}.

Lemma index_of_tree_clear (t : flat_tree) :
  objects.has_conflicts (index_of_tree t) = false.
Proof.
  unfold index_of_tree.
  assert (H : ∀ t (index : Index),
            objects.has_conflicts index = false →
            objects.has_conflicts
              (fold_left (λ index (po : string * option string),
                            Py.dict_set po.1 (Clear po.2) index) t index) = false).
  { clear. induction t as [|[p o] t IH]; intros index Hi; simpl; [done|].
    apply IH. clear IH. induction index as [|[k e] index IH]; simpl in *; [done|].
    apply orb_false_iff in Hi as [He Hi].
    destruct (String.eqb p k); simpl; [done|]. by rewrite He, (IH Hi). }
  by apply H.
Qed.

(** X14. [read_tree] without the update of the working tree puts the tree
    in the place of the whole index, every entry clear, so that no conflict
    is left; it changes no file and, when the tree cannot be read, it ends
    in the exception of [get_tree] and leaves the index as it was. *)
Theorem X14_read_tree_replaces_the_index (tree_oid : string) (st : State) :
  repository.read_tree tree_oid false st =
    match (repository.get_tree (Some tree_oid) st).1 with
    | Ok t => (Ok tt, mkState (files st) (Some (index_of_tree t)) (rebase_doc st)
                              (Path.abspath cwd objects.index_path :: wlog st)
                              (stdout st) (ticks st))
    | Raise e => (Raise e, st)
    end
  ∧ ∀ t, objects.has_conflicts (index_of_tree t) = false.
Proof.
  split; [|apply index_of_tree_clear].
  unfold repository.read_tree. rewrite get_index_run, bind_unfold.
  rewrite (readonly_run _ st (get_tree_ro (Some tree_oid))).
  by destruct (repository.get_tree (Some tree_oid) st).1.
Qed.

Lemma dict_set_elem {V} (k p : string) (v o : V) (d : Py.dict V) :
  (p, o) ∈ Py.dict_set k v d → (p, o) = (k, v) ∨ (p, o) ∈ d.
Proof.
  induction d as [|[k0 v0] d IH]; simpl.
  - intros ->%list_elem_of_singleton. by left.
  - destruct (String.eqb k k0) eqn:Hk.
    + apply String.eqb_eq in Hk as ->.
      intros [->|?]%elem_of_cons; [by left|]. right. by apply list_elem_of_further.
    + intros [->|Hin]%elem_of_cons; [right; apply list_elem_of_here|].
      destruct (IH Hin); [by left|]. right. by apply list_elem_of_further.
Qed.

Lemma dict_del_get_eq {V} (k : string) (d : Py.dict V) :
  dict_ok d → Py.dict_get k (Py.dict_del k d) = None.
Proof.
  unfold dict_ok. induction d as [|[k0 v0] d IH]; simpl; [done|].
  intros [Hk0 Hd]%NoDup_cons. destruct (String.eqb k k0) eqn:Hk.
  - apply String.eqb_eq in Hk as ->. by apply dict_get_None.
  - simpl. rewrite Hk. by apply IH.
Qed.

Lemma dict_del_get_ne {V} (k p : string) (d : Py.dict V) :
  p ≠ k → Py.dict_get p (Py.dict_del k d) = Py.dict_get p d.
Proof.
  intros Hne. induction d as [|[k0 v0] d IH]; simpl; [done|].
  destruct (String.eqb k k0) eqn:Hk.
  - apply String.eqb_eq in Hk as <-.
    destruct (String.eqb p k) eqn:Hp; [|done].
    by apply String.eqb_eq in Hp.
  - simpl. by rewrite IH.
Qed.

Lemma fold_m_total {A B} (body : B → A → M B) (l : list A) (acc : B) (st : State) :
  (∀ b a s, a ∈ l → ∃ b' s', body b a s = (Ok b', s')) →
  ∃ r st', fold_m body l acc st = (Ok r, st').
Proof.
  revert acc st. induction l as [|x l IH]; intros acc st Hbody; simpl; [by eauto|].
  destruct (Hbody acc x st) as (b & s1 & Hx); [apply list_elem_of_here|].
  rewrite bind_unfold, Hx. apply IH.
  intros b0 a s Ha. apply Hbody. by apply list_elem_of_further.
Qed.

(** X16. [get_index_tree] has the clear entries of the index, with their
    oids, and none of the conflict entries; as it goes through the context
    manager of the index, it also writes the index file, with the entries it
    found.  The index file can be written: the store directory is there,
    and nothing stands in the way of the file. *)
Theorem X16_get_index_tree (st : State) :
  let index := default [] (index_doc st) in
  index_writable st = true →
  dict_ok index →
  ∃ t st', repository.get_index_tree st = (Ok t, st')
    ∧ (∀ p o, Py.dict_get p t = Some o ↔ Py.dict_get p index = Some (Clear o))
    ∧ index_doc st' = Some index ∧ files st' = files st.
Proof.
  intros index _ Hok. unfold repository.get_index_tree. rewrite get_index_run.
  fold index. eexists _, _. split; [reflexivity|]. cbn [fst snd index_doc files].
  split; [|done]. intros p o.
  match goal with |- context [fmap ?g ?k] => set (f := g); set (l := k) end.
  assert (Hsub : sublist (f <$> l).*1 index.*1).
  { rewrite <- list_fmap_compose.
    replace (fmap (fst ∘ f) l) with l.*1 by (by apply list_fmap_ext; intros ? []).
    apply fmap_sublist, sublist_filter. }
  assert (Hok' : dict_ok (f <$> l)) by (eapply sublist_NoDup; [exact Hok | exact Hsub]).
  rewrite <- (dict_get_elem _ _ _ Hok'), <- (dict_get_elem _ _ _ Hok).
  rewrite list_elem_of_fmap. split.
  - intros ([p' e] & [= -> ->] & [He Hin]%list_elem_of_filter).
    destruct e; [done|]. by destruct He.
  - intros Hin. exists (p, Clear o). split; [done|].
    apply list_elem_of_filter. by split.
Qed.

(** X17. [add] of a name that is neither a file nor a directory stages
    the deletion: the index has no entry for the path afterwards, the other
    entries are as they were, and no file is touched.  The name is not the
    name of the index file or of the file of the rebase state, and the
    index file can be written. *)
Theorem X17_add_of_a_missing_path (name rel : string) (st : State) :
  let index := default [] (index_doc st) in
  index_writable st = true →
  doc_key (Path.abspath cwd name) = false →
  isfile name st = (Ok false, st) →
  isdir name st = (Ok false, st) →
  Path.relpath cwd name = Some rel →
  dict_ok index →
  ∃ st' index',
    repository.add [name] st = (Ok tt, st')
    ∧ index_doc st' = Some index'
    ∧ Py.dict_get rel index' = None
    ∧ (∀ p, p ≠ rel → Py.dict_get p index' = Py.dict_get p index)
    ∧ files st' = files st.
Proof.
  intros index _ _ Hfile Hdir Hrel Hok. unfold repository.add. rewrite get_index_run.
  fold index. cbn [fold_m]. rewrite !bind_unfold, Hfile. cbv beta iota.
  rewrite bind_unfold, Hdir. cbv beta iota. rewrite bind_unfold.
  unfold relpath. rewrite Hrel. unfold mret at 1, M_ret at 1. cbv beta iota.
  unfold Py.dict_mem. destruct (Py.dict_get rel index) as [e|] eqn:Hget.
  - eexists _, _. split; [reflexivity|]. cbn [fst snd index_doc files].
    split; [done|]. split; [by apply dict_del_get_eq|]. split; [|done].
    intros p Hp. by apply dict_del_get_ne.
  - eexists _, _. split; [reflexivity|]. cbn [fst snd index_doc files]. done.
Qed.

End IndexAndWorkingTree.

(** ** Emptying the working directory *)

Section EmptyDirectory.
Context {E : Env}.

Lemma for_each_spec {A} (I : State → Prop) (l : list A) (body : A → M unit) (st : State) :
  (∀ x s, x ∈ l → I s → ∃ s', body x s = (Ok tt, s') ∧ I s') →
  I st → ∃ st', for_each l body st = (Ok tt, st') ∧ I st'.
Proof.
  revert st. induction l as [|x l IH]; intros st Hbody Hst; simpl; [by eauto|].
  destruct (Hbody x st) as (s1 & Hx & Hs1); [apply list_elem_of_here | done |].
  rewrite bind_unfold, Hx. apply IH; [|done].
  intros y s Hy. apply Hbody. by apply list_elem_of_further.
Qed.

Lemma empty_dir_keeps (st : State) :
  ∃ st', repository._empty_current_directory st = (Ok tt, st')
    ∧ (∀ rest, files st' !! (cwd ++ ".gitforge" :: rest)%list
               = files st !! (cwd ++ ".gitforge" :: rest)%list)
    ∧ (∀ key data, files st' !! key = Some data → files st !! key = Some data)
    ∧ index_doc st' = index_doc st ∧ rebase_doc st' = rebase_doc st.
Proof.
  unfold repository._empty_current_directory. rewrite bind_unfold. unfold walk at 1.
  cbv beta iota.
  match goal with |- context [for_each ?l ?b st] =>
    destruct (for_each_spec
      (λ s, (∀ rest, files s !! (cwd ++ ".gitforge" :: rest)%list
                     = files st !! (cwd ++ ".gitforge" :: rest)%list)
            ∧ (∀ key data, files s !! key = Some data → files st !! key = Some data)
            ∧ index_doc s = index_doc st ∧ rebase_doc s = rebase_doc st) l b st)
      as (st' & Hrun & Hinv) end.
  - intros name s (k & -> & _)%list_elem_of_fmap HI.
    pose proof HI as (Hstore & Hsub & Hidx & Hreb).
    rewrite bind_unfold. unfold relpath.
    change (Path.relpath cwd (Path.abs_name k))
      with (Some (Path.rel_of cwd (Path.abspath cwd (Path.abs_name k)))).
    unfold mret at 1, M_ret at 1. cbv beta iota.
    rewrite bind_unfold. unfold isfile at 1. cbv beta iota.
    destruct (repository.is_ignored _) eqn:Hign; cbn [orb];
      [eexists; split; [reflexivity|done]|].
    case_bool_decide as Hf; cbn [negb]; [|eexists; split; [reflexivity|done]].
    destruct Hf as [data Hf]. unfold remove. rewrite Hf.
    eexists. split; [reflexivity|]. cbn [files set_files index_doc rebase_doc].
    split; [|split; [|done]].
    + intros rest. rewrite lookup_delete_ne; [apply Hstore|].
      by apply abspath_not_ignored.
    + intros key d [_ Hd]%lookup_delete_Some. by apply Hsub.
  - done.
  - by exists st'.
Qed.

(** X19. [_empty_current_directory] always returns, and it only removes
    files: every file below [.gitforge] is still there with its contents,
    no file is created or changed, and the index and the rebase state are
    as they were. *)
Theorem X19_empty_current_directory_keeps_the_store (st : State) :
  ∃ st', repository._empty_current_directory st = (Ok tt, st')
    ∧ (∀ rest, files st' !! (cwd ++ ".gitforge" :: rest)%list
               = files st !! (cwd ++ ".gitforge" :: rest)%list)
    ∧ (∀ key data, files st' !! key = Some data → files st !! key = Some data)
    ∧ index_doc st' = index_doc st ∧ rebase_doc st' = rebase_doc st.
Proof. apply empty_dir_keeps. Qed.

End EmptyDirectory.

(** ** Relative names *)

Section RelativeNames.
Context {E : Env}.

Lemma prefix_snoc_inv {A} (pre l : list A) (c : A) :
  pre `prefix_of` (l ++ [c]) → pre `prefix_of` l ∨ pre = (l ++ [c])%list.
Proof.
  intros [k Hk]. destruct k as [|x k _] using rev_ind.
  - right. by rewrite app_nil_r in Hk.
  - left. rewrite app_assoc in Hk. apply app_inj_tail in Hk as [-> _].
    by apply prefix_app_r.
Qed.

(** A normalised name is a part of the directory it was resolved in,
    followed by components of the name. *)
Lemma norm_go_shape (comps stack : list string) :
  ∃ pre pushed, Path.norm_go stack comps = (pre ++ pushed)%list
                ∧ pre `prefix_of` rev stack ∧ ∀ x, x ∈ pushed → x ∈ comps.
Proof.
  revert stack. induction comps as [|c cs IH]; intros stack; simpl.
  - exists (rev stack), []. rewrite app_nil_r. split; [done|]. split; [done|].
    by intros x ?%elem_of_nil.
  - destruct (String.eqb c "" || String.eqb c ".").
    { destruct (IH stack) as (pre & pushed & -> & Hpre & Hin).
      exists pre, pushed. split; [done|]. split; [done|].
      intros x Hx. by apply list_elem_of_further, Hin. }
    destruct (String.eqb c "..").
    + destruct (IH (tail stack)) as (pre & pushed & -> & Hpre & Hin).
      exists pre, pushed. split; [done|]. split.
      * destruct stack as [|x stack]; [done|]. simpl in *. by apply prefix_app_r.
      * intros x Hx. by apply list_elem_of_further, Hin.
    + destruct (IH (c :: stack)) as (pre & pushed & -> & Hpre & Hin).
      simpl in Hpre. apply prefix_snoc_inv in Hpre as [Hpre | ->].
      * exists pre, pushed. split; [done|]. split; [done|].
        intros x Hx. by apply list_elem_of_further, Hin.
      * exists (rev stack), (c :: pushed). rewrite <- app_assoc. split; [done|].
        split; [done|]. intros x [->|Hx]%elem_of_cons; [apply list_elem_of_here|].
        by apply list_elem_of_further, Hin.
Qed.

Lemma strip_common_suffix (a b : list string) : (Path.strip_common a b).2 `suffix_of` b.
Proof.
  revert b. induction a as [|x a IH]; intros b; simpl; [done|].
  destruct b as [|y b]; [done|]. destruct (String.eqb x y); [|done].
  by apply suffix_cons_r.
Qed.

Lemma strip_common_prefix (a pre pushed : list string) :
  pre `prefix_of` a → (Path.strip_common a (pre ++ pushed)).2 `suffix_of` pushed.
Proof.
  revert a. induction pre as [|x pre IH]; intros a Hpre; simpl.
  - apply strip_common_suffix.
  - destruct a as [|y a]; [by apply prefix_nil_not in Hpre|].
    apply prefix_cons_inv_1 in Hpre as Hxy. apply prefix_cons_inv_2 in Hpre.
    subst y. simpl. rewrite String.eqb_refl. by apply IH.
Qed.

Lemma split_no_sep_inside (c : ascii) (s x : string) :
  x ∈ Py.split c s → has_char c x = false.
Proof.
  revert x. induction s as [|a s IH]; intros x; simpl.
  - by intros ->%list_elem_of_singleton.
  - destruct (Ascii.eqb a c) eqn:Ha.
    + intros [->|Hx]%elem_of_cons; [done|]. by apply IH.
    + destruct (split_nonempty c s) as (w & ws & Hs). rewrite Hs in IH |- *.
      intros [->|Hx]%elem_of_cons.
      * simpl. rewrite Ha. apply IH, list_elem_of_here.
      * by apply IH, list_elem_of_further.
Qed.

Lemma split_join (l : list string) :
  l ≠ [] → (∀ x, x ∈ l → has_char "/" x = false) →
  Py.split "/" (Py.join "/" l) = l.
Proof.
  induction l as [|x l IH]; [done|]. intros _ Hl. destruct l as [|y l].
  - simpl. apply split_no_sep, Hl, list_elem_of_here.
  - change (Py.join "/" (x :: y :: l)) with (x +:+ String "/" (Py.join "/" (y :: l))).
    rewrite split_app_sep, IH; [|done|].
    + by rewrite split_no_sep by apply Hl, list_elem_of_here.
    + intros z Hz. by apply Hl, list_elem_of_further.
Qed.

(** The relative name of a path without a [.gitforge] component has no
    such component either. *)
Lemma rel_not_ignored (p : string) :
  repository.is_ignored p = false →
  repository.is_ignored (Path.rel_of cwd (Path.abspath cwd p)) = false.
Proof.
  intros Hp. pose proof Hp as Hp'%bool_decide_eq_false.
  assert (Hkey : ∃ pre pushed, Path.abspath cwd p = (pre ++ pushed)%list
                    ∧ pre `prefix_of` cwd ∧ ∀ x, x ∈ pushed → x ∈ Py.split "/" p).
  { unfold Path.abspath. destruct (Py.startswith p "/").
    - destruct (norm_go_shape (Py.split "/" p) []) as (pre & pushed & -> & Hpre & Hin).
      exists pre, pushed. split; [done|]. split; [|done].
      apply prefix_nil_inv in Hpre as ->. apply prefix_nil.
    - destruct (norm_go_shape (Py.split "/" p) (rev cwd)) as (pre & pushed & -> & Hpre & Hin).
      exists pre, pushed. rewrite rev_involutive in Hpre. done. }
  destruct Hkey as (pre & pushed & -> & Hpre & Hin).
  unfold Path.rel_of.
  pose proof (strip_common_prefix cwd pre pushed Hpre) as Hsuf.
  destruct (Path.strip_common cwd (pre ++ pushed)) as [up down]. simpl in Hsuf.
  destruct (((λ _, "..") <$> up) ++ down)%list as [|z rel] eqn:Hrel; [done|].
  assert (Hall : ∀ x, x ∈ z :: rel → has_char "/" x = false ∧ x ≠ ".gitforge").
  { intros x. rewrite <- Hrel, elem_of_app, list_elem_of_fmap.
    intros [(? & -> & _)|Hx]; [done|].
    destruct Hsuf as [k ->]. assert (x ∈ Py.split "/" p) as Hs.
    { apply Hin, elem_of_app. by right. }
    split; [by eapply split_no_sep_inside|]. by intros ->. }
  unfold repository.is_ignored. apply bool_decide_eq_false.
  rewrite split_join; [|done|intros x Hx; by destruct (Hall x Hx)].
  intros Hg. by destruct (Hall _ Hg).
Qed.

End RelativeNames.

(** ** Staging *)

Section Staging.
Context {E : Env}.

Lemma dict_del_keys {V} (x k : string) (d : Py.dict V) :
  x ∈ (Py.dict_del k d).*1 → x ∈ d.*1.
Proof.
  induction d as [|[k0 v0] d IH]; simpl; [done|].
  destruct (String.eqb k k0); simpl.
  - intros ?. by apply list_elem_of_further.
  - intros [->|Hx]%elem_of_cons; [apply list_elem_of_here|].
    by apply list_elem_of_further, IH.
Qed.

(** The paths that [add_directory] stages have no [.gitforge] component. *)
Lemma add_directory_keys (dirname : string) (index index' : Index) (st st' : State) :
  repository.add_directory dirname index st = (Ok index', st') →
  ∀ p, p ∈ index'.*1 → p ∈ index.*1 ∨ repository.is_ignored p = false.
Proof.
  unfold repository.add_directory.
  intros (names & s0 & _ & Hrun)%bind_ok_cases.
  refine (fold_m_inv
    (λ acc _, ∀ p, p ∈ acc.*1 → p ∈ index.*1 ∨ repository.is_ignored p = false)
    _ names index index' s0 st' _ _ Hrun); [|by left].
  clear. intros b a s b' s' _ Hb.
  intros (path & s1 & Hrel & Hrest)%bind_ok_cases.
  apply bind_ok_cases in Hrest as (f & s2 & _ & Hrest).
  destruct (repository.is_ignored path) eqn:Hign; cbn [orb] in Hrest.
  { by injection Hrest as <- _. }
  destruct (negb f); [by injection Hrest as <- _|].
  unfold repository.add_file in Hrest.
  apply bind_ok_cases in Hrest as (filename & s3 & Hfn & Hrest).
  apply bind_ok_cases in Hrest as (data & s4 & _ & Hrest).
  apply bind_ok_cases in Hrest as (oid & s5 & _ & [= <- _]).
  assert (repository.is_ignored filename = false) as Hfile.
  { unfold relpath, Path.relpath in Hfn. destruct path; [done|].
    injection Hfn as <- _. by apply rel_not_ignored. }
  intros p [->|Hp]%dict_set_keys_subset; [by right | by apply Hb].
Qed.

(** X18. [add] of a name that is not a regular file stages no path with a
    [.gitforge] component: a directory is walked and the files of the store
    are skipped, and a missing name only removes an entry.  The name is not
    the name of the index file or of the file of the rebase state (which
    are regular files when they are there). *)
Theorem X18_add_of_a_directory_skips_the_store (name : string) (st st' : State) :
  doc_key (Path.abspath cwd name) = false →
  isfile name st = (Ok false, st) →
  repository.add [name] st = (Ok tt, st') →
  ∀ p, p ∈ (default [] (index_doc st')).*1 →
       p ∈ (default [] (index_doc st)).*1 ∨ repository.is_ignored p = false.
Proof.
  intros _ Hfile. unfold repository.add. rewrite get_index_run.
  set (index := default [] (index_doc st)).
  match goal with |- context [match ?m with _ => _ end] =>
    destruct m as [[[[] index']|e] st1] eqn:Hbody; [|done] end.
  intros [= <-]. cbn [index_doc default from_option id snd].
  apply bind_ok_cases in Hbody as (idx & s1 & Hfold & [= <- _]).
  cbn [fold_m] in Hfold.
  apply bind_ok_cases in Hfold as (idx1 & s2 & Hstep & [= <- _]).
  rewrite bind_unfold, Hfile in Hstep. cbv beta iota in Hstep.
  apply bind_ok_cases in Hstep as (d & s3 & _ & Hstep). destruct d.
  - by eapply add_directory_keys.
  - apply bind_ok_cases in Hstep as (rel & s4 & _ & Hstep).
    destruct (Py.dict_mem rel index); injection Hstep as <- _; [|by left].
    intros p Hp. left. by eapply dict_del_keys.
Qed.

End Staging.

(** ** Reading trees *)

Section ReadingTrees.
Context {E : Env}.

Lemma append_assoc (a b c : string) : (a +:+ b) +:+ c = a +:+ (b +:+ c).
Proof.
  induction a as [|x a IH]; [done|].
  change (String x ((a +:+ b) +:+ c) = String x (a +:+ b +:+ c)). by rewrite IH.
Qed.

Lemma has_char_elem (c : ascii) (s : string) :
  bool_decide (c ∈ String.list_ascii_of_string s) = has_char c s.
Proof.
  induction s as [|a s IH]; cbn [has_char String.list_ascii_of_string].
  - apply bool_decide_eq_false, not_elem_of_nil.
  - rewrite <- IH. destruct (Ascii.eqb a c) eqn:Ha; cbn [orb].
    + apply Ascii.eqb_eq in Ha as ->. apply bool_decide_eq_true, list_elem_of_here.
    + apply bool_decide_ext. rewrite elem_of_cons. split; [|by right].
      intros [->|?]; [|done]. by rewrite Ascii.eqb_refl in Ha.
Qed.

Lemma assert_ok (b : bool) (msg : string) (st st' : State) (u : unit) :
  assert b msg st = (Ok u, st') → b = true ∧ st' = st.
Proof. destruct b; [by intros [= _ <-] | done]. Qed.

Lemma dict_update_keys {V} (x : string) (d d2 : Py.dict V) :
  x ∈ (Py.dict_update d d2).*1 → x ∈ d.*1 ∨ x ∈ d2.*1.
Proof.
  unfold Py.dict_update. revert d. induction d2 as [|[k v] d2 IH]; intros d; simpl.
  - by left.
  - intros [[->|Hx]%dict_set_keys_subset|Hx]%IH.
    + right. apply list_elem_of_here.
    + by left.
    + right. by apply list_elem_of_further.
Qed.

(** The paths of a tree that was read are made of the names of its
    entries, none of which has a slash or is a dot or two dots. *)
Lemma get_tree_go_names (d : nat) (oid : option string) (base : string)
    (st st' : State) (t : flat_tree) :
  repository.get_tree_go d oid base st = (Ok t, st') →
  ∀ p, p ∈ t.*1 →
    ∃ names, names ≠ [] ∧ p = base +:+ Py.join "/" names
             ∧ ∀ n, n ∈ names → has_char "/" n = false ∧ n ≠ "." ∧ n ≠ "..".
Proof.
  revert oid base st st' t. induction d as [|d IH]; intros oid base st st' t; [done|].
  cbn [repository.get_tree_go]. destruct (negb (Py.truthy_opt oid)).
  { intros [= <- _] p Hp. by apply elem_of_nil in Hp. }
  intros (tree & s0 & _ & Hrun)%bind_ok_cases.
  refine (fold_m_inv
    (λ acc _, ∀ p, p ∈ acc.*1 →
       ∃ names, names ≠ [] ∧ p = base +:+ Py.join "/" names
                ∧ ∀ n, n ∈ names → has_char "/" n = false ∧ n ≠ "." ∧ n ≠ "..")
    _ (Py.splitlines tree) [] t s0 st' _ _ Hrun);
    [|by intros p ?%elem_of_nil].
  clear Hrun. intros b a s b' s' _ Hb.
  destruct (Py.splitn 2 " " a) as [|type_ [|o [|name [|? ?]]]]; try done.
  intros ([] & s1 & [Hslash ->]%assert_ok & Hrest)%bind_ok_cases.
  apply bind_ok_cases in Hrest as ([] & s1 & [Hdots ->]%assert_ok & Hrest).
  rewrite has_char_elem in Hslash. apply negb_true_iff in Hslash.
  apply negb_true_iff, orb_false_iff in Hdots as [Hd2 Hd1].
  apply String.eqb_neq in Hd1, Hd2.
  destruct (String.eqb type_ "blob").
  - injection Hrest as <- _. intros p [->|Hp]%dict_set_keys_subset; [|by apply Hb].
    exists [name]. split; [done|]. split; [done|].
    by intros n ->%list_elem_of_singleton.
  - destruct (String.eqb type_ "tree"); [|done].
    apply bind_ok_cases in Hrest as (sub & s1 & Hsub & [= <- _]).
    intros p [Hp|Hp]%dict_update_keys; [by apply Hb|].
    destruct (IH _ _ _ _ _ Hsub p Hp) as (names & Hne & -> & Hnames).
    exists (name :: names). split; [done|]. split.
    + destruct names as [|y names]; [done|].
      change (Py.join "/" (name :: y :: names))
        with (name +:+ "/" +:+ Py.join "/" (y :: names)).
      by rewrite !append_assoc.
    + intros n [->|Hn]%elem_of_cons; [done | by apply Hnames].
Qed.

(** X21. No path of a tree that [get_tree] returns has a component [.] or
    [..]: the names of the entries are checked on the way, so that no path
    of a tree climbs out of the directory it is written to. *)
Theorem X21_get_tree_paths_do_not_climb (oid : option string) (st st' : State)
    (t : flat_tree) :
  repository.get_tree oid st = (Ok t, st') →
  ∀ p, p ∈ t.*1 → ("." ∉ Py.split "/" p) ∧ (".." ∉ Py.split "/" p).
Proof.
  intros Hrun p Hp.
  destruct (get_tree_go_names _ _ _ _ _ _ Hrun p Hp) as (names & Hne & -> & Hnames).
  change ("" +:+ Py.join "/" names) with (Py.join "/" names).
  rewrite split_join; [|done|intros n Hn; by apply Hnames].
  split; intros Hn; by destruct (Hnames _ Hn) as (_ & ? & ?).
Qed.

End ReadingTrees.

(** ** Names of commits and branches *)

Section Names.
Context {E : Env}.

Lemma get_ref_missing (ref : string) (deref : bool) (st : State) :
  0 < recursion_limit →
  isfile (objects.GIT_DIR +:+ "/" +:+ ref) st = (Ok false, st) →
  objects.get_ref ref deref st = (Ok (mkRefValue false None), st).
Proof.
  intros Hd Hf%isfile_ref_text. rewrite get_ref_go.
  destruct recursion_limit as [|d]; [lia|]. by rewrite go_step, Hf.
Qed.

(** X22. A name that is no ref under any of the four places where
    [get_oid] looks is taken for an oid when it is made of 40 hexadecimal
    digits, and is refused with the [AssertionError] of an unknown name
    otherwise; nothing is changed either way.  None of the four places is
    the index file or the file of the rebase state. *)
Theorem X22_get_oid_of_no_ref (name : string) (st : State) :
  0 < recursion_limit →
  name ≠ "@" →
  (∀ ref, ref ∈ [name; "refs/" +:+ name; "refs/tags/" +:+ name; "refs/heads/" +:+ name] →
          doc_key (ref_key ref) = false
          ∧ isfile (objects.GIT_DIR +:+ "/" +:+ ref) st = (Ok false, st)) →
  repository.get_oid name st =
    if (String.length name =? 40) && Py.all_chars Py.is_hexdigit name
    then (Ok (Some name), st)
    else (Raise (AssertionError ("Unknown name " +:+ name)), st).
Proof.
  intros Hd Hat Hrefs. unfold repository.get_oid.
  destruct (String.eqb name "@") eqn:Heq; [by apply String.eqb_eq in Heq|].
  do 4 (rewrite bind_unfold, get_ref_missing;
        [|done|refine (proj2 (Hrefs _ _));
                repeat first [apply list_elem_of_here | apply list_elem_of_further]];
        cbn [value Py.truthy_opt]).
  by destruct ((String.length name =? 40) && Py.all_chars Py.is_hexdigit name).
Qed.

(** X23. A commit is its own ancestor, whether the store has it or not:
    the walk yields the oid before it reads the commit. *)
Theorem X23_is_ancestor_of_itself (c : string) (st : State) :
  0 < while_budget →
  Py.truthy c = true →
  repository.is_ancestor_of c (Some c) st = (Ok true, st).
Proof.
  intros Hb Hc. unfold repository.is_ancestor_of.
  destruct while_budget as [|fuel]; [lia|].
  cbn [repository.generator_contains]. rewrite bind_unfold.
  unfold repository.iter_next, repository.iter_commits_and_parents.
  cbn [repository.it_pending repository.it_oids repository.it_visited].
  rewrite bind_unfold. unfold mret at 1, M_ret at 1. cbv beta iota.
  cbn [repository.pop_next]. rewrite Hc. cbn [negb orb].
  rewrite bool_decide_eq_false_2 by set_solver.
  unfold mret at 1, M_ret at 1. cbv beta iota.
  by rewrite bool_decide_eq_true_2.
Qed.


End Names.

(** ** Operations in progress *)

Section InProgress.
Context {E : Env}.






(** X28. [checkout] refuses to run while the index has a conflict entry:
    it ends in [ConflictException], with the conflicted paths, before it
    resolves the name, and changes nothing, not even the index file. *)
Theorem X28_checkout_refused_on_conflicts (name : string) (st : State) :
  let index := default [] (index_doc st) in
  objects.has_conflicts index = true →
  ∃ msg, repository.checkout name st
         = (Raise (ConflictException msg (objects.get_conflicted_files index)), st).
Proof.
  intros index Hc. unfold repository.checkout.
  rewrite bind_unfold, get_index_run. fold index. rewrite Hc. by eexists.
Qed.

End InProgress.

(** ** The files of the working tree *)

Section WorkingFiles.
Context {E : Env}.

Lemma wf_fs_key (st : State) (key : list string) :
  wf_fs st = true → is_Some (files st !! key) → forallb normal_comp key = true.
Proof.
  unfold wf_fs. intros Hwf [data Hk]. rewrite forallb_forall in Hwf.
  apply (Hwf (key, data)). by apply list_elem_of_In, elem_of_map_to_list.
Qed.

Lemma normal_comp_spec (c : string) :
  normal_comp c = true → c ≠ "" ∧ c ≠ "." ∧ c ≠ ".." ∧ has_char "/" c = false.
Proof.
  unfold normal_comp. rewrite !andb_true_iff, !negb_true_iff, !String.eqb_neq. tauto.
Qed.

Lemma forallb_normal_no_slash (l : list string) :
  forallb normal_comp l = true → ∀ x, x ∈ l → has_char "/" x = false.
Proof.
  rewrite forallb_forall. intros Hl x Hx%list_elem_of_In.
  by destruct (normal_comp_spec _ (Hl x Hx)) as (_ & _ & _ & ?).
Qed.

Lemma norm_go_normal (comps stack : list string) :
  forallb normal_comp comps = true →
  Path.norm_go stack comps = (rev stack ++ comps)%list.
Proof.
  revert stack. induction comps as [|c cs IH]; intros stack; simpl.
  - by rewrite app_nil_r.
  - intros [Hc Hcs]%andb_true_iff.
    destruct (normal_comp_spec _ Hc) as (H1 & H2 & H3 & _).
    apply String.eqb_neq in H1, H2, H3. rewrite H1, H2, H3. simpl.
    rewrite (IH _ Hcs). simpl. by rewrite <- app_assoc.
Qed.

Lemma abspath_dot : Path.abspath cwd "." = cwd.
Proof.
  unfold Path.abspath. change (Py.startswith "." "/") with false.
  change (Py.split "/" ".") with ["."]. cbn. apply rev_involutive.
Qed.

Lemma startswith_slash (a : ascii) (s : string) :
  Ascii.eqb a "/" = false → Py.startswith (String a s) "/" = false.
Proof.
  intros Ha. unfold Py.startswith. cbn [String.prefix].
  destruct (ascii_dec "/" a) as [<-|]; [|done].
  by rewrite Ascii.eqb_refl in Ha.
Qed.

Lemma join_head (c : string) (l : list string) (a : ascii) (c' : string) :
  c = String a c' → ∃ s, Py.join "/" (c :: l) = String a s.
Proof. intros ->. destruct l; cbn; eauto. Qed.

Lemma abspath_join (rest : list string) :
  rest ≠ [] → forallb normal_comp rest = true →
  Path.abspath cwd (Py.join "/" rest) = (cwd ++ rest)%list.
Proof.
  intros Hne Hn. destruct rest as [|c rest]; [done|].
  pose proof Hn as [Hc _]%andb_true_iff.
  destruct (normal_comp_spec _ Hc) as (Hc1 & _ & _ & Hc4).
  destruct c as [|a c']; [done|]. simpl in Hc4. apply orb_false_iff in Hc4 as [Ha _].
  destruct (join_head (String a c') rest a c' eq_refl) as [s Hs].
  unfold Path.abspath. rewrite Hs, (startswith_slash _ _ Ha), <- Hs.
  rewrite split_join by (done || by apply forallb_normal_no_slash).
  by rewrite norm_go_normal, rev_involutive.
Qed.

Lemma abspath_abs_name (k : list string) :
  k ≠ [] → forallb normal_comp k = true → Path.abspath cwd (Path.abs_name k) = k.
Proof.
  intros Hne Hn. unfold Path.abspath, Path.abs_name.
  change ("/" +:+ Py.join "/" k) with (String "/" (Py.join "/" k)).
  assert (Py.startswith (String "/" (Py.join "/" k)) "/" = true) as ->.
  { unfold Py.startswith. cbn [String.prefix]. destruct (ascii_dec "/" "/") as [_|Hslash]; [|by destruct Hslash].
    by destruct (Py.join "/" k). }
  cbn [Py.split]. change (Ascii.eqb "/" "/") with true. cbn.
  rewrite split_join by (done || by apply forallb_normal_no_slash).
  by rewrite norm_go_normal.
Qed.

Lemma strip_common_app (l rest : list string) :
  Path.strip_common l (l ++ rest) = ([], rest).
Proof.
  induction l as [|x l IH]; simpl; [by destruct rest|]. by rewrite String.eqb_refl.
Qed.

Lemma rel_of_below (rest : list string) :
  rest ≠ [] → Path.rel_of cwd (cwd ++ rest) = Py.join "/" rest.
Proof.
  intros Hne. unfold Path.rel_of. rewrite strip_common_app. simpl.
  by destruct rest.
Qed.

Lemma is_strict_prefix_app (l rest : list string) :
  rest ≠ [] → Path.is_strict_prefix l (l ++ rest) = true.
Proof.
  intros Hne. unfold Path.is_strict_prefix.
  assert (Path.is_prefix l (l ++ rest) = true) as ->.
  { induction l as [|x l IH]; simpl; [done|]. by rewrite String.eqb_refl. }
  rewrite length_app. apply negb_true_iff, Nat.eqb_neq.
  destruct rest; [done|]. simpl. lia.
Qed.

Lemma for_each_reached {A} (Q : State → Prop) (l : list A) (body : A → M unit) (x : A)
    (st st' : State) :
  x ∈ l →
  (∀ s r s', body x s = (r, s') → Q s') →
  (∀ y s r s', Q s → body y s = (r, s') → Q s') →
  for_each l body st = (Ok tt, st') → Q st'.
Proof.
  intros Hx Hhit Hkeep. revert st. induction l as [|y l IH]; intros st.
  { by apply elem_of_nil in Hx. }
  simpl. intros (u & s1 & Hb & Hrest)%bind_ok_cases.
  apply elem_of_cons in Hx as [->|Hx].
  - eapply (for_each_inv Q); [|by eapply Hhit|exact Hrest].
    intros z s r s' _ Hs Hz. by eapply Hkeep.
  - by eapply IH.
Qed.

(** A round of [_empty_current_directory]: nothing happens, or the file
    is removed. *)
Lemma empty_round (name : string) (s s' : State) (r : Res unit) :
  (path ← relpath name;
   f ← isfile path;
   if repository.is_ignored path || negb f then mret tt else remove path) s = (r, s') →
  (s' = s ∧ ∀ path, Path.relpath cwd name = Some path →
                    repository.is_ignored path = false →
                    files s !! Path.abspath cwd path = None)
  ∨ ∃ path, Path.relpath cwd name = Some path
            ∧ s' = set_files (delete (Path.abspath cwd path) (files s)) (wlog s) s.
Proof.
  rewrite bind_unfold. unfold relpath.
  destruct (Path.relpath cwd name) as [path|] eqn:Hrel.
  - unfold mret at 1, M_ret at 1. cbv beta iota. rewrite bind_unfold.
    unfold isfile at 1. cbv beta iota.
    destruct (repository.is_ignored path) eqn:Hign; cbn [orb].
    { intros [= _ <-]. left. split; [done|]. intros ? [= <-]. congruence. }
    case_bool_decide as Hf; cbn [negb].
    + destruct Hf as [data Hf]. unfold remove. rewrite Hf. intros [= _ <-].
      right. by exists path.
    + intros [= _ <-]. left. split; [done|]. intros ? [= <-] _.
      destruct (files s !! _) eqn:Hk; [|done]. destruct Hf. by eauto.
  - intros [= _ <-]. left. split; [done|]. by intros.
Qed.

Lemma empty_dir_clears (st : State) :
  wf_fs st = true →
  ∃ st', repository._empty_current_directory st = (Ok tt, st')
         ∧ ∀ key, in_worktree key → files st' !! key = None.
Proof.
  intros Hwf. destruct (empty_dir_keeps st) as (st' & Hrun & _ & Hsub & _).
  exists st'. split; [done|]. intros key (rest & -> & Hne & Hg).
  destruct (files st !! (cwd ++ rest)%list) as [data|] eqn:Hk.
  2:{ destruct (files st' !! (cwd ++ rest)%list) as [d|] eqn:H'; [|done].
      apply Hsub in H'. congruence. }
  assert (Hnorm : forallb normal_comp (cwd ++ rest) = true).
  { eapply wf_fs_key; [done|]. by eauto. }
  assert (Hcons : (cwd ++ rest)%list ≠ []) by (by destruct cwd, rest).
  pose proof Hnorm as Hrest. rewrite forallb_app in Hrest.
  apply andb_true_iff in Hrest as [_ Hrest].
  assert (Hrel : Path.relpath cwd (Path.abs_name (cwd ++ rest)) = Some (Py.join "/" rest)).
  { change (Path.relpath cwd (Path.abs_name (cwd ++ rest)))
      with (Some (Path.rel_of cwd (Path.abspath cwd (Path.abs_name (cwd ++ rest))))).
    by rewrite abspath_abs_name, rel_of_below. }
  assert (Hign : repository.is_ignored (Py.join "/" rest) = false).
  { unfold repository.is_ignored. apply bool_decide_eq_false.
    by rewrite split_join by (done || by apply forallb_normal_no_slash). }
  unfold repository._empty_current_directory in Hrun.
  rewrite bind_unfold in Hrun. unfold walk at 1 in Hrun. cbv beta iota in Hrun.
  rewrite abspath_dot in Hrun.
  refine (for_each_reached (λ s, files s !! (cwd ++ rest)%list = None) _ _
            (Path.abs_name (cwd ++ rest)) st st' _ _ _ Hrun).
  - apply list_elem_of_fmap. exists (cwd ++ rest)%list. split; [done|].
    apply list_elem_of_filter. split.
    + by rewrite is_strict_prefix_app.
    + apply list_elem_of_fmap. exists (cwd ++ rest, data)%list. split; [done|].
      by apply elem_of_map_to_list.
  - intros s r s' [[-> Hnone] | (path & Hp & ->)]%empty_round.
    + rewrite <- (abspath_join rest) by done. by apply Hnone.
    + rewrite Hrel in Hp. injection Hp as <-. cbn [files set_files].
      rewrite abspath_join by done. apply lookup_delete_eq.
  - intros y s r s' Hs [[-> _] | (path & _ & ->)]%empty_round; [done|].
    cbn [files set_files]. apply lookup_delete_None. by right.
Qed.

(** X20. In a state whose file names are normal, [_empty_current_directory]
    leaves no file of the working tree: afterwards there is no file below
    the working directory outside of [.gitforge]. *)
Theorem X20_empty_current_directory_clears_the_working_tree (st : State) :
  wf_fs st = true →
  ∃ st', repository._empty_current_directory st = (Ok tt, st')
         ∧ ∀ key, in_worktree key → files st' !! key = None.
Proof. apply empty_dir_clears. Qed.

End WorkingFiles.

(** ** Checking the index out *)

Section Checkout.
Context {E : Env}.

Lemma join_split (s : string) : Py.join "/" (Py.split "/" s) = s.
Proof.
  induction s as [|a s IH]; [done|]. cbn [Py.split].
  destruct (split_nonempty "/" s) as (w & ws & Hs). rewrite Hs in IH |- *.
  destruct (Ascii.eqb a "/") eqn:Ha.
  - apply Ascii.eqb_eq in Ha as ->.
    change (Py.join "/" ("" :: w :: ws)) with (String "/" (Py.join "/" (w :: ws))).
    by rewrite IH.
  - rewrite <- IH. by destruct ws.
Qed.

(** The file of a plain path. *)
Lemma plain_key (p : string) :
  plain_path p = true →
  Path.abspath cwd p = (cwd ++ Py.split "/" p)%list ∧ (".gitforge" ∉ Py.split "/" p).
Proof.
  unfold plain_path. intros Hp.
  assert (Hn : forallb normal_comp (Py.split "/" p) = true).
  { rewrite forallb_forall in Hp |- *. intros x Hx.
    by apply Hp, andb_true_iff in Hx as [? _]. }
  split.
  - rewrite <- (join_split p) at 1. apply abspath_join; [|done].
    by destruct (split_nonempty "/" p) as (w & ws & ->).
  - intros Hg%list_elem_of_In. rewrite forallb_forall in Hp.
    by apply Hp, andb_true_iff in Hg as [_ ?].
Qed.

Lemma plain_key_inj (p q : string) :
  plain_path p = true → plain_path q = true →
  Path.abspath cwd p = Path.abspath cwd q → p = q.
Proof.
  intros [Hp _]%plain_key [Hq _]%plain_key. rewrite Hp, Hq.
  intros Heq%app_inv_head. by rewrite <- (join_split p), <- (join_split q), Heq.
Qed.

Lemma plain_key_not_store (p : string) (rest : list string) :
  plain_path p = true → Path.abspath cwd p ≠ (cwd ++ ".gitforge" :: rest)%list.
Proof.
  intros [Hp Hg]%plain_key. rewrite Hp. intros Heq%app_inv_head.
  apply Hg. rewrite Heq. apply list_elem_of_here.
Qed.

Lemma plain_key_in_worktree (p : string) :
  plain_path p = true → in_worktree (Path.abspath cwd p).
Proof.
  intros [Hp Hg]%plain_key. exists (Py.split "/" p). split; [done|]. split; [|done].
  by destruct (split_nonempty "/" p) as (w & ws & ->).
Qed.

(** Hexadecimal digits make normal path components. *)
Lemma hex_no_char (c : ascii) (s : string) :
  Py.is_hexdigit c = false → Py.all_chars Py.is_hexdigit s = true → has_char c s = false.
Proof.
  intros Hc. induction s as [|a s IH]; simpl; [done|].
  intros [Ha Hs]%andb_true_iff. rewrite (IH Hs), orb_false_r.
  destruct (Ascii.eqb a c) eqn:Hac; [|done].
  apply Ascii.eqb_eq in Hac. congruence.
Qed.

Lemma hex_normal (s : string) :
  Py.all_chars Py.is_hexdigit s = true → s ≠ "" → normal_comp s = true.
Proof.
  intros Hs Hne. unfold normal_comp.
  rewrite (hex_no_char "/" s) by done.
  pose proof (hex_no_char "." s eq_refl Hs) as Hdot.
  destruct s as [|a s]; [done|]. simpl in Hdot.
  apply orb_false_iff in Hdot as [Ha _]. simpl. by rewrite Ha.
Qed.

Lemma object_key_ok (oid : string) :
  oid_ok oid = true →
  Path.abspath cwd (objects.object_path oid)
  = (cwd ++ [".gitforge"; "objects"; Py.take 2 oid; Py.drop 2 oid])%list.
Proof.
  unfold oid_ok. intros [Hlen Hhex]%andb_true_iff.
  destruct oid as [|a [|b [|c o]]]; try done.
  simpl in Hhex. apply andb_true_iff in Hhex as [Ha Hhex].
  apply andb_true_iff in Hhex as [Hb Hhex].
  assert (H2 : normal_comp (String a (String b "")) = true).
  { apply hex_normal; [|done]. simpl. by rewrite Ha, Hb. }
  assert (H38 : normal_comp (String c o) = true) by (by apply hex_normal).
  unfold Path.abspath.
  change (objects.object_path (String a (String b (String c o))))
    with ("." +:+ String "/" (".gitforge" +:+ String "/" ("objects" +:+ String "/"
            (String a (String b "") +:+ String "/" (String c o))))).
  change (Py.startswith _ "/") with false. cbv iota.
  rewrite !split_app_sep.
  destruct (normal_comp_spec _ H2) as (_ & _ & _ & S2).
  destruct (normal_comp_spec _ H38) as (_ & _ & _ & S38).
  rewrite (split_no_sep _ _ S2), (split_no_sep _ _ S38).
  change (Py.split "/" ".") with ["."]. change (Py.split "/" ".gitforge") with [".gitforge"].
  change (Py.split "/" "objects") with ["objects"].
  change (["."] ++ [".gitforge"] ++ ["objects"] ++ [String a (String b "")] ++ [String c o])%list
    with ("." :: [".gitforge"; "objects"; String a (String b ""); String c o]).
  change (Path.norm_go (rev cwd)
            ("." :: [".gitforge"; "objects"; String a (String b ""); String c o]))
    with (Path.norm_go (rev cwd)
            [".gitforge"; "objects"; String a (String b ""); String c o]).
  rewrite norm_go_normal.
  - by rewrite rev_involutive.
  - cbn [forallb]. rewrite H2, H38. reflexivity.
Qed.

(** [get_object] depends on the file of the object only. *)
Lemma get_object_dep (oid : string) (expected : option string) (s1 s2 : State) :
  files s1 !! Path.abspath cwd (objects.object_path oid)
  = files s2 !! Path.abspath cwd (objects.object_path oid) →
  (objects.get_object oid expected s1).1 = (objects.get_object oid expected s2).1.
Proof.
  intros Heq. unfold objects.get_object. rewrite !bind_unfold. unfold read_file.
  rewrite Heq. destruct (files s2 !! _) as [raw|]; [|done].
  destruct (zlib_decompress raw) as [obj|]; [|done].
  destruct (Py.partition objects.NUL obj) as [[ty ?] content].
  destruct expected as [e|]; [|done]. rewrite !bind_unfold.
  by destruct (String.eqb ty e).
Qed.

(** The loop of [_checkout_index], from a state whose store is the one of
    [st]: the file of every entry gets the blob of the entry, as it is in
    [st], and no other file is touched. *)
Lemma checkout_loop (st : State) (entries : Index) :
  dict_ok entries →
  (∀ p e, (p, e) ∈ entries →
     plain_path p = true ∧ ∀ o, entry_oid e = Some o → oid_ok o = true) →
  (∀ p e o, (p, e) ∈ entries → entry_oid e = Some o →
     ∃ data, objects.get_object o (Some "blob") st = (Ok data, st)) →
  ∀ s,
    (∀ rest, files s !! (cwd ++ ".gitforge" :: rest)%list
             = files st !! (cwd ++ ".gitforge" :: rest)%list) →
    ∃ s',
      for_each entries
        (λ pe, match entry_oid pe.2 with
               | None => mret tt
               | Some oid =>
                   open_w pe.1;;
                   data ← objects.get_object oid (Some "blob");
                   f_write pe.1 data
               end) s = (Ok tt, s')
      ∧ (∀ p e o data, (p, e) ∈ entries → entry_oid e = Some o →
           objects.get_object o (Some "blob") st = (Ok data, st) →
           files s' !! Path.abspath cwd p = Some data)
      ∧ (∀ key, files s' !! key = files s !! key
                ∨ ∃ p e o, (p, e) ∈ entries ∧ entry_oid e = Some o
                           ∧ Path.abspath cwd p = key)
      ∧ index_doc s' = index_doc s ∧ rebase_doc s' = rebase_doc s.
Proof.
  unfold dict_ok. induction entries as [|[p e] entries IH]; intros Hok Hplain Hblobs s Hstore.
  { exists s. split; [done|]. split; [|split; [|done]].
    - by intros p e o data ?%elem_of_nil.
    - intros key. by left. }
  simpl in Hok. apply NoDup_cons in Hok as [Hp Hok].
  destruct (Hplain p e (list_elem_of_here _ _)) as [Hpp Hoid].
  assert (Hplain' : ∀ p' e', (p', e') ∈ entries →
            plain_path p' = true ∧ ∀ o, entry_oid e' = Some o → oid_ok o = true).
  { intros p' e' Hin. by apply Hplain, list_elem_of_further. }
  assert (Hblobs' : ∀ p' e' o, (p', e') ∈ entries → entry_oid e' = Some o →
            ∃ data, objects.get_object o (Some "blob") st = (Ok data, st)).
  { intros p' e' o Hin. apply (Hblobs p' e' o). by apply list_elem_of_further. }
  assert (Hfresh : ∀ p' e', (p', e') ∈ entries → Path.abspath cwd p' ≠ Path.abspath cwd p).
  { intros p' e' Hin Heq. apply Hp.
    apply plain_key_inj in Heq as ->; [|by apply (Hplain' p' e')|done].
    apply list_elem_of_fmap. by exists (p, e'). }
  cbn [for_each]. rewrite bind_unfold. cbn [fst snd].
  destruct (entry_oid e) as [o|] eqn:Ho.
  - destruct (Hblobs p e o (list_elem_of_here _ _) Ho) as [data Hdata].
    set (key := Path.abspath cwd p).
    set (s_open := set_files (<[key := ""]> (files s)) (key :: wlog s) s).
    assert (Hread : objects.get_object o (Some "blob") s_open = (Ok data, s_open)).
    { apply readonly_eq; [apply get_object_ro|].
      transitivity (objects.get_object o (Some "blob") st).1; [|by rewrite Hdata].
      apply get_object_dep.
      rewrite (object_key_ok o) by (by apply Hoid). unfold s_open. cbn [files set_files].
      rewrite lookup_insert_ne by (by apply plain_key_not_store). apply Hstore. }
    rewrite bind_unfold. unfold open_w at 1. cbv beta iota zeta. fold key. fold s_open.
    rewrite bind_unfold, Hread. unfold f_write at 1. cbv beta iota zeta. fold key.
    match goal with |- context [for_each _ _ ?s1] =>
      destruct (IH Hok Hplain' Hblobs' s1) as (s' & Hrun & Ha & Hb & Hi & Hr) end.
    { intros rest. unfold s_open. cbn [files set_files].
      rewrite !lookup_insert_ne by (by apply plain_key_not_store). apply Hstore. }
    exists s'. split; [exact Hrun|].
    unfold s_open in Hb, Hi, Hr. cbn [files set_files index_doc rebase_doc] in Hb, Hi, Hr.
    split; [|split; [|done]].
    + intros p' e' o' data' [[= -> ->]|Hin]%elem_of_cons Ho' Hdata'.
      * rewrite Ho in Ho'. injection Ho' as <-.
        rewrite Hdata in Hdata'. injection Hdata' as <-. fold key.
        destruct (Hb key) as [->|(q & eq & oq & Hq & _ & Heq)].
        -- apply lookup_insert_eq.
        -- by destruct (Hfresh q eq Hq).
      * by apply (Ha p' e' o').
    + intros k. destruct (decide (k = key)) as [->|Hne].
      * right. exists p, e, o. split; [apply list_elem_of_here|done].
      * destruct (Hb k) as [->|(q & eq & oq & Hq & Hoq & Heq)].
        -- left. by rewrite !lookup_insert_ne.
        -- right. exists q, eq, oq. split; [by apply list_elem_of_further|done].
  - unfold mret at 1, M_ret at 1. cbv beta iota.
    destruct (IH Hok Hplain' Hblobs' s Hstore) as (s' & Hrun & Ha & Hb & Hi & Hr).
    exists s'. split; [exact Hrun|]. split; [|split; [|done]].
    + intros p' e' o' data' [[= -> ->]|Hin]%elem_of_cons Ho' Hdata'; [congruence|].
      by apply (Ha p' e' o').
    + intros key. destruct (Hb key) as [->|(q & eq & oq & Hq & Hoq & Heq)]; [by left|].
      right. exists q, eq, oq. split; [by apply list_elem_of_further|done].
Qed.

Lemma checkout_index_spec (index : Index) (st : State) :
  wf_fs st = true →
  dict_ok index →
  (∀ p e, (p, e) ∈ index →
     plain_path p = true ∧ ∀ o, entry_oid e = Some o → oid_ok o = true) →
  (∀ p e o, (p, e) ∈ index → entry_oid e = Some o →
     ∃ data, objects.get_object o (Some "blob") st = (Ok data, st)) →
  ∃ st',
    repository._checkout_index index st = (Ok tt, st')
    ∧ (∀ p e o data, (p, e) ∈ index → entry_oid e = Some o →
         objects.get_object o (Some "blob") st = (Ok data, st) →
         files st' !! Path.abspath cwd p = Some data)
    ∧ (∀ key, in_worktree key → is_Some (files st' !! key) →
         ∃ p e o, (p, e) ∈ index ∧ entry_oid e = Some o ∧ Path.abspath cwd p = key)
    ∧ (∀ rest, files st' !! (cwd ++ ".gitforge" :: rest)%list
               = files st !! (cwd ++ ".gitforge" :: rest)%list)
    ∧ index_doc st' = index_doc st ∧ rebase_doc st' = rebase_doc st.
Proof.
  intros Hwf Hok Hplain Hblobs. unfold repository._checkout_index.
  destruct (empty_dir_keeps st) as (s0 & Hrun & Hstore & _ & Hi0 & Hr0).
  destruct (empty_dir_clears st Hwf) as (s0' & Hrun' & Hclear).
  assert (s0' = s0) as -> by congruence.
  destruct (checkout_loop st index Hok Hplain Hblobs s0 Hstore)
    as (st' & Hloop & Ha & Hb & Hi & Hr).
  exists st'. split.
  { rewrite bind_unfold, Hrun. exact Hloop. }
  split; [done|]. split; [|split; [|split; congruence]].
  - intros key Hkey Hsome. destruct (Hb key) as [Heq|?]; [|done].
    rewrite Heq, (Hclear key Hkey) in Hsome. by destruct Hsome.
  - intros rest. destruct (Hb (cwd ++ ".gitforge" :: rest)%list)
      as [->|(p & e & o & Hin & _ & Heq)]; [apply Hstore|].
    destruct (Hplain p e Hin) as [Hp _]. by apply plain_key_not_store in Heq.
Qed.

(** X29. [_checkout_index] makes the working tree the one of the index:
    it returns, every entry that has an oid gets its file, with the contents
    of the blob; no other file of the working tree is left; the files of the
    store and the index document are as they were.  The state has normal
    file names, the blobs of the entries can be read, the entries have plain
    paths (no empty, [.], [..] or [.gitforge] component) and oids of 40
    hexadecimal digits, and no name of a file clashes with the name of a
    directory. *)
Theorem X29_checkout_index_writes_the_index (index : Index) (st : State) :
  wf_fs st = true →
  dict_ok index →
  checkout_ok st index.*1 = true →
  (∀ p e, (p, e) ∈ index →
     plain_path p = true ∧ ∀ o, entry_oid e = Some o → oid_ok o = true) →
  (∀ p e o, (p, e) ∈ index → entry_oid e = Some o →
     ∃ data, objects.get_object o (Some "blob") st = (Ok data, st)) →
  ∃ st',
    repository._checkout_index index st = (Ok tt, st')
    ∧ (∀ p e o data, (p, e) ∈ index → entry_oid e = Some o →
         objects.get_object o (Some "blob") st = (Ok data, st) →
         files st' !! Path.abspath cwd p = Some data)
    ∧ (∀ key, in_worktree key → is_Some (files st' !! key) →
         ∃ p e o, (p, e) ∈ index ∧ entry_oid e = Some o ∧ Path.abspath cwd p = key)
    ∧ (∀ rest, files st' !! (cwd ++ ".gitforge" :: rest)%list
               = files st !! (cwd ++ ".gitforge" :: rest)%list)
    ∧ index_doc st' = index_doc st.
Proof.
  intros Hwf Hok _ Hplain Hblobs.
  destruct (checkout_index_spec index st Hwf Hok Hplain Hblobs)
    as (st' & Hrun & Ha & Hb & Hs & Hi & _).
  by exists st'.
Qed.

End Checkout.

(** ** The listing of the working tree *)

Section WorkingTreeListing.
Context {E : Env}.

Lemma is_prefix_inv (l k : list string) :
  Path.is_prefix l k = true → ∃ rest, k = (l ++ rest)%list.
Proof.
  revert k. induction l as [|x l IH]; intros k; simpl; [by eauto|].
  destruct k as [|y k]; [done|]. intros [->%String.eqb_eq Hl]%andb_true_iff.
  destruct (IH _ Hl) as [rest ->]. by exists rest.
Qed.

Lemma is_strict_prefix_inv (l k : list string) :
  Path.is_strict_prefix l k = true → ∃ rest, k = (l ++ rest)%list ∧ rest ≠ [].
Proof.
  unfold Path.is_strict_prefix. intros [[rest ->]%is_prefix_inv Hlen]%andb_true_iff.
  exists rest. split; [done|]. intros ->. rewrite app_nil_r, Nat.eqb_refl in Hlen. done.
Qed.

Lemma worktree_key_below (rest : list string) :
  rest ≠ [] → ".gitforge" ∉ rest → worktree_key (cwd ++ rest) = true.
Proof.
  intros Hne Hg. unfold worktree_key. rewrite strip_common_app.
  by rewrite !bool_decide_eq_false_2.
Qed.

Lemma is_ignored_join (rest : list string) :
  rest ≠ [] → forallb normal_comp rest = true →
  repository.is_ignored (Py.join "/" rest) = bool_decide (".gitforge" ∈ rest).
Proof.
  intros Hne Hn. unfold repository.is_ignored.
  by rewrite split_join by (done || by apply forallb_normal_no_slash).
Qed.

Lemma join_inj (r1 r2 : list string) :
  r1 ≠ [] → r2 ≠ [] → forallb normal_comp r1 = true → forallb normal_comp r2 = true →
  Py.join "/" r1 = Py.join "/" r2 → r1 = r2.
Proof.
  intros H1 H2 N1 N2 Heq.
  rewrite <- (split_join r1), <- (split_join r2), Heq;
    done || by apply forallb_normal_no_slash.
Qed.

Lemma normal_below (rest : list string) :
  forallb normal_comp (cwd ++ rest) = true → forallb normal_comp rest = true.
Proof. rewrite forallb_app. by intros [_ ?]%andb_true_iff. Qed.

(** The name that the walk gives for a file below the working directory,
    made relative. *)
Lemma relpath_abs_name (rest : list string) :
  rest ≠ [] → forallb normal_comp (cwd ++ rest) = true →
  relpath (Path.abs_name (cwd ++ rest)) = mret (Py.join "/" rest).
Proof.
  intros Hne Hn. unfold relpath.
  change (Path.relpath cwd (Path.abs_name (cwd ++ rest)))
    with (Some (Path.rel_of cwd (Path.abspath cwd (Path.abs_name (cwd ++ rest))))).
  rewrite abspath_abs_name; [|by destruct cwd, rest|done].
  by rewrite rel_of_below.
Qed.

(** A round of [get_working_tree] on a file of the store directory, and on
    a file of the working tree. *)
Lemma working_tree_round_ignored (result : flat_tree) (rest : list string) (s : State) :
  rest ≠ [] → forallb normal_comp (cwd ++ rest) = true → ".gitforge" ∈ rest →
  (path ← relpath (Path.abs_name (cwd ++ rest));
   f ← isfile path;
   if repository.is_ignored path || negb f then mret result
   else data ← read_file path;
        oid ← objects.hash_object data "blob";
        mret (Py.dict_set path (Some oid) result)) s = (Ok result, s).
Proof.
  intros Hne Hn Hg. rewrite (relpath_abs_name _ Hne Hn), bind_unfold.
  unfold mret at 1, M_ret at 1. cbv beta iota. rewrite bind_unfold.
  unfold isfile at 1. cbv beta iota.
  rewrite (is_ignored_join _ Hne (normal_below _ Hn)), bool_decide_eq_true_2 by done.
  done.
Qed.

Lemma working_tree_round_file (result : flat_tree) (rest : list string) (data : string)
    (s : State) :
  rest ≠ [] → forallb normal_comp (cwd ++ rest) = true → ".gitforge" ∉ rest →
  files s !! (cwd ++ rest)%list = Some data →
  (path ← relpath (Path.abs_name (cwd ++ rest));
   f ← isfile path;
   if repository.is_ignored path || negb f then mret result
   else data ← read_file path;
        oid ← objects.hash_object data "blob";
        mret (Py.dict_set path (Some oid) result)) s
  = let key := Path.abspath cwd (objects.object_path (blob_oid data)) in
    (Ok (Py.dict_set (Py.join "/" rest) (Some (blob_oid data)) result),
     set_files (<[key := zlib_compress ("blob" +:+ String objects.NUL data)]>
                  (<[key := ""]> (files s))) (key :: wlog s) s).
Proof.
  intros Hne Hn Hg Hf. rewrite (relpath_abs_name _ Hne Hn), bind_unfold.
  unfold mret at 1, M_ret at 1. cbv beta iota. rewrite bind_unfold.
  unfold isfile at 1. cbv beta iota.
  rewrite (is_ignored_join _ Hne (normal_below _ Hn)), bool_decide_eq_false_2 by done.
  rewrite (abspath_join _ Hne (normal_below _ Hn)), Hf.
  rewrite bool_decide_eq_true_2 by (by eauto). cbn [orb negb].
  rewrite bind_unfold. unfold read_file.
  rewrite (abspath_join _ Hne (normal_below _ Hn)), Hf.
  rewrite bind_unfold, hash_object_run. reflexivity.
Qed.

Lemma object_key_not_in_worktree (oid : string) :
  oid_ok oid = true → ¬ in_worktree (Path.abspath cwd (objects.object_path oid)).
Proof.
  intros Hoid (rest & Heq & _ & Hg). rewrite (object_key_ok _ Hoid) in Heq.
  apply app_inv_head in Heq as <-. apply Hg, list_elem_of_here.
Qed.

(** The loop of [get_working_tree] over the files [ks] of the walk. *)
Lemma working_tree_loop (st : State) (ks : list (list string)) :
  (∀ k, k ∈ ks →
     ∃ rest data, k = (cwd ++ rest)%list ∧ rest ≠ []
       ∧ forallb normal_comp k = true ∧ files st !! k = Some data
       ∧ (".gitforge" ∉ rest → oid_ok (blob_oid data) = true)) →
  ∃ t s',
    fold_m (λ result name,
              path ← relpath name;
              f ← isfile path;
              if repository.is_ignored path || negb f then mret result
              else data ← read_file path;
                   oid ← objects.hash_object data "blob";
                   mret (Py.dict_set path (Some oid) result))
           (Path.abs_name <$> ks) [] st = (Ok t, s')
    ∧ dict_ok t
    ∧ (∀ p o, Py.dict_get p t = Some o ↔
         ∃ rest data, (cwd ++ rest)%list ∈ ks ∧ rest ≠ [] ∧ (".gitforge" ∉ rest)
           ∧ files st !! (cwd ++ rest)%list = Some data
           ∧ p = Py.join "/" rest ∧ o = Some (blob_oid data))
    ∧ (∀ key, in_worktree key → files s' !! key = files st !! key)
    ∧ (∀ p oid, Py.dict_get p t = Some (Some oid) →
         is_Some (files s' !! Path.abspath cwd (objects.object_path oid))).
Proof.
  induction ks as [|k ks IH] using rev_ind; intros Hks.
  { exists [], st. split; [done|]. split; [apply NoDup_nil_2|].
    split; [|split; [done|done]].
    intros p o. split; [done|]. by intros (rest & data & ?%elem_of_nil & _). }
  destruct IH as (t & s1 & Hrun & Hok & Hchar & Hkeep & Hobj).
  { intros k' Hk'. apply Hks, elem_of_app. by left. }
  destruct (Hks k) as (rest & data & -> & Hne & Hn & Hf & Hoid).
  { apply elem_of_app. right. apply list_elem_of_here. }
  rewrite fmap_app, fold_m_app, bind_unfold, Hrun. cbn [fmap list_fmap fold_m].
  rewrite bind_unfold.
  destruct (decide (".gitforge" ∈ rest)) as [Hg|Hg].
  - rewrite (working_tree_round_ignored _ _ _ Hne Hn Hg).
    exists t, s1. split; [done|]. split; [done|]. split; [|done].
    intros p o. rewrite Hchar. split.
    + intros (r & d & Hin & ?). exists r, d. split; [|done]. apply elem_of_app. by left.
    + intros (r & d & [Hin|Hin%list_elem_of_singleton]%elem_of_app & Hr & Hgr & ?).
      * by exists r, d.
      * apply app_inv_head in Hin as ->. done.
  - assert (Hs1 : files s1 !! (cwd ++ rest)%list = Some data).
    { rewrite Hkeep; [done|]. by exists rest. }
    rewrite (working_tree_round_file _ _ _ _ Hne Hn Hg Hs1). cbv zeta.
    eexists _, _. split; [reflexivity|].
    pose proof (Hoid Hg) as Hoid'.
    split; [by apply dict_set_ok|]. split; [|split].
    + intros p o. destruct (decide (p = Py.join "/" rest)) as [->|Hp].
      * rewrite dict_get_set_eq. split.
        -- intros [= <-]. exists rest, data. split; [|done].
           apply elem_of_app. right. apply list_elem_of_here.
        -- intros (r & d & Hin & Hr & Hgr & Hd & Hj & ->).
           assert (r = rest) as ->.
           { apply join_inj; [done..| |by apply normal_below|done].
             apply elem_of_app in Hin as [Hin|Hin%list_elem_of_singleton].
             - destruct (Hks (cwd ++ r)%list) as (r' & _ & Heq & _ & Hn' & _).
               { apply elem_of_app. by left. }
               by apply normal_below.
             - apply app_inv_head in Hin as ->. by apply normal_below. }
           congruence.
      * rewrite dict_get_set_ne by done. rewrite Hchar. split.
        -- intros (r & d & Hin & ?). exists r, d. split; [|done]. apply elem_of_app. by left.
        -- intros (r & d & [Hin|Hin%list_elem_of_singleton]%elem_of_app
                     & Hr & Hgr & Hd & Hj & Ho).
           ++ by exists r, d.
           ++ apply app_inv_head in Hin as ->. done.
    + intros key Hkey. cbn [files set_files].
      rewrite !lookup_insert_ne; [by apply Hkeep|..];
        intros <-; by apply (object_key_not_in_worktree _ Hoid').
    + intros p oid. cbn [files set_files].
      destruct (decide (p = Py.join "/" rest)) as [->|Hp].
      * rewrite dict_get_set_eq. intros [= <-]. rewrite lookup_insert_eq. by eauto.
      * rewrite dict_get_set_ne by done. intros Hget%Hobj.
        rewrite !lookup_insert_is_Some'. by right; right.
Qed.

(** X15. [get_working_tree] lists the files of the working tree, and
    only them: each file below the working directory and outside of
    [.gitforge], under its name relative to the working directory, with the
    oid of the blob of its contents; each key is there once.  It lists no
    path with a [.gitforge] component, it has stored the blob of every file
    that it lists, and it leaves the files of the working tree as they
    were.  The names of the files are normal, and the blobs can be stored:
    their oids are 40 hexadecimal digits and their files in the store can
    be written. *)
Theorem X15_get_working_tree (st : State) :
  wf_fs st = true →
  blobs_storable st = true →
  ∃ t st', repository.get_working_tree st = (Ok t, st')
    ∧ dict_ok t
    ∧ (∀ p o, (p, o) ∈ t ↔
         ∃ key data, in_worktree key ∧ files st !! key = Some data
                     ∧ p = Path.rel_of cwd key ∧ o = Some (blob_oid data))
    ∧ (∀ p o, (p, o) ∈ t →
         repository.is_ignored p = false
         ∧ ∃ oid, o = Some oid ∧ objects.object_exists oid st' = (Ok true, st'))
    ∧ (∀ key, in_worktree key → files st' !! key = files st !! key).
Proof.
  intros Hwf Hst. unfold repository.get_working_tree. rewrite bind_unfold.
  unfold walk at 1. cbv beta iota. rewrite abspath_dot.
  match goal with |- context [fmap Path.abs_name ?l] => set (ks := l) end.
  assert (Hks : ∀ k, k ∈ ks →
            ∃ rest data, k = (cwd ++ rest)%list ∧ rest ≠ []
              ∧ forallb normal_comp k = true ∧ files st !! k = Some data
              ∧ (".gitforge" ∉ rest → oid_ok (blob_oid data) = true)).
  { intros k [Hpre ([k' data] & -> & Hin%elem_of_map_to_list)%list_elem_of_fmap]%list_elem_of_filter.
    simpl in *. apply Is_true_true in Hpre.
    destruct (is_strict_prefix_inv _ _ Hpre) as (rest & -> & Hne).
    exists rest, data. split; [done|]. split; [done|].
    split; [by eapply wf_fs_key; eauto|]. split; [done|].
    intros Hg. unfold blobs_storable in Hst. rewrite forallb_forall in Hst.
    specialize (Hst (cwd ++ rest, data)%list). cbn [fst snd] in Hst.
    rewrite (worktree_key_below _ Hne Hg) in Hst. cbn [negb orb] in Hst.
    by apply andb_true_iff in Hst as [? _];
      [|apply list_elem_of_In, elem_of_map_to_list]. }
  assert (Hin_ks : ∀ rest data, rest ≠ [] → files st !! (cwd ++ rest)%list = Some data →
            (cwd ++ rest)%list ∈ ks).
  { intros rest data Hne Hf. apply list_elem_of_filter. split.
    - apply Is_true_true. by apply is_strict_prefix_app.
    - apply list_elem_of_fmap. exists (cwd ++ rest, data)%list. split; [done|].
      by apply elem_of_map_to_list. }
  destruct (working_tree_loop st ks Hks) as (t & st' & Hrun & Hok & Hchar & Hkeep & Hobj).
  exists t, st'. split; [exact Hrun|]. split; [done|]. split; [|split; [|done]].
  - intros p o. rewrite (dict_get_elem _ _ _ Hok), Hchar. split.
    + intros (rest & data & Hin & Hne & Hg & Hf & -> & ->).
      exists (cwd ++ rest)%list, data. split; [by exists rest|].
      split; [done|]. by rewrite rel_of_below.
    + intros (key & data & (rest & -> & Hne & Hg) & Hf & -> & ->).
      exists rest, data. split; [by eapply Hin_ks|]. by rewrite rel_of_below.
  - intros p o Hin. apply (dict_get_elem _ _ _ Hok) in Hin.
    pose proof Hin as (rest & data & Hk & Hne & Hg & Hf & -> & ->)%Hchar.
    split.
    + destruct (Hks _ Hk) as (r' & _ & _ & _ & Hn & _).
      by rewrite (is_ignored_join _ Hne (normal_below _ Hn)), bool_decide_eq_false_2.
    + eexists. split; [done|]. unfold objects.object_exists, isfile.
      by rewrite bool_decide_eq_true_2 by (by eapply Hobj).
Qed.

End WorkingTreeListing.

(** ** Reading a tree into the index and the working tree *)

Section ReadTree.
Context {E : Env}.

Lemma dict_set_new {V} (k : string) (v : V) (d : Py.dict V) :
  k ∉ d.*1 → Py.dict_set k v d = (d ++ [(k, v)])%list.
Proof.
  induction d as [|[k0 v0] d IH]; simpl; [done|].
  intros [Hne Hk]%not_elem_of_cons.
  destruct (String.eqb k k0) eqn:Heq; [by apply String.eqb_eq in Heq|].
  by rewrite IH.
Qed.

(** The index of a tree has the entries of the tree, in their order. *)
Lemma index_of_tree_map (t : flat_tree) :
  dict_ok t → index_of_tree t = (λ po, (po.1, Clear po.2)) <$> t.
Proof.
  unfold index_of_tree, dict_ok.
  assert (H : ∀ (t : flat_tree) (acc : Index),
            NoDup t.*1 → (∀ k, k ∈ t.*1 → k ∉ acc.*1) →
            fold_left (λ index (po : string * option string),
                         Py.dict_set po.1 (Clear po.2) index) t acc
            = (acc ++ ((λ po, (po.1, Clear po.2)) <$> t))%list).
  { clear. induction t as [|[p o] t IH]; intros acc Hnd Hdis; simpl.
    - by rewrite app_nil_r.
    - apply NoDup_cons in Hnd as [Hp Hnd]. simpl.
      rewrite dict_set_new by apply Hdis, list_elem_of_here.
      rewrite IH; [by rewrite <- app_assoc|done|].
      intros k Hk. rewrite fmap_app, elem_of_app. simpl.
      intros [Hin|Hkp%list_elem_of_singleton]; [|by subst].
      by apply (Hdis k); [apply list_elem_of_further|]. }
  intros Hok. rewrite H; [done|done|]. intros k _. apply not_elem_of_nil.
Qed.

Lemma dict_update_ok {V} (d d2 : Py.dict V) : dict_ok d → dict_ok (Py.dict_update d d2).
Proof.
  unfold Py.dict_update. revert d. induction d2 as [|[k v] d2 IH]; intros d Hd; simpl; [done|].
  by apply IH, dict_set_ok.
Qed.

(** A tree that was read has each path once. *)
Lemma get_tree_go_ok (d : nat) (oid : option string) (base : string) (st st' : State)
    (t : flat_tree) :
  repository.get_tree_go d oid base st = (Ok t, st') → dict_ok t.
Proof.
  destruct d as [|d]; [done|]. cbn [repository.get_tree_go].
  destruct (negb (Py.truthy_opt oid)).
  { intros [= <- _]. apply NoDup_nil_2. }
  intros (tree & s0 & _ & Hrun)%bind_ok_cases.
  refine (fold_m_inv (λ acc _, dict_ok acc) _ (Py.splitlines tree) [] t s0 st' _ _ Hrun);
    [|apply NoDup_nil_2].
  clear. intros b a s b' s' _ Hb.
  destruct (Py.splitn 2 " " a) as [|type_ [|o [|name [|? ?]]]]; try done.
  intros ([] & s1 & _ & Hrest)%bind_ok_cases.
  apply bind_ok_cases in Hrest as ([] & s2 & _ & Hrest).
  destruct (String.eqb type_ "blob").
  - injection Hrest as <- _. by apply dict_set_ok.
  - destruct (String.eqb type_ "tree"); [|done].
    apply bind_ok_cases in Hrest as (sub & s3 & _ & [= <- _]).
    by apply dict_update_ok.
Qed.

(** [read_tree] with the update of the working tree, run. *)
Lemma read_tree_spec (tree_oid : string) (t : flat_tree) (st : State) :
  wf_fs st = true →
  repository.get_tree (Some tree_oid) st = (Ok t, st) →
  (∀ p o, (p, o) ∈ t → plain_path p = true ∧ ∃ x, o = Some x ∧ oid_ok x = true) →
  (∀ p x, (p, Some x) ∈ t → ∃ data, objects.get_object x (Some "blob") st = (Ok data, st)) →
  ∃ st',
    repository.read_tree tree_oid true st = (Ok tt, st')
    ∧ index_doc st' = Some ((λ po, (po.1, Clear po.2)) <$> t)
    ∧ (∀ p x data, (p, Some x) ∈ t →
         objects.get_object x (Some "blob") st = (Ok data, st) →
         files st' !! Path.abspath cwd p = Some data)
    ∧ (∀ key, in_worktree key → is_Some (files st' !! key) →
         ∃ p, p ∈ t.*1 ∧ Path.abspath cwd p = key)
    ∧ (∀ rest, files st' !! (cwd ++ ".gitforge" :: rest)%list
               = files st !! (cwd ++ ".gitforge" :: rest)%list)
    ∧ rebase_doc st' = rebase_doc st.
Proof.
  intros Hwf Htree Hplain Hblobs. pose proof (get_tree_go_ok _ _ _ _ _ _ Htree) as Hok.
  unfold repository.read_tree. rewrite get_index_run, bind_unfold, Htree.
  cbv beta iota. fold (index_of_tree t). rewrite (index_of_tree_map t Hok).
  set (index := (λ po : string * option string, (po.1, Clear po.2)) <$> t).
  rewrite bind_unfold.
  assert (Hokx : dict_ok index).
  { unfold dict_ok, index. rewrite <- list_fmap_compose.
    by replace (fmap (fst ∘ (λ po : string * option string, (po.1, Clear po.2))) t)
      with t.*1 by (by apply list_fmap_ext; intros ? []). }
  assert (Hpl : ∀ p e, (p, e) ∈ index →
            plain_path p = true ∧ ∀ o, entry_oid e = Some o → oid_ok o = true).
  { intros p e ([p' o'] & [= -> ->] & Hin)%list_elem_of_fmap.
    destruct (Hplain _ _ Hin) as (Hp & x & -> & Hx). split; [done|].
    by intros o [= <-]. }
  assert (Hbl : ∀ p e o, (p, e) ∈ index → entry_oid e = Some o →
            ∃ data, objects.get_object o (Some "blob") st = (Ok data, st)).
  { intros p e o ([p' o'] & [= -> ->] & Hin)%list_elem_of_fmap. simpl. intros ->.
    by apply (Hblobs p'). }
  destruct (checkout_index_spec index st Hwf Hokx Hpl Hbl)
    as (s1 & Hco & Ha & Hb & Hs & _ & Hr).
  rewrite Hco. eexists. split; [reflexivity|]. cbn [index_doc files rebase_doc fst snd].
  split; [done|]. split; [|split; [|done]].
  - intros p x data Hin. apply (Ha p (Clear (Some x)) x); [|done].
    apply list_elem_of_fmap. by exists (p, Some x).
  - intros key Hkey Hsome.
    destruct (Hb key Hkey Hsome) as (p & e & o & Hin & _ & Heq).
    exists p. split; [|done]. apply list_elem_of_fmap in Hin as ([p' o'] & [= -> _] & Hin).
    apply list_elem_of_fmap. by exists (p', o').
Qed.

(** X30. [read_tree] with the update of the working tree makes the index
    and the working tree those of the tree: it returns, the index has the
    entries of the tree, all clear; every path of the tree is a file with
    the contents of its blob; no other file of the working tree is left;
    and the files of the store are as they were.  The state has normal file
    names, the blobs of the tree can be read, the tree has plain paths and
    oids of 40 hexadecimal digits, and no name of a file clashes with the
    name of a directory. *)
Theorem X30_read_tree_checks_the_tree_out (tree_oid : string) (t : flat_tree)
    (st : State) :
  wf_fs st = true →
  repository.get_tree (Some tree_oid) st = (Ok t, st) →
  checkout_ok st t.*1 = true →
  (∀ p o, (p, o) ∈ t → plain_path p = true ∧ ∃ x, o = Some x ∧ oid_ok x = true) →
  (∀ p x, (p, Some x) ∈ t → ∃ data, objects.get_object x (Some "blob") st = (Ok data, st)) →
  ∃ st',
    repository.read_tree tree_oid true st = (Ok tt, st')
    ∧ index_doc st' = Some ((λ po, (po.1, Clear po.2)) <$> t)
    ∧ (∀ p x data, (p, Some x) ∈ t →
         objects.get_object x (Some "blob") st = (Ok data, st) →
         files st' !! Path.abspath cwd p = Some data)
    ∧ (∀ key, in_worktree key → is_Some (files st' !! key) →
         ∃ p, p ∈ t.*1 ∧ Path.abspath cwd p = key)
    ∧ (∀ rest, files st' !! (cwd ++ ".gitforge" :: rest)%list
               = files st !! (cwd ++ ".gitforge" :: rest)%list).
Proof.
  intros Hwf Htree _ Hplain Hblobs.
  destruct (read_tree_spec tree_oid t st Hwf Htree Hplain Hblobs)
    as (st' & Hrun & Hi & Ha & Hb & Hs & _).
  by exists st'.
Qed.

End ReadTree.

(** ** The properties at work in the demonstration repository *)

Section Runs2.
#[local] Existing Instance Demo.env.

(** A read-only computation on a state that is given in full. *)
Ltac ro_vm lem := apply readonly_eq; [apply lem | by_vm].

Lemma demo_recursion_limit (n : nat) : (n <? 1000) = true → n < recursion_limit.
Proof. intros H%Nat.ltb_lt. exact H. Qed.

Lemma X1_witness :
  objects.get_ref "MERGE_HEAD" true Demo.fresh = (Ok (mkRefValue false None), Demo.fresh).
Proof.
  apply (X1_get_ref_of_a_missing_ref "MERGE_HEAD" true Demo.fresh).
  - apply demo_recursion_limit. reflexivity.
  - by_vm.
  - ro_vm isfile_ro.
Defined.

Lemma X2_witness :
  ∃ e, objects.update_ref "HEAD" (mkRefValue false (Some "")) true Demo.fresh
       = (Raise e, Demo.fresh)
       ∧ (e = AssertionError "" ∨ e = RecursionError).
Proof.
  apply (X2_update_ref_rejects_an_empty_value "HEAD" (mkRefValue false (Some "")) true
           Demo.fresh).
  reflexivity.
Defined.






Lemma X9_witness :
  ∃ oid st1,
    objects.hash_object "Hello, World!" "blob" Demo.empty_disk = (Ok oid, st1) ∧
    objects.get_object oid (Some "tree") st1
    = (Raise (AssertionError ("Expected " +:+ "tree" +:+ ", got " +:+ "blob")), st1).
Proof.
  apply (X9_get_object_rejects_another_type (EnvOk0:=demo_env_ok)
           "Hello, World!" "blob" "tree" Demo.empty_disk).
  - reflexivity.
  - discriminate.
  - by_vm.
Defined.



Lemma X12_witness :
  let t_from := [("kept.txt", Some Demo.blob_base); ("gone.txt", Some Demo.blob_HEAD)] in
  let t_to := [("kept.txt", Some Demo.blob_other); ("new.txt", Some Demo.blob_HEAD)] in
  (∀ path action,
     (path, action) ∈ diff_engine.iter_changed_files t_from t_to ↔
     oid_at t_from path ≠ oid_at t_to path
     ∧ action = if negb (Py.truthy_opt (oid_at t_from path)) then "new file"
                else if negb (Py.truthy_opt (oid_at t_to path)) then "deleted"
                else "modified")
  ∧ diff_engine.iter_changed_files t_from t_from = [].
Proof.
  apply (X12_iter_changed_files
           [("kept.txt", Some Demo.blob_base); ("gone.txt", Some Demo.blob_HEAD)]
           [("kept.txt", Some Demo.blob_other); ("new.txt", Some Demo.blob_HEAD)]).
  - apply (bool_decide_unpack (NoDup _)). vm_compute. exact I.
  - apply (bool_decide_unpack (NoDup _)). vm_compute. exact I.
Defined.

Lemma X13_witness :
  Py.dict_get "file.txt" [("file.txt", Clear (Some Demo.blob_other))]
  = (λ x, Clear (Some x))
      <$> (if bool_decide (oid_at [("file.txt", Some Demo.blob_base)] "file.txt"
                           = oid_at [("file.txt", Some Demo.blob_base)] "file.txt")
           then oid_at [("file.txt", Some Demo.blob_other)] "file.txt"
           else oid_at [("file.txt", Some Demo.blob_base)] "file.txt")
  ∧ "file.txt" ∉ @nil string.
Proof.
  apply (X13_merge_trees_one_side
           [("file.txt", Some Demo.blob_base)] [("file.txt", Some Demo.blob_base)]
           [("file.txt", Some Demo.blob_other)] Demo.empty_disk
           (diff_engine.merge_trees
              [("file.txt", Some Demo.blob_base)] [("file.txt", Some Demo.blob_base)]
              [("file.txt", Some Demo.blob_other)] Demo.empty_disk).2
           [("file.txt", Clear (Some Demo.blob_other))] [] "file.txt").
  - apply NoDup_singleton.
  - apply NoDup_singleton.
  - apply NoDup_singleton.
  - reflexivity.
  - reflexivity.
  - reflexivity.
  - left. reflexivity.
  - apply run_eq. by_vm.
Defined.

Lemma X15_witness :
  let st := Demo.fast_forward.2 in
  ∃ t st', repository.get_working_tree st = (Ok t, st')
    ∧ dict_ok t
    ∧ (∀ p o, (p, o) ∈ t ↔
         ∃ key data, in_worktree key ∧ files st !! key = Some data
                     ∧ p = Path.rel_of cwd key ∧ o = Some (blob_oid data))
    ∧ (∀ p o, (p, o) ∈ t →
         repository.is_ignored p = false
         ∧ ∃ oid, o = Some oid ∧ objects.object_exists oid st' = (Ok true, st'))
    ∧ (∀ key, in_worktree key → files st' !! key = files st !! key).
Proof.
  apply (X15_get_working_tree Demo.fast_forward.2).
  - by_vm.
  - by_vm.
Defined.

Lemma X16_witness :
  let st := Demo.cherry_pick_stopped.2 in
  let index := default [] (index_doc st) in
  ∃ t st', repository.get_index_tree st = (Ok t, st')
    ∧ (∀ p o, Py.dict_get p t = Some o ↔ Py.dict_get p index = Some (Clear o))
    ∧ index_doc st' = Some index ∧ files st' = files st.
Proof.
  apply (X16_get_index_tree Demo.cherry_pick_stopped.2).
  - by_vm.
  - apply (bool_decide_unpack (NoDup _)). vm_compute. exact I.
Defined.

Lemma X17_witness :
  let st := Demo.linear_three.2 in
  let index := default [] (index_doc st) in
  ∃ st' index',
    repository.add ["gone.txt"] st = (Ok tt, st')
    ∧ index_doc st' = Some index'
    ∧ Py.dict_get "gone.txt" index' = None
    ∧ (∀ p, p ≠ "gone.txt" → Py.dict_get p index' = Py.dict_get p index)
    ∧ files st' = files st.
Proof.
  apply (X17_add_of_a_missing_path "gone.txt" "gone.txt" Demo.linear_three.2).
  - by_vm.
  - by_vm.
  - ro_vm isfile_ro.
  - ro_vm isdir_ro.
  - by_vm.
  - apply (bool_decide_unpack (NoDup _)). vm_compute. exact I.
Defined.

Lemma X18_witness :
  "file.txt" ∈ (default [] (index_doc Demo.linear_three.2)).*1
  ∨ repository.is_ignored "file.txt" = false.
Proof.
  apply (X18_add_of_a_directory_skips_the_store "." Demo.linear_three.2
           (repository.add ["."] Demo.linear_three.2).2).
  - by_vm.
  - ro_vm isfile_ro.
  - apply run_eq. by_vm.
  - apply (bool_decide_unpack _). vm_compute. exact I.
Defined.

Lemma X21_witness :
  ("." ∉ Py.split "/" "dir/new.txt") ∧ (".." ∉ Py.split "/" "dir/new.txt").
Proof.
  apply (X21_get_tree_paths_do_not_climb (Some Demo.ahead_tree) Demo.fast_forward.2
           (repository.get_tree (Some Demo.ahead_tree) Demo.fast_forward.2).2
           [("dir/new.txt", Some "2952925589b640a58cff794461344baf2205e593");
            ("file.txt", Some "9217f5096ff1a5ed8f6dc963e89f3b3bd50b4fc8");
            ("old.txt", Some "164226a5ee7f3fb92928bf4ec0954630d82dec0a")]).
  - apply run_eq. by_vm.
  - apply list_elem_of_here.
Defined.

Lemma X22_witness :
  repository.get_oid Demo.first Demo.fresh =
    if (String.length Demo.first =? 40) && Py.all_chars Py.is_hexdigit Demo.first
    then (Ok (Some Demo.first), Demo.fresh)
    else (Raise (AssertionError ("Unknown name " +:+ Demo.first)), Demo.fresh).
Proof.
  apply (X22_get_oid_of_no_ref Demo.first Demo.fresh).
  - apply demo_recursion_limit. reflexivity.
  - discriminate.
  - intros ref Hin.
    repeat (apply elem_of_cons in Hin as [->|Hin]; [split; [by_vm | ro_vm isfile_ro]|]).
    by apply elem_of_nil in Hin.
Defined.

Lemma X23_witness :
  repository.is_ancestor_of Demo.first (Some Demo.first) Demo.fresh = (Ok true, Demo.fresh).
Proof.
  apply (X23_is_ancestor_of_itself Demo.first Demo.fresh).
  - apply Nat.ltb_lt. reflexivity.
  - reflexivity.
Defined.





Lemma X28_witness :
  let st := Demo.cherry_pick_stopped.2 in
  ∃ msg, repository.checkout "feature" st
         = (Raise (ConflictException msg
                     (objects.get_conflicted_files (default [] (index_doc st)))), st).
Proof.
  apply (X28_checkout_refused_on_conflicts "feature" Demo.cherry_pick_stopped.2).
  by_vm.
Defined.

Lemma X20_witness :
  ∃ st', repository._empty_current_directory Demo.linear_three.2 = (Ok tt, st')
         ∧ ∀ key, in_worktree key → files st' !! key = None.
Proof.
  apply (X20_empty_current_directory_clears_the_working_tree Demo.linear_three.2).
  by_vm.
Defined.

Lemma X29_witness :
  let index := [("file.txt", Clear (Some "ea0cdb67f4da23022a25419c75e8bcbff06c4cad"))] in
  let st := Demo.linear_three.2 in
  ∃ st',
    repository._checkout_index index st = (Ok tt, st')
    ∧ (∀ p e o data, (p, e) ∈ index → entry_oid e = Some o →
         objects.get_object o (Some "blob") st = (Ok data, st) →
         files st' !! Path.abspath cwd p = Some data)
    ∧ (∀ key, in_worktree key → is_Some (files st' !! key) →
         ∃ p e o, (p, e) ∈ index ∧ entry_oid e = Some o ∧ Path.abspath cwd p = key)
    ∧ (∀ rest, files st' !! (cwd ++ ".gitforge" :: rest)%list
               = files st !! (cwd ++ ".gitforge" :: rest)%list)
    ∧ index_doc st' = index_doc st.
Proof.
  apply (X29_checkout_index_writes_the_index
           [("file.txt", Clear (Some "ea0cdb67f4da23022a25419c75e8bcbff06c4cad"))]
           Demo.linear_three.2).
  - by_vm.
  - apply NoDup_singleton.
  - by_vm.
  - intros p e [= -> ->]%list_elem_of_singleton. split; [reflexivity|].
    intros o [= <-]. reflexivity.
  - intros p e o [= -> ->]%list_elem_of_singleton [= <-].
    eexists. ro_vm get_object_ro.
Defined.

Lemma X30_witness :
  let t := [("dir/new.txt", Some "2952925589b640a58cff794461344baf2205e593");
            ("file.txt", Some "9217f5096ff1a5ed8f6dc963e89f3b3bd50b4fc8");
            ("old.txt", Some "164226a5ee7f3fb92928bf4ec0954630d82dec0a")] in
  let st := Demo.fast_forward.2 in
  ∃ st',
    repository.read_tree Demo.ahead_tree true st = (Ok tt, st')
    ∧ index_doc st' = Some ((λ po, (po.1, Clear po.2)) <$> t)
    ∧ (∀ p x data, (p, Some x) ∈ t →
         objects.get_object x (Some "blob") st = (Ok data, st) →
         files st' !! Path.abspath cwd p = Some data)
    ∧ (∀ key, in_worktree key → is_Some (files st' !! key) →
         ∃ p, p ∈ t.*1 ∧ Path.abspath cwd p = key)
    ∧ (∀ rest, files st' !! (cwd ++ ".gitforge" :: rest)%list
               = files st !! (cwd ++ ".gitforge" :: rest)%list).
Proof.
  apply (X30_read_tree_checks_the_tree_out Demo.ahead_tree
           [("dir/new.txt", Some "2952925589b640a58cff794461344baf2205e593");
            ("file.txt", Some "9217f5096ff1a5ed8f6dc963e89f3b3bd50b4fc8");
            ("old.txt", Some "164226a5ee7f3fb92928bf4ec0954630d82dec0a")]
           Demo.fast_forward.2).
  - by_vm.
  - ro_vm get_tree_ro.
  - by_vm.
  - intros p o Hin.
    repeat (apply elem_of_cons in Hin as [[= -> ->]|Hin];
            [split; [reflexivity | eexists; split; reflexivity]|]).
    by apply elem_of_nil in Hin.
  - intros p x Hin.
    repeat (apply elem_of_cons in Hin as [[= -> ->]|Hin];
            [eexists; ro_vm get_object_ro|]).
    by apply elem_of_nil in Hin.
Defined.

End Runs2.
